(** * Verification of the manga chapter downloader ([manga_downloader.py])

    A shallow embedding of the fetch / extract / download / assemble
    pipeline of [manga_downloader.py], and the properties its specification
    states about it.

    Text is modelled as [string] (characters with codes below 256), byte
    buffers as [list byte], Python dictionaries as [gmap], the file system
    and the network as an explicit state threaded through a small
    state-and-exception monad, and everything the program obtains from the
    outside (HTTP responses, image decoding, scheduling of worker threads)
    as fields of a record [World].

    Conventions of the model:
    - [progress_callback] is [None], its default: the progress lines are an
      observer of the run and take no part in it;
    - the functions of the Python library the program calls ([re],
      [urllib.parse.urlparse], [os.path.splitext], [str] methods, [int])
      are modelled in the modules [Py], [Re] and [Lib] after CPython 3.11;
    - the workers of the thread pool run concurrently: the operations of
      the units of work on the outside world (one request, and one file
      written, each) take place in an order the world decides, field
      [schedule], and the results reach the main loop in the order in which
      [as_completed] yields the futures, field [as_completed]; a unit reads
      nothing of the shared state, so what it does and returns is what it
      does and returns when run on its own (lemma [_download_one_alone]);
    - a write that raises may have opened its file before: the world
      decides whether the file is as it was or holds what was written up to
      the exception ([write_result]). *)

From Stdlib Require Import ZArith Ascii String.
From Stdlib.Strings Require Import Byte.
From stdpp Require Import base option list gmap strings pretty sorting.

Local Open Scope string_scope.
Local Open Scope Z_scope.

(** ** Python text primitives *)

Module Py.

(** The double quote character, [chr(34)]. *)
Definition dquote : ascii := "034"%char.

Definition chars (s : string) : list ascii := list_ascii_of_string s.
Definition text (l : list ascii) : string := string_of_list_ascii l.

Definition code (c : ascii) : Z := Z.of_nat (nat_of_ascii c).

Definition in_range (lo hi : Z) (c : ascii) : bool :=
  (lo <=? code c) && (code c <=? hi).

(** [c.isspace()] for a character below 256; also what [\s] matches in a
    text pattern. *)
Definition isspace (c : ascii) : bool :=
  in_range 9 13 c || in_range 28 32 c || (code c =? 133) || (code c =? 160).

Definition is_ascii_alpha (c : ascii) : bool :=
  in_range 65 90 c || in_range 97 122 c.

Definition is_digit (c : ascii) : bool := in_range 48 57 c.

(** [c.lower()] for a character below 256: the ASCII capitals and the
    Latin-1 capitals (all of 192..222 except the multiplication sign). *)
Definition lower_char (c : ascii) : ascii :=
  if in_range 65 90 c
     || (in_range 192 222 c && negb (code c =? 215))
  then ascii_of_nat (nat_of_ascii c + 32)
  else c.

(** [s.lower()] *)
Definition lower (s : string) : string := text (map lower_char (chars s)).

Fixpoint lstrip_by (f : ascii -> bool) (l : list ascii) : list ascii :=
  match l with
  | c :: l' => if f c then lstrip_by f l' else l
  | [] => []
  end.

Definition rstrip_by (f : ascii -> bool) (l : list ascii) : list ascii :=
  rev (lstrip_by f (rev l)).

(** [s.strip()] *)
Definition strip (s : string) : string :=
  text (rstrip_by isspace (lstrip_by isspace (chars s))).

Fixpoint starts (p l : list ascii) : bool :=
  match p, l with
  | [], _ => true
  | a :: p', b :: l' => Ascii.eqb a b && starts p' l'
  | _ :: _, [] => false
  end.

(** [s.startswith(p)] and [s.endswith(p)] *)
Definition startswith (s p : string) : bool := starts (chars p) (chars s).
Definition endswith (s p : string) : bool :=
  starts (rev (chars p)) (rev (chars s)).

(** The part of [l] before the first [c]: [l.split(c, 1)[0]]. *)
Fixpoint before_first (c : ascii) (l : list ascii) : list ascii :=
  match l with
  | [] => []
  | a :: l' => if Ascii.eqb a c then [] else a :: before_first c l'
  end.

Definition split_head (s : string) (sep : ascii) : string :=
  text (before_first sep (chars s)).

(** [l.find(c, start)] counted from position [pos] of the whole text, the
    list being the text from [pos] on; -1 when absent. *)
Fixpoint find_at (c : ascii) (l : list ascii) (pos : Z) : Z :=
  match l with
  | [] => -1
  | a :: l' => if Ascii.eqb a c then pos else find_at c l' (pos + 1)
  end.

Definition find (l : list ascii) (c : ascii) : Z := find_at c l 0.

Definition find_from (l : list ascii) (c : ascii) (start : Z) : Z :=
  let start := Z.max 0 start in
  find_at c (drop (Z.to_nat start) l) start.

(** [l.rfind(c)]; -1 when absent. *)
Fixpoint rfind_at (c : ascii) (l : list ascii) (pos : Z) (last : Z) : Z :=
  match l with
  | [] => last
  | a :: l' => rfind_at c l' (pos + 1) (if Ascii.eqb a c then pos else last)
  end.

Definition rfind (l : list ascii) (c : ascii) : Z := rfind_at c l 0 (-1).

(** Slices with non-negative bounds: [l[i:j]], [l[:j]], [l[i:]]. *)
Definition slice (l : list ascii) (i j : Z) : list ascii :=
  take (Z.to_nat j - Z.to_nat i) (drop (Z.to_nat i) l).
Definition upto (l : list ascii) (j : Z) : list ascii := take (Z.to_nat j) l.
Definition from (l : list ascii) (i : Z) : list ascii := drop (Z.to_nat i) l.

Definition contains (l : list ascii) (c : ascii) : bool :=
  existsb (Ascii.eqb c) l.

(** [f"{n:03}"]: decimal, padded with zeros to at least three digits. *)
Definition decimal (n : nat) : string := pretty n.

Definition format_03 (n : nat) : string :=
  let d := decimal n in
  text (replicate (3 - String.length d)%nat "0"%char) +:+ d.

(** The backslash, [chr(92)]. *)
Definition backslash : ascii := "092"%char.

(** [c.isprintable()] for a character below 256. *)
Definition isprintable (c : ascii) : bool :=
  in_range 32 126 c || (in_range 161 255 c && negb (code c =? 173)).

Definition hex_digit (n : Z) : ascii :=
  ascii_of_nat (Z.to_nat (if n <? 10 then 48 + n else 87 + n)).

(** One character of [repr(s)], for the quote chosen. *)
Definition repr_char (quote c : ascii) : list ascii :=
  if Ascii.eqb c quote || Ascii.eqb c backslash then [backslash; c]
  else if code c =? 9 then [backslash; "t"%char]
  else if code c =? 10 then [backslash; "n"%char]
  else if code c =? 13 then [backslash; "r"%char]
  else if isprintable c then [c]
  else [backslash; "x"%char; hex_digit (code c / 16); hex_digit (code c mod 16)].

(** [repr(s)]: in single quotes, unless the text has a single quote and no
    double quote. *)
Definition repr (s : string) : string :=
  let l := chars s in
  let quote :=
    if contains l "'" && negb (contains l dquote) then dquote else "'"%char in
  text (quote :: concat (map (repr_char quote) l) ++ [quote]).

End Py.

(** ** The fragment of Python's [re] the program uses

    Both patterns of the program are flat sequences of literal characters,
    repetitions of one character class and capture groups.  The matcher is
    the usual backtracking one: a greedy repetition tries the longest run
    first, a lazy one the shortest, and the first complete match wins. *)

Module Re.

Inductive node :=
| Lit (c : ascii)                  (* a literal character *)
| Opt (c : ascii)                  (* [c?] *)
| Plus (cls : ascii -> bool)       (* [[...]+], greedy *)
| Star (cls : ascii -> bool)       (* [[...]*], greedy *)
| LazyStar (cls : ascii -> bool)   (* [.*?] *)
| Mark.                            (* an opening or closing parenthesis *)

Definition regex := list node.

Definition lits (s : string) : regex := map Lit (Py.chars s).

Section Repeat.
Context {R : Type}.
(** What remains of the pattern, run on the rest of the subject and the
    position reached. *)
Variable k : list ascii -> nat -> option R.
Variable cls : ascii -> bool.

Fixpoint greedy (s : list ascii) (pos : nat) : option R :=
  match s with
  | c :: s' =>
      if cls c then
        match greedy s' (S pos) with
        | Some r => Some r
        | None => k s pos
        end
      else k s pos
  | [] => k s pos
  end.

Fixpoint lazy (s : list ascii) (pos : nat) : option R :=
  match k s pos with
  | Some r => Some r
  | None =>
      match s with
      | c :: s' => if cls c then lazy s' (S pos) else None
      | [] => None
      end
  end.
End Repeat.

(** [run p s pos marks]: match [p] at the start of [s], which begins at
    offset [pos] of the subject; the result is the end offset and the
    offsets of the parentheses passed, in pattern order. *)
Fixpoint run (p : regex) (s : list ascii) (pos : nat) (marks : list nat)
  : option (nat * list nat) :=
  match p with
  | [] => Some (pos, marks)
  | Lit c :: p' =>
      match s with
      | a :: s' => if Ascii.eqb a c then run p' s' (S pos) marks else None
      | [] => None
      end
  | Opt c :: p' =>
      match s with
      | a :: s' =>
          if Ascii.eqb a c then
            match run p' s' (S pos) marks with
            | Some r => Some r
            | None => run p' s pos marks
            end
          else run p' s pos marks
      | [] => run p' s pos marks
      end
  | Plus cls :: p' =>
      match s with
      | a :: s' =>
          if cls a then greedy (fun t q => run p' t q marks) cls s' (S pos)
          else None
      | [] => None
      end
  | Star cls :: p' => greedy (fun t q => run p' t q marks) cls s pos
  | LazyStar cls :: p' => lazy (fun t q => run p' t q marks) cls s pos
  | Mark :: p' => run p' s pos (marks ++ [pos])
  end.

(** A match: start offset, end offset, offsets of the parentheses. *)
Record found := Found { m_start : nat; m_end : nat; m_marks : list nat }.

Definition at_pos (p : regex) (s : list ascii) (pos : nat) : option found :=
  match run p s pos [] with
  | Some (e, marks) => Some (Found pos e marks)
  | None => None
  end.

(** [re.search]: the leftmost start offset at which the pattern matches. *)
Fixpoint search_from (p : regex) (s : list ascii) (pos : nat) : option found :=
  match at_pos p s pos with
  | Some m => Some m
  | None =>
      match s with
      | [] => None
      | _ :: s' => search_from p s' (S pos)
      end
  end.

Definition search (p : regex) (subject : string) : option found :=
  search_from p (Py.chars subject) 0.

(** [re.finditer]: the successive leftmost matches, each search resuming
    where the previous match ended ([skip] counts the characters of the
    current match still to be passed over). *)
Fixpoint finditer_from (p : regex) (s : list ascii) (pos skip : nat)
  {struct s} : list found :=
  match skip with
  | S n =>
      match s with
      | [] => []
      | _ :: s' => finditer_from p s' (S pos) n
      end
  | O =>
      match at_pos p s pos with
      | Some m =>
          m :: match s with
               | [] => []
               | _ :: s' => finditer_from p s' (S pos) (m_end m - S pos)
               end
      | None =>
          match s with
          | [] => []
          | _ :: s' => finditer_from p s' (S pos) 0
          end
      end
  end.

Definition finditer (p : regex) (subject : string) : list found :=
  finditer_from p (Py.chars subject) 0 0.

(** The text between two offsets of the subject. *)
Definition between (subject : string) (b e : nat) : string :=
  Py.text (take (e - b) (drop b (Py.chars subject))).

(** [m.group(n)] for n >= 1: the text between the n-th pair of
    parentheses (the patterns here have no nested groups). *)
Definition group (subject : string) (m : found) (n : nat) : string :=
  match m_marks m !! (2 * (n - 1))%nat, m_marks m !! (2 * (n - 1) + 1)%nat with
  | Some b, Some e => between subject b e
  | _, _ => EmptyString
  end.

End Re.

(** ** Exceptions, values and the outside world *)

Inductive exn_class :=
| ValueError | TypeError | RuntimeError | OSError
| RequestException | UnidentifiedImageError.

Global Instance exn_class_eq_dec : EqDecision exn_class.
Proof. solve_decision. Defined.

(** An exception: its class and the text [str(exc)] gives. *)
Record exn := Exn { exn_cls : exn_class; exn_str : string }.

(** What a caller may pass as [max_workers]. *)
Inductive pyval :=
| PyInt (z : Z)
| PyBool (b : bool)
| PyStr (s : string)
| PyNone.

(** A decoded image, as far as [_prepare_for_pdf] looks at it: its mode,
    whether [image.info] has the key "transparency", and its raster. *)
Record image := Image {
  img_mode : string;
  img_transparency : bool;
  img_raster : list byte
}.

(** A page ready for the document: the image composited over white, or
    converted to RGB directly. *)
Inductive page :=
| OverWhite (i : image)
| ToRGB (i : image).

(** What [Image.open] does with a byte buffer. *)
Inductive opened :=
| Opened (i : image)
| Unidentified
| OpenFails (e : exn).

Record response := Response {
  resp_content : list byte;
  resp_content_type : option string   (* the Content-Type header, if any *)
}.

Inductive os_name := Posix | NT.

(** What writing a file comes to.  It goes through; or it raises and the
    file is as it was (the exception came before the file was opened, or
    the library removed the file it had just created); or it raises after
    the file was opened for writing, and the file holds what had been
    written by then. *)
Inductive write_result :=
| Written
| Refused (e : exn)
| Broken (e : exn) (remains : list byte).

(** A unit of work of the pool: index, base, path. *)
Definition task : Type := nat * string * string.

(** Everything the program obtains from outside itself. *)
Record World := {
  os : os_name;
  (** [os.path.join] of the platform *)
  os_path_join : string -> string -> string;
  (** [urllib.parse._check_bracketed_netloc]: the exception it raises *)
  check_bracketed_netloc : string -> option exn;
  (** [int(s)] for a text: the integer, or [None] for ValueError *)
  int_of_str : string -> option Z;
  (** [os.makedirs(d, exist_ok=True)]: the exception it raises, if any *)
  makedirs_error : string -> option exn;
  (** GET of the chapter page with [raise_for_status]: the page text *)
  page_get : string -> exn + string;
  (** GET of one image with [raise_for_status] *)
  image_get : string -> exn + response;
  (** [open(path, "wb")] and [write(content)] *)
  write_outcome : string -> list byte -> write_result;
  (** whether [from PIL import Image, UnidentifiedImageError] succeeds *)
  pillow_installed : bool;
  (** [Image.open] on the bytes of a file or buffer *)
  decode : list byte -> opened;
  (** [first_page.save(path, "PDF", ...)] *)
  pdf_save_outcome : string -> list page -> write_result;
  (** the order in which the workers of a pool of the given size get to
      act on the outside world: each entry is the position, in the list
      submitted, of the task whose next operation takes place *)
  schedule : Z -> list task -> list nat;
  (** the order in which [as_completed] yields the futures of the
      submitted tasks, for a pool of the given size *)
  as_completed : Z -> list task -> list task
}.

Definition raise {A} (c : exn_class) (msg : string) : exn + A :=
  inl (Exn c msg).

(** ** Library functions the program calls *)

Module Lib.
Import Py.

(** [int(v)] *)
Definition int (W : World) (v : pyval) : exn + Z :=
  match v with
  | PyInt z => inr z
  | PyBool b => inr (if b then 1 else 0)
  | PyStr s =>
      match int_of_str W s with
      | Some z => inr z
      | None => raise ValueError "invalid literal for int() with base 10"
      end
  | PyNone =>
      raise TypeError
        "int() argument must be a string, a bytes-like object or a real number, not 'NoneType'"
  end.

(** [genericpath._splitext(p, sep, altsep, extsep)]: the extension is
    everything from the last dot on, provided the dot comes after the last
    separator and some character of the file name before it is not a dot. *)
Definition _splitext (p : list ascii) (sep : ascii) (altsep : option ascii)
    (extsep : ascii) : list ascii * list ascii :=
  let sepIndex := rfind p sep in
  let sepIndex :=
    match altsep with
    | Some a => Z.max sepIndex (rfind p a)
    | None => sepIndex
    end in
  let dotIndex := rfind p extsep in
  if (sepIndex <? dotIndex)
     && existsb (fun c => negb (Ascii.eqb c extsep))
          (slice p (sepIndex + 1) dotIndex)
  then (upto p dotIndex, from p dotIndex)
  else (p, []).

(** [os.path.splitext(p)[1]]; on Windows the separator is the backslash,
    [chr(92)], and the slash is the alternative one. *)
Definition splitext_ext (o : os_name) (p : string) : string :=
  text (snd match o with
            | Posix => _splitext (chars p) "/" None "."
            | NT => _splitext (chars p) "092" (Some "/"%char) "."
            end).

Definition scheme_chars (c : ascii) : bool :=
  is_ascii_alpha c || is_digit c || contains (chars "+-.") c.

Definition uses_params : list string :=
  [EmptyString; "ftp"; "hdl"; "prospero"; "http"; "imap"; "https"; "shttp";
   "rtsp"; "rtspu"; "sip"; "sips"; "mms"; "sftp"; "tel"].

(** [_splitnetloc(url, start)] *)
Definition _splitnetloc (url : list ascii) (start : Z)
  : list ascii * list ascii :=
  let delim :=
    fold_left
      (fun delim c =>
         let wdelim := find_from url c start in
         if 0 <=? wdelim then Z.min delim wdelim else delim)
      (chars "/?#") (Z.of_nat (length url)) in
  (slice url start delim, from url delim).

(** [_splitparams(url)[0]] *)
Definition _splitparams (url : list ascii) : list ascii :=
  if contains url "/" then
    let i := find_from url ";" (rfind url "/") in
    if i <? 0 then url else upto url i
  else upto url (find url ";").

(** [urlsplit(url)]: scheme and path.  (For characters below 256
    [_checknetloc] never raises, so it is left out.) *)
Definition urlsplit (W : World) (url : string) : exn + (string * list ascii) :=
  let url := lstrip_by (fun c => code c <=? 32) (chars url) in
  let url :=
    List.filter (fun c => negb (contains ["009"; "013"; "010"]%char c)) url in
  let i := find url ":" in
  let '(scheme, url) :=
    if (0 <? i)
       && match url with c :: _ => is_ascii_alpha c | [] => false end
       && forallb scheme_chars (upto url i)
    then (lower (text (upto url i)), from url (i + 1))
    else (EmptyString, url) in
  let cut rest := before_first "?" (before_first "#" rest) in
  if starts (chars "//") url then
    let '(netloc, rest) := _splitnetloc url 2 in
    if (contains netloc "[" && negb (contains netloc "]"))
       || (contains netloc "]" && negb (contains netloc "["))
    then raise ValueError "Invalid IPv6 URL"
    else
      match
        (if contains netloc "[" && contains netloc "]"
         then check_bracketed_netloc W (text netloc) else None)
      with
      | Some e => inl e
      | None => inr (scheme, cut rest)
      end
  else inr (scheme, cut url).

(** [urlparse(url).path] *)
Definition urlparse_path (W : World) (url : string) : exn + string :=
  match urlsplit W url with
  | inl e => inl e
  | inr (scheme, url) =>
      inr (text (if bool_decide (scheme ∈ uses_params) && contains url ";"
                 then _splitparams url else url))
  end.

End Lib.

(** ** The program: constants and pure helpers *)

Definition ALLOWED_EXTENSIONS : gset string :=
  {[ ".jpg"; ".jpeg"; ".png"; ".webp"; ".wepb" ]}.

Definition CONTENT_TYPE_TO_EXTENSION : gmap string string :=
  <["image/jpeg" := ".jpg"]>
    (<["image/jpg" := ".jpg"]>
       (<["image/png" := ".png"]>
          (<["image/webp" := ".webp"]> ∅))).

Definition DEFAULT_PDF_NAME : string := "chapter.pdf".
Definition DEFAULT_DOWNLOAD_WORKERS : Z := 8.
Definition MAX_DOWNLOAD_WORKERS : Z := 16.

Definition _build_image_url (base path : string) : string :=
  if Py.startswith path "http://" || Py.startswith path "https://"
  then path
  else base +:+ path.

Definition _detect_extension (W : World) (img_url content_type : string)
  : exn + string :=
  match Lib.urlparse_path W img_url with
  | inl e => inl e
  | inr url_path =>
      let ext := Py.lower (Lib.splitext_ext (os W) url_path) in
      if bool_decide (ext ∈ ALLOWED_EXTENSIONS) then
        if bool_decide (ext = ".jpeg") then inr ".jpg"
        else if bool_decide (ext = ".wepb") then inr ".webp"
        else inr ext
      else
        let mime := Py.lower (Py.strip (Py.split_head content_type ";")) in
        inr (default ".jpg" (CONTENT_TYPE_TO_EXTENSION !! mime))
  end.

(** ** Extraction of the page list (lines 142-150) *)

Definition not_char (c : ascii) : ascii -> bool := fun a => negb (Ascii.eqb a c).
Definition any_char : ascii -> bool := fun _ => true.

(** The pattern of line 142, [rm_h\.readerInit\([^,]+,\s*(\[\[.*?\]\])],
    searched with [re.S] (the dot matches every character). *)
Definition pattern : Re.regex :=
  (Re.lits "rm_h.readerInit("
  ++ [Re.Plus (not_char ","); Re.Lit ","; Re.Star Py.isspace; Re.Mark]
  ++ Re.lits "[["
  ++ [Re.LazyStar any_char]
  ++ Re.lits "]]"
  ++ [Re.Mark])%list.

(** The pattern of line 148, [\['(https?://[^']+)','',Q([^Q]+)Q] where Q
    stands for the double quote character. *)
Definition image_pattern : Re.regex :=
  (Re.lits "['"
  ++ [Re.Mark]
  ++ Re.lits "http" ++ [Re.Opt "s"] ++ Re.lits "://"
  ++ [Re.Plus (not_char "'"); Re.Mark]
  ++ Re.lits "','',"
  ++ [Re.Lit Py.dquote; Re.Mark; Re.Plus (not_char Py.dquote); Re.Mark;
      Re.Lit Py.dquote])%list.

(** [re.findall] for a pattern with two groups: the pairs of group texts. *)
Definition findall2 (p : Re.regex) (subject : string) : list (string * string) :=
  map (fun m => (Re.group subject m 1, Re.group subject m 2))
      (Re.finditer p subject).

Definition no_array_message : string :=
  "Массив страниц не найден. Вероятно, формат сайта изменился.".
Definition no_images_message : string :=
  "Не удалось извлечь ссылки на изображения.".

(** The data block [match.group(1)] and the [images] list, or the
    ValueError the program raises. *)
Definition find_images (html : string) : exn + list (string * string) :=
  match Re.search pattern html with
  | None => raise ValueError no_array_message
  | Some m =>
      let data := Re.group html m 1 in
      match findall2 image_pattern data with
      | [] => raise ValueError no_images_message
      | images => inr images
      end
  end.

(** [enumerate(l, start)] *)
Fixpoint enumerate {A} (l : list A) (start : nat) : list (nat * A) :=
  match l with
  | [] => []
  | x :: l' => (start, x) :: enumerate l' (S start)
  end.

(** The work submitted to the pool (lines 199-201): one task per image,
    numbered from 1. *)
Definition tasks_of (images : list (string * string)) : list task :=
  map (fun '(index, (base, path)) => (index, base, path)) (enumerate images 1%nat).

(** ** State: the file system and the record of input and output *)

Inductive file :=
| Bytes (content : list byte)
| Pdf (pages : list page).

(** Every operation on the outside world, in the order attempted; a write
    carries whether it went through. *)
Inductive event :=
| MakeDirs (dir : string)
| HttpGet (url : string)
| FileWrite (path : string) (written : bool)
| FileRead (path : string)
| PdfWrite (path : string) (written : bool).

Record state := State {
  files : gmap string file;
  log : list event
}.

(** Computations that read and change the state and may raise. *)
Definition M (A : Type) : Type := state -> (exn + A) * state.

Definition ret {A} (x : A) : M A := fun s => (inr x, s).
Definition throw {A} (e : exn) : M A := fun s => (inl e, s).
Definition bind {A B} (m : M A) (k : A -> M B) : M B :=
  fun s =>
    match m s with
    | (inr x, s') => k x s'
    | (inl e, s') => (inl e, s')
    end.
(** [try: m except Exception as exc: h exc] *)
Definition try_except {A} (m : M A) (h : exn -> M A) : M A :=
  fun s =>
    match m s with
    | (inl e, s') => h e s'
    | r => r
    end.
Definition lift {A} (r : exn + A) : M A := fun s => (r, s).
Definition record (ev : event) : M unit :=
  fun s => (inr tt, State (files s) (log s ++ [ev])).

Notation "'let*' x ':=' m 'in' k" := (bind m (fun x => k))
  (at level 10, x pattern, m at level 100, k at level 200).

(** [for x in l: f x], collecting the results. *)
Fixpoint for_each {A B} (f : A -> M B) (l : list A) : M (list B) :=
  match l with
  | [] => ret []
  | x :: l' =>
      let* y := f x in
      let* ys := for_each f l' in
      ret (y :: ys)
  end.

Section Program.
Variable W : World.

(** *** Operations on the outside world *)

Definition makedirs (dir : string) : M unit :=
  let* _ := record (MakeDirs dir) in
  match makedirs_error W dir with
  | Some e => throw e
  | None => ret tt
  end.

Definition session_get_text (url : string) : M string :=
  let* _ := record (HttpGet url) in
  lift (page_get W url).

Definition worker_get (url : string) : M response :=
  let* _ := record (HttpGet url) in
  lift (image_get W url).

Definition store (path : string) (f : file) : M unit :=
  fun s => (inr tt, State (<[path := f]> (files s)) (log s)).

(** [with open(path, "wb") as file_obj: file_obj.write(content)] *)
Definition write_file (path : string) (content : list byte) : M unit :=
  match write_outcome W path content with
  | Written =>
      let* _ := record (FileWrite path true) in store path (Bytes content)
  | Refused e => let* _ := record (FileWrite path false) in throw e
  | Broken e remains =>
      let* _ := record (FileWrite path false) in
      let* _ := store path (Bytes remains) in
      throw e
  end.

(** [Image.open(path)] *)
Definition read_file (path : string) : M (option file) :=
  fun s => (inr (files s !! path), s).

Definition open_image_file (path : string) : M opened :=
  let* _ := record (FileRead path) in
  let* f := read_file path in
  ret match f with
      | Some (Bytes b) => decode W b
      | Some (Pdf _) => Unidentified
      | None =>
          OpenFails (Exn OSError ("[Errno 2] No such file or directory: "
                                  +:+ Py.repr path))
      end.

(** [first_page.save(pdf_path, "PDF", save_all=True, append_images=...)] *)
Definition save_pdf (pdf_path : string) (pages : list page) : M unit :=
  match pdf_save_outcome W pdf_path pages with
  | Written =>
      let* _ := record (PdfWrite pdf_path true) in store pdf_path (Pdf pages)
  | Refused e => let* _ := record (PdfWrite pdf_path false) in throw e
  | Broken e remains =>
      let* _ := record (PdfWrite pdf_path false) in
      let* _ := store pdf_path (Bytes remains) in
      throw e
  end.

(** *** The document assembler (lines 43-119) *)

Definition no_pillow_message : string :=
  "Для сборки PDF нужен Pillow. Установите зависимости: pip install -r requirements.txt".
Definition no_pages_message : string := "Нет изображений для сборки PDF.".

Definition _import_pillow : M unit :=
  if pillow_installed W then ret tt
  else throw (Exn RuntimeError no_pillow_message).

Definition _prepare_for_pdf (img : image) : page :=
  if bool_decide (img_mode img ∈ ["RGBA"; "LA"])
     || (bool_decide (img_mode img = "P") && img_transparency img)
  then OverWhite img
  else ToRGB img.

Definition _save_pdf_pages (pages : list page) (pdf_path : string) : M unit :=
  match pages with
  | [] => throw (Exn ValueError no_pages_message)
  | first_page :: other_pages => save_pdf pdf_path (first_page :: other_pages)
  end.

(** The body of the two loops: a decoded image becomes a page, an
    unidentified one raises ValueError with the given text. *)
Definition page_of (o : opened) (unreadable : string) : M page :=
  match o with
  | Opened img => ret (_prepare_for_pdf img)
  | Unidentified => throw (Exn ValueError unreadable)
  | OpenFails e => throw e
  end.

Definition create_pdf_from_images (image_paths : list string)
    (pdf_path : string) : M unit :=
  let* _ := _import_pillow in
  let* pages :=
    for_each
      (fun image_path =>
         let* o := open_image_file image_path in
         page_of o ("Не удалось прочитать изображение: " +:+ image_path))
      image_paths in
  _save_pdf_pages pages pdf_path.

Definition create_pdf_from_page_bytes (pages_by_index : list (nat * list byte))
    (pdf_path : string) : M unit :=
  let* _ := _import_pillow in
  let* pages :=
    for_each
      (fun '(page_index, image_bytes) =>
         page_of (decode W image_bytes)
           ("Не удалось прочитать изображение страницы #"
            +:+ Py.format_03 page_index))
      pages_by_index in
  _save_pdf_pages pages pdf_path.

(** *** One unit of work (lines 176-196) *)

(** index, filename, image_content, error *)
Definition result : Type :=
  nat * option string * option (list byte) * option string.

Definition _download_one (output_dir : string) (pdf_only : bool) (t : task)
  : M result :=
  let '(index, base, path) := t in
  let img_url := _build_image_url base path in
  try_except
    (let* img_response := worker_get img_url in
     let image_content := resp_content img_response in
     if pdf_only then ret (index, None, Some image_content, None)
     else
       let* extension :=
         lift (_detect_extension W img_url
                 (default EmptyString (resp_content_type img_response))) in
       let filename :=
         os_path_join W output_dir (Py.format_03 index +:+ extension) in
       let* _ := write_file filename image_content in
       ret (index, Some filename, None, None))
    (fun exc =>
       ret (index, None, None,
            Some (img_url +:+ " (" +:+ exn_str exc +:+ ")"))).

(** *** The pool of workers (lines 198-206) *)

(** An operation on the outside world: the event, and the file it leaves
    behind when it leaves one. *)
Definition step : Type := event * option (string * file).

Definition perform (st : step) (s : state) : state :=
  State match st.2 with
        | Some (path, f) => <[path := f]> (files s)
        | None => files s
        end
        (log s ++ [st.1]).

(** A computation run on its own: from no files and an empty record. *)
Definition alone {A} (m : M A) : (exn + A) * state := m (State ∅ []).

(** The operations of a computation run on its own, in order; a write
    leaves behind what the computation leaves in that file. *)
Definition operations {A} (m : M A) : list step :=
  let s' := (alone m).2 in
  map (fun ev =>
         (ev,
          match ev with
          | FileWrite path _ => (fun f => (path, f)) <$> files s' !! path
          | _ => None
          end))
      (log s').

(** The operations of several workers, merged: each entry of the schedule
    lets the unit at that position perform its next operation; an entry
    that names no unit, or a unit that has finished, counts for nothing;
    what is still pending when the schedule ends takes place unit after
    unit, in the order submitted (leaving the [with] block joins the
    workers, so every unit runs to its end). *)
Fixpoint interleave {A} (sched : list nat) (pending : list (list A)) : list A :=
  match sched with
  | [] => concat pending
  | i :: sched' =>
      match pending !! i with
      | Some (x :: rest) => x :: interleave sched' (<[i := rest]> pending)
      | _ => interleave sched' pending
      end
  end.

(** [executor.submit(fn, ...)] for every task, then [future.result()] for
    the futures in the order [as_completed] yields them.  The units do to
    the outside world what each does on its own, interleaved as the world
    schedules the workers; the result of a future is the result of its
    unit. *)
Definition run_pool (max_workers : Z) (fn : task -> M result)
    (tasks : list task) : M (list result) :=
  fun s =>
    let pending := map (fun t => operations (fn t)) tasks in
    let done :=
      fold_left (fun st x => perform x st)
                (interleave (schedule W max_workers tasks) pending) s in
    for_each (fun t => lift (alone (fn t)).1)
             (as_completed W max_workers tasks) done.

(** *** Collation (lines 204-227) *)

Record collected := Collected {
  failed : list string;
  saved_by_index : gmap nat string;
  page_bytes_by_index : gmap nat (list byte)
}.

(** Truth value of [error]: [None] and the empty text are false. *)
Definition truthy (error : option string) : bool :=
  match error with
  | Some s => negb (bool_decide (s = EmptyString))
  | None => false
  end.

(** One turn of the loop over the completed futures.  A result without
    error always carries the bytes (document-only mode) or the file name
    (see [_download_one_shape]); the defaults below are never used. *)
Definition collect_one (pdf_only : bool) (acc : collected) (r : result)
  : collected :=
  let '(index, filename, image_content, error) := r in
  if truthy error then
    Collected (failed acc ++ [default EmptyString error])
              (saved_by_index acc) (page_bytes_by_index acc)
  else if pdf_only then
    Collected (failed acc) (saved_by_index acc)
              (<[index := default [] image_content]> (page_bytes_by_index acc))
  else
    Collected (failed acc)
              (<[index := default EmptyString filename]> (saved_by_index acc))
              (page_bytes_by_index acc).

Definition collect (pdf_only : bool) (results : list result) : collected :=
  fold_left (collect_one pdf_only) results (Collected [] ∅ ∅).

(** [sorted(d)] for a dictionary with integer keys *)
Definition sorted_keys {V} (d : gmap nat V) : list nat :=
  merge_sort Nat.le (map fst (map_to_list d)).

(** [[saved_by_index[idx] for idx in sorted(saved_by_index)]] *)
Definition saved_files_of (c : collected) : list string :=
  map (fun idx => saved_by_index c !!! idx) (sorted_keys (saved_by_index c)).

(** [[(idx, page_bytes_by_index[idx]) for idx in sorted(page_bytes_by_index)]] *)
Definition page_bytes_of (c : collected) : list (nat * list byte) :=
  map (fun idx => (idx, page_bytes_by_index c !!! idx))
      (sorted_keys (page_bytes_by_index c)).

(** *** The pipeline (lines 122-256) *)

Record report := Report {
  total : nat;
  saved : nat;
  report_failed : list string;
  pdf_path : option string;
  pdf_error : option string;
  pdf_requested : bool;
  report_pdf_only : bool
}.

Definition pdf_only_message : string :=
  "Режим 'Только PDF' требует включенной сборки PDF.".
Definition nothing_saved_message : string :=
  "Нет загруженных изображений для сборки PDF.".

(** Lines 156-159: [int(max_workers)], with the default on TypeError and
    ValueError. *)
Definition workers_input_of (max_workers : pyval) : exn + Z :=
  match Lib.int W max_workers with
  | inr n => inr n
  | inl e =>
      if bool_decide (exn_cls e ∈ [TypeError; ValueError])
      then inr DEFAULT_DOWNLOAD_WORKERS
      else inl e
  end.

(** Line 160 *)
Definition effective_workers_of (workers_input : Z) (total : nat) : Z :=
  Z.max 1 (Z.min workers_input (Z.min MAX_DOWNLOAD_WORKERS (Z.of_nat total))).

(** Lines 229-246: the document step, giving [pdf_path] and [pdf_error]. *)
Definition document_step (output_dir : string) (create_pdf : bool)
    (pdf_filename : string) (pdf_only : bool) (saved : nat) (c : collected)
  : M (option string * option string) :=
  if create_pdf then
    let pdf_filename :=
      if Py.endswith (Py.lower pdf_filename) ".pdf" then pdf_filename
      else pdf_filename +:+ ".pdf" in
    let pdf_path := os_path_join W output_dir pdf_filename in
    if (0 <? saved)%nat then
      try_except
        (let* _ :=
           if pdf_only then create_pdf_from_page_bytes (page_bytes_of c) pdf_path
           else create_pdf_from_images (saved_files_of c) pdf_path in
         ret (Some pdf_path, None))
        (fun exc => ret (Some pdf_path, Some (exn_str exc)))
    else ret (Some pdf_path, Some nothing_saved_message)
  else ret (None, None).

Definition download_manga (url output_dir : string) (create_pdf : bool)
    (pdf_filename : string) (pdf_only : bool) (max_workers : pyval)
  : M report :=
  let* _ := makedirs output_dir in
  if pdf_only && negb create_pdf then throw (Exn ValueError pdf_only_message)
  else
    let* html := session_get_text url in
    let* images := lift (find_images html) in
    let total := length images in
    let* workers_input := lift (workers_input_of max_workers) in
    let effective_workers := effective_workers_of workers_input total in
    let* results :=
      run_pool effective_workers (_download_one output_dir pdf_only)
               (tasks_of images) in
    let c := collect pdf_only results in
    let saved_files := saved_files_of c in
    let page_bytes := page_bytes_of c in
    let saved := if pdf_only then length page_bytes else length saved_files in
    let* (pdf_path, pdf_error) :=
      document_step output_dir create_pdf pdf_filename pdf_only saved c in
    ret (Report total saved (failed c) pdf_path pdf_error create_pdf pdf_only).

End Program.

(** ** The specification's own formulations *)


(** The recognized image extensions with their synonyms normalized. *)
Definition recognized (ext : string) : option string :=
  if bool_decide (ext = ".jpg") || bool_decide (ext = ".jpeg") then Some ".jpg"
  else if bool_decide (ext = ".png") then Some ".png"
  else if bool_decide (ext = ".webp") || bool_decide (ext = ".wepb")
  then Some ".webp"
  else None.

(** The fixed table from MIME type to extension. *)
Definition mime_extension (mime : string) : option string :=
  if bool_decide (mime = "image/jpeg") || bool_decide (mime = "image/jpg")
  then Some ".jpg"
  else if bool_decide (mime = "image/png") then Some ".png"
  else if bool_decide (mime = "image/webp") then Some ".webp"
  else None.

(** The classifier as the specification describes it, on the path of the
    URL: the lower-cased extension if recognized; otherwise the declared
    content type without its parameters, trimmed and lower-cased, looked up
    in the table; [.jpg] on a miss. *)
Definition classify (o : os_name) (url_path content_type : string) : string :=
  match recognized (Py.lower (Lib.splitext_ext o url_path)) with
  | Some ext => ext
  | None =>
      default ".jpg"
        (mime_extension (Py.lower (Py.strip (Py.split_head content_type ";"))))
  end.

(** ** Example inputs and worlds *)

Module Examples.

Definition q : string := String Py.dquote EmptyString.

(** The scenario of the specification, as written there: every field in
    single quotes. *)
Definition scenario_literal : string :=
  "[['http://cdn/a','','p1.jpg'],['http://cdn/b','','p2.jpg']]".

Definition scenario_page : string :=
  "rm_h.readerInit(0, " +:+ scenario_literal.

(** The same scenario with the last field of each entry in double quotes,
    as the pages the program reads have it. *)
Definition quoted_literal : string :=
  "[['http://cdn/a',''," +:+ q +:+ "p1.jpg" +:+ q
  +:+ "],['http://cdn/b',''," +:+ q +:+ "p2.jpg" +:+ q +:+ "]]".

Definition quoted_page : string :=
  "rm_h.readerInit(0, " +:+ quoted_literal.

(** A chapter page with three entries. *)
Definition chapter_page : string :=
  "<script>rm_h.readerInit( 0, [['https://cdn.example/1/',''," +:+ q
  +:+ "001.jpg" +:+ q +:+ ",800,1200],['https://cdn.example/1/',''," +:+ q
  +:+ "002.PNG" +:+ q +:+ ",800,1200],['https://cdn.example/1/',''," +:+ q
  +:+ "003" +:+ q +:+ ",800,1200]], 0, false);</script>".

Definition posix_join (a b : string) : string :=
  if Py.startswith b "/" then b
  else if bool_decide (a = EmptyString) || Py.endswith a "/" then a +:+ b
  else a +:+ "/" +:+ b.

(** A world in which the chapter page is [chapter_page], the second image
    times out, the others arrive as PNG data that decodes, the workers
    send the three requests before any of them stores a file, and the
    results arrive in the reverse of the order submitted. *)
Definition world : World := {|
  os := Posix;
  os_path_join := posix_join;
  check_bracketed_netloc := fun _ => None;
  int_of_str := fun _ => None;
  makedirs_error := fun _ => None;
  page_get := fun _ => inr chapter_page;
  image_get := fun url =>
    if bool_decide (url = "https://cdn.example/1/002.PNG")
    then inl (Exn RequestException "Read timed out.")
    else inr (Response [x89; x50; x4e; x47] (Some "image/png; q=1"));
  write_outcome := fun _ _ => Written;
  pillow_installed := true;
  decode := fun b => Opened (Image "RGBA" false b);
  pdf_save_outcome := fun _ _ => Written;
  schedule := fun _ _ => [0; 1; 2; 2; 1; 0]%nat;
  as_completed := fun _ l => rev l
|}.

(** A world in which every image request fails. *)
Definition offline_world : World := {|
  os := Posix;
  os_path_join := posix_join;
  check_bracketed_netloc := fun _ => None;
  int_of_str := fun _ => None;
  makedirs_error := fun _ => None;
  page_get := fun _ => inr chapter_page;
  image_get := fun _ => inl (Exn RequestException "Connection refused");
  write_outcome := fun _ _ => Written;
  pillow_installed := true;
  decode := fun _ => Unidentified;
  pdf_save_outcome := fun _ _ => Written;
  schedule := fun _ _ => [];
  as_completed := fun _ l => l
|}.

Definition empty_state : state := State ∅ [].

End Examples.

(** ** Notions used in the statements *)

Definition task_index (t : task) : nat := t.1.1.

(** One match lies wholly before another. *)
Definition precedes (a b : Re.found) : Prop :=
  (Re.m_start a < Re.m_start b)%nat /\ (Re.m_end a <= Re.m_start b)%nat.

(** The fields of a result. *)
Definition res_index (r : result) : nat := r.1.1.1.
Definition res_filename (r : result) : option string := r.1.1.2.
Definition res_content (r : result) : option (list byte) := r.1.2.
Definition res_error (r : result) : option string := r.2.

(** Whether the loop over the completed futures takes the error branch. *)
Definition is_error (r : result) : bool := truthy (res_error r).
Definition is_success (r : result) : bool := negb (is_error r).

(** The indices counted as saved, the indices counted as failed, and the
    failure texts, each in the order of the results. *)
Definition succeeded (results : list result) : list nat :=
  map res_index (List.filter is_success results).
Definition errored (results : list result) : list nat :=
  map res_index (List.filter is_error results).
Definition errors_of (results : list result) : list string :=
  map (fun r => default EmptyString (res_error r)) (List.filter is_error results).

(** What [_download_one] returns for a task; it depends on the world
    only, not on the state the task finds. *)
Definition unit_result (W : World) (output_dir : string) (pdf_only : bool)
    (t : task) : result :=
  match (_download_one W output_dir pdf_only t (State ∅ [])).1 with
  | inr r => r
  | inl _ => (task_index t, None, None, None)
  end.

(** The state [s'] continues [s] with events that all satisfy [P]. *)
Definition extends (P : event -> Prop) (s s' : state) : Prop :=
  exists evs, log s' = (log s ++ evs)%list /\ Forall P evs.

(** The events that leave a document behind. *)
Definition document_written (ev : event) : Prop :=
  match ev with
  | PdfWrite _ true => True
  | _ => False
  end.

Definition is_read (ev : event) : Prop :=
  match ev with
  | FileRead _ => True
  | _ => False
  end.

(** The page a buffer of image data becomes. *)
Definition page_from (W : World) (b : list byte) (pg : page) : Prop :=
  exists img, decode W b = Opened img /\ pg = _prepare_for_pdf img.

(** A computation that leaves the files alone and writes no document. *)
Definition quiet {A} (m : M A) : Prop :=
  forall s r s', m s = (r, s') ->
    files s' = files s /\ extends (fun ev => ~ document_written ev) s s'.

(** A document was written among the events [evs]. *)
Definition produced (evs : list event) : Prop :=
  exists ev, ev ∈ evs /\ document_written ev.


(** ** Further notions, for the properties beyond the claims *)

(** [int(s)] for a text of decimal digits, read from the left. *)
Definition digit_value (c : ascii) : N := (N.of_nat (nat_of_ascii c) - 48)%N.

Fixpoint digits_value_from (acc : N) (l : list ascii) : N :=
  match l with
  | [] => acc
  | c :: l' => digits_value_from (acc * 10 + digit_value c)%N l'
  end.

Definition digits_value (s : string) : N := digits_value_from 0 (Py.chars s).

(** The operations of one unit of work, spelled out: the request, and the
    write when the unit gets that far. *)
Definition unit_effect (W : World) (output_dir : string) (pdf_only : bool)
    (t : task) : list step :=
  let '(index, base, path) := t in
  let img_url := _build_image_url base path in
  match image_get W img_url with
  | inl _ => [(HttpGet img_url, None)]
  | inr img_response =>
      if pdf_only then [(HttpGet img_url, None)]
      else
        match _detect_extension W img_url
                (default EmptyString (resp_content_type img_response)) with
        | inl _ => [(HttpGet img_url, None)]
        | inr extension =>
            let filename :=
              os_path_join W output_dir (Py.format_03 index +:+ extension) in
            match write_outcome W filename (resp_content img_response) with
            | Written =>
                [(HttpGet img_url, None);
                 (FileWrite filename true,
                  Some (filename, Bytes (resp_content img_response)))]
            | Refused _ =>
                [(HttpGet img_url, None); (FileWrite filename false, None)]
            | Broken _ remains =>
                [(HttpGet img_url, None);
                 (FileWrite filename false, Some (filename, Bytes remains))]
            end
        end
  end.

(** The state after the operations [l], in that order. *)
Definition apply_effect (l : list step) (s : state) : state :=
  fold_left (fun st x => perform x st) l s.

(** The state the pool leaves behind: after the operations of all units,
    as scheduled. *)
Definition fetch_state (W : World) (output_dir : string) (pdf_only : bool)
    (max_workers : Z) (tasks : list task) (s : state) : state :=
  apply_effect
    (interleave (schedule W max_workers tasks)
       (map (unit_effect W output_dir pdf_only) tasks))
    s.

(** The resolved URL of a task. *)
Definition task_url (t : task) : string := _build_image_url t.1.2 t.2.

Definition is_get (ev : event) : bool :=
  match ev with
  | HttpGet _ => true
  | _ => false
  end.

Definition is_file_write (ev : event) : Prop :=
  match ev with
  | FileWrite _ _ => True
  | _ => False
  end.

Definition touches_document (ev : event) : Prop :=
  match ev with
  | PdfWrite _ _ | FileRead _ => True
  | _ => False
  end.

Module MoreExamples.

(** A world like [Examples.world], except that every request succeeds, the
    second image arrives as a buffer that is no image, and the units take
    place one after the other in the order submitted. *)
Definition picky_world : World := {|
  os := Posix;
  os_path_join := Examples.posix_join;
  check_bracketed_netloc := fun _ => None;
  int_of_str := fun _ => None;
  makedirs_error := fun _ => None;
  page_get := fun _ => inr Examples.chapter_page;
  image_get := fun url =>
    if bool_decide (url = "https://cdn.example/1/002.PNG")
    then inr (Response [x00] (Some "image/png"))
    else inr (Response [x89; x50; x4e; x47] None);
  write_outcome := fun _ _ => Written;
  pillow_installed := true;
  decode := fun b =>
    match b with
    | [x00] => Unidentified
    | _ => Opened (Image "P" true b)
    end;
  pdf_save_outcome := fun _ _ => Written;
  schedule := fun _ _ => [];
  as_completed := fun _ l => l
|}.

(** A world whose chapter page has no page list. *)
Definition blank_world : World := {|
  os := Posix;
  os_path_join := Examples.posix_join;
  check_bracketed_netloc := fun _ => None;
  int_of_str := fun _ => None;
  makedirs_error := fun _ => None;
  page_get := fun _ => inr "<html><body>404</body></html>";
  image_get := fun _ => inl (Exn RequestException "unreachable");
  write_outcome := fun _ _ => Written;
  pillow_installed := true;
  decode := fun _ => Unidentified;
  pdf_save_outcome := fun _ _ => Written;
  schedule := fun _ _ => [];
  as_completed := fun _ l => l
|}.

(** A world like [picky_world] whose disk is full: writing a page raises
    after the file was opened, leaving it empty, and saving the document
    raises too, leaving the first bytes of it; the workers send their
    requests before any of them writes. *)
Definition full_disk_world : World := {|
  os := Posix;
  os_path_join := Examples.posix_join;
  check_bracketed_netloc := fun _ => None;
  int_of_str := fun _ => None;
  makedirs_error := fun _ => None;
  page_get := fun _ => inr Examples.chapter_page;
  image_get := fun url =>
    if bool_decide (url = "https://cdn.example/1/002.PNG")
    then inr (Response [x00] (Some "image/png"))
    else inr (Response [x89; x50; x4e; x47] None);
  write_outcome := fun _ _ =>
    Broken (Exn OSError "[Errno 28] No space left on device") [];
  pillow_installed := true;
  decode := fun b =>
    match b with
    | [x00] => Unidentified
    | _ => Opened (Image "P" true b)
    end;
  pdf_save_outcome := fun _ _ =>
    Broken (Exn OSError "[Errno 28] No space left on device")
           [x25; x50; x44; x46];
  schedule := fun _ _ => [0; 1; 2; 0; 1; 2]%nat;
  as_completed := fun _ l => l
|}.

(** A disk with three images and a file that is no image. *)
Definition disk : state :=
  State (<["manga/001.jpg" := Bytes [x89; x50]]>
           (<["manga/002.jpg" := Bytes [x89; x51]]>
              (<["manga/003.jpg" := Bytes [x00]]>
                 (<["manga/004.jpg" := Bytes [x89; x52]]> ∅))))
        [].

End MoreExamples.

(** What it means for a pattern to match a text, said without reference
    to the matcher: [matches p w pos ms] when the text [w], standing at
    offset [pos] of the subject, is an instance of the pattern [p] whose
    parentheses fall at the offsets [ms]. *)
Inductive matches : Re.regex -> list ascii -> nat -> list nat -> Prop :=
| matches_nil pos : matches [] [] pos []
| matches_lit c p w pos ms :
    matches p w (S pos) ms -> matches (Re.Lit c :: p) (c :: w) pos ms
| matches_opt_some c p w pos ms :
    matches p w (S pos) ms -> matches (Re.Opt c :: p) (c :: w) pos ms
| matches_opt_none c p w pos ms :
    matches p w pos ms -> matches (Re.Opt c :: p) w pos ms
| matches_plus cls p u w pos ms :
    u <> [] -> forallb cls u = true ->
    matches p w (pos + length u) ms ->
    matches (Re.Plus cls :: p) (u ++ w)%list pos ms
| matches_star cls p u w pos ms :
    forallb cls u = true ->
    matches p w (pos + length u) ms ->
    matches (Re.Star cls :: p) (u ++ w)%list pos ms
| matches_lazy cls p u w pos ms :
    forallb cls u = true ->
    matches p w (pos + length u) ms ->
    matches (Re.LazyStar cls :: p) (u ++ w)%list pos ms
| matches_mark p w pos ms :
    matches p w pos ms -> matches (Re.Mark :: p) w pos (pos :: ms).

(** ** The window (lines 347-466), as far as it decides what to run and
    what to show

    The widgets are left out; what remains of a handler is the sequence of
    things it does to the window: dialogs, status line, log lines, and the
    start of the worker thread with its arguments. *)

(** The variables of the form, as read by [start_download]. *)
Record form := Form {
  url_var : string;
  output_var : string;
  make_pdf_var : bool;
  pdf_only_var : bool;
  pdf_name_var : string;
  workers_var : string
}.

Inductive ui :=
| ShowWarning (title message : string)
| ShowInfo (title message : string)
| ShowError (title message : string)
| SetWorkersVar (text : string)
| SetBusy (is_busy : bool)
| SetStatus (text : string)
| AppendLog (message : string)
| StartWorker (url output_dir : string) (make_pdf : bool) (pdf_name : string)
    (pdf_only : bool) (max_workers : Z).

(** [a or b] for texts *)
Definition str_or (a b : string) : string :=
  if bool_decide (a = EmptyString) then b else a.

(** The line feed, [chr(10)]. *)
Definition nl : string := String "010" EmptyString.

(** Lines 347-390 *)
Definition start_download (W : World) (f : form) : list ui :=
  let url := Py.strip (url_var f) in
  let output_dir := str_or (Py.strip (output_var f)) "manga" in
  let make_pdf := make_pdf_var f in
  let pdf_only := pdf_only_var f in
  let pdf_name := str_or (Py.strip (pdf_name_var f)) DEFAULT_PDF_NAME in
  let workers_raw :=
    str_or (Py.strip (workers_var f)) (pretty DEFAULT_DOWNLOAD_WORKERS) in
  if bool_decide (url = EmptyString) then
    [ShowWarning "Пустая ссылка" "Вставьте ссылку на главу манги."]
  else if pdf_only && negb make_pdf then
    [ShowWarning "Некорректные параметры"
       "Режим 'Только PDF' работает только при включенной сборке PDF."]
  else
    match int_of_str W workers_raw with
    | None =>
        [ShowWarning "Некорректное значение"
           ("Количество потоков должно быть числом от 1 до "
            +:+ pretty MAX_DOWNLOAD_WORKERS +:+ ".")]
    | Some n =>
        let max_workers := Z.max 1 (Z.min MAX_DOWNLOAD_WORKERS n) in
        ([SetWorkersVar (pretty max_workers);
          SetBusy true;
          SetStatus "Идет скачивание...";
          AppendLog ("Старт: " +:+ url);
          AppendLog ("Потоков загрузки: " +:+ pretty max_workers)]
         ++ (if make_pdf
             then [AppendLog ("PDF после скачивания: " +:+ pdf_name)] else [])
         ++ (if pdf_only
             then [AppendLog
                     "Режим: только PDF (отдельные картинки не сохраняются)"]
             else [])
         ++ [StartWorker url output_dir make_pdf pdf_name pdf_only
               max_workers])%list
    end.

(** Lines 414-461 *)
Definition _handle_success (result : report) (output_dir : string) : list ui :=
  let saved_s := pretty (saved result) in
  let total_s := pretty (total result) in
  let path_s := default EmptyString (pdf_path result) in
  let error_s := default EmptyString (pdf_error result) in
  let pdf_ok := truthy (pdf_path result) && negb (truthy (pdf_error result)) in
  let has_issues :=
    negb (bool_decide (report_failed result = []))
    || truthy (pdf_error result) in
  ([SetBusy false]
   ++ (if bool_decide (report_failed result = []) then []
       else AppendLog "Список ошибок загрузки:"
            :: map (fun item => AppendLog ("- " +:+ item))
                   (report_failed result))
   ++ (if truthy (pdf_error result)
       then [AppendLog ("Ошибка сборки PDF: " +:+ error_s)] else [])
   ++ (if pdf_ok then [AppendLog ("PDF сохранен: " +:+ path_s)] else [])
   ++ (if has_issues then
         [SetStatus ("Готово с ошибками: " +:+ saved_s +:+ " из " +:+ total_s
                     +:+ " страниц.");
          ShowWarning "Завершено с ошибками"
            ("Скачано " +:+ saved_s +:+ " из " +:+ total_s +:+ " страниц."
             +:+ nl +:+ "Папка: " +:+ output_dir
             +:+ (if pdf_ok then nl +:+ "PDF: " +:+ path_s else EmptyString)
             +:+ (if truthy (pdf_error result)
                  then nl +:+ "Ошибка PDF: " +:+ error_s else EmptyString))]
       else if pdf_requested result && truthy (pdf_path result) then
         [SetStatus (if report_pdf_only result
                     then "Готово: " +:+ saved_s +:+ " страниц в PDF."
                     else "Готово: " +:+ saved_s +:+ " страниц + PDF.");
          ShowInfo "Готово"
            ("Скачивание завершено." +:+ nl +:+ "Страниц: " +:+ saved_s
             +:+ nl +:+ "PDF: " +:+ path_s +:+ nl +:+ "Папка: " +:+ output_dir
             +:+ (if report_pdf_only result
                  then nl +:+ "Отдельные картинки не сохранялись."
                  else EmptyString))]
       else
         [SetStatus ("Готово: " +:+ saved_s +:+ " страниц.");
          ShowInfo "Готово"
            ("Скачивание завершено." +:+ nl +:+ "Страниц: " +:+ saved_s
             +:+ nl +:+ "Папка: " +:+ output_dir)]))%list.

(** Lines 463-467 *)
Definition _handle_error (error : exn) : list ui :=
  [SetBusy false;
   SetStatus "Ошибка при скачивании.";
   AppendLog ("Критическая ошибка: " +:+ exn_str error);
   ShowError "Ошибка" (exn_str error)].

Definition is_dialog (a : ui) : bool :=
  match a with
  | ShowWarning _ _ | ShowInfo _ _ | ShowError _ _ => true
  | _ => false
  end.

Definition is_start (a : ui) : bool :=
  match a with
  | StartWorker _ _ _ _ _ _ => true
  | _ => false
  end.

(** * Properties *)

(** ** Worker count (lines 156-160) *)

Lemma effective_workers_bounds (w : Z) (N : nat) :
  1 <= effective_workers_of w N <= MAX_DOWNLOAD_WORKERS.
Proof. unfold effective_workers_of, MAX_DOWNLOAD_WORKERS. lia. Qed.



(** C10: when [int(max_workers)] raises TypeError or ValueError the
    pipeline does not fail: the requested worker count becomes
    DEFAULT_DOWNLOAD_WORKERS = 8, the clamp applies to it, and the whole
    run is the run with [max_workers = 8]. *)
Theorem workers_default_on_conversion_error (W : World) (max_workers : pyval)
    (e : exn) :
  Lib.int W max_workers = inl e ->
  exn_cls e = TypeError \/ exn_cls e = ValueError ->
  DEFAULT_DOWNLOAD_WORKERS = 8
  /\ workers_input_of W max_workers = inr DEFAULT_DOWNLOAD_WORKERS
  /\ (forall url output_dir create_pdf pdf_filename pdf_only s,
        download_manga W url output_dir create_pdf pdf_filename pdf_only
          max_workers s
        = download_manga W url output_dir create_pdf pdf_filename pdf_only
            (PyInt DEFAULT_DOWNLOAD_WORKERS) s).
Proof.
  intros Hint Hcls.
  assert (Hw : workers_input_of W max_workers = inr DEFAULT_DOWNLOAD_WORKERS).
  { unfold workers_input_of. rewrite Hint.
    destruct Hcls as [-> | ->]; reflexivity. }
  split; [reflexivity|]. split; [exact Hw|].
  intros. unfold download_manga. rewrite Hw. reflexivity.
Qed.

Lemma workers_default_on_conversion_error_witness :
  DEFAULT_DOWNLOAD_WORKERS = 8
  /\ workers_input_of Examples.world PyNone = inr DEFAULT_DOWNLOAD_WORKERS
  /\ (forall url output_dir create_pdf pdf_filename pdf_only s,
        download_manga Examples.world url output_dir create_pdf pdf_filename
          pdf_only PyNone s
        = download_manga Examples.world url output_dir create_pdf pdf_filename
            pdf_only (PyInt DEFAULT_DOWNLOAD_WORKERS) s).
Proof.
  apply (workers_default_on_conversion_error Examples.world PyNone
           (Exn TypeError
              "int() argument must be a string, a bytes-like object or a real number, not 'NoneType'")).
  - reflexivity.
  - left. reflexivity.
Defined.

(** ** Rejection of the invalid option combination (lines 131-134) *)

(** C2: with [pdf_only=True] and [create_pdf=False] the call raises, and
    no request is sent; but the output directory has been created by then:
    [os.makedirs] runs before the check, and when it fails its exception is
    raised instead of the ValueError. *)
Theorem pdf_only_without_pdf_runs_makedirs_first (W : World)
    (url output_dir pdf_filename : string) (max_workers : pyval) (s : state) :
  download_manga W url output_dir false pdf_filename true max_workers s
  = (inl match makedirs_error W output_dir with
         | Some e => e
         | None => Exn ValueError pdf_only_message
         end,
     State (files s) (log s ++ [MakeDirs output_dir])).
Proof.
  unfold download_manga, makedirs, bind, record, throw, ret. simpl.
  destruct (makedirs_error W output_dir); reflexivity.
Qed.

Example pdf_only_without_pdf_example :
  download_manga Examples.world "https://example.org/chapter/1" "manga" false
    DEFAULT_PDF_NAME true (PyInt 8) Examples.empty_state
  = (inl (Exn ValueError pdf_only_message), State ∅ [MakeDirs "manga"]).
Proof. reflexivity. Qed.

(** ** Extraction on the scenario of the specification *)

Lemma scenario_literal_has_no_entry :
  findall2 image_pattern Examples.scenario_literal = [].
Proof. vm_compute. reflexivity. Qed.

(** Whatever precedes it, a data block equal to the literal of the
    scenario makes the extraction raise. *)
Lemma scenario_literal_is_rejected (html : string) (m : Re.found) :
  Re.search pattern html = Some m ->
  Re.group html m 1 = Examples.scenario_literal ->
  find_images html = inl (Exn ValueError no_images_message).
Proof.
  intros Hs Hg. unfold find_images. rewrite Hs, Hg.
  rewrite scenario_literal_has_no_entry. reflexivity.
Qed.

(** C3, as stated: on the marker followed by the literal written with
    single quotes the extraction returns no descriptors at all; it raises
    the ValueError for a block without entries. *)
Lemma scenario_as_written_is_rejected :
  find_images Examples.scenario_page
  = inl (Exn ValueError no_images_message)
  /\ ~ (exists images,
          find_images Examples.scenario_page = inr images
          /\ tasks_of images
             = [(1%nat, "http://cdn/a", "p1.jpg");
                (2%nat, "http://cdn/b", "p2.jpg")]).
Proof.
  assert (H : find_images Examples.scenario_page
              = inl (Exn ValueError no_images_message))
    by (vm_compute; reflexivity).
  split; [exact H|]. intros (images & Hi & _). rewrite H in Hi. discriminate.
Qed.

(** C3, amended: when the last field of each entry is in double quotes,
    the extraction returns exactly two descriptors, index 1 with base
    http://cdn/a and path p1.jpg, index 2 with base http://cdn/b and path
    p2.jpg. *)
Theorem scenario_with_double_quotes :
  find_images Examples.quoted_page
  = inr [("http://cdn/a", "p1.jpg"); ("http://cdn/b", "p2.jpg")]
  /\ tasks_of [("http://cdn/a", "p1.jpg"); ("http://cdn/b", "p2.jpg")]
     = [(1%nat, "http://cdn/a", "p1.jpg"); (2%nat, "http://cdn/b", "p2.jpg")].
Proof. split; vm_compute; reflexivity. Qed.

(** ** The format classifier (lines 30-40) *)

Lemma recognized_values (ext e : string) :
  recognized ext = Some e -> e ∈ [".jpg"; ".png"; ".webp"].
Proof.
  unfold recognized.
  repeat (case_match; [intros [= <-]; set_solver|]). discriminate.
Qed.

Lemma mime_extension_values (mime e : string) :
  mime_extension mime = Some e -> e ∈ [".jpg"; ".png"; ".webp"].
Proof.
  unfold mime_extension.
  repeat (case_match; [intros [= <-]; set_solver|]). discriminate.
Qed.

Lemma classify_values (o : os_name) (url_path content_type : string) :
  classify o url_path content_type ∈ [".jpg"; ".png"; ".webp"].
Proof.
  unfold classify. destruct (recognized _) eqn:Hr.
  - eapply recognized_values; eauto.
  - destruct (mime_extension _) eqn:Hm; simpl.
    + eapply mime_extension_values; eauto.
    + set_solver.
Qed.

Lemma allowed_extension_recognized (ext : string) :
  (if bool_decide (ext ∈ ALLOWED_EXTENSIONS) then
     if bool_decide (ext = ".jpeg") then Some ".jpg"
     else if bool_decide (ext = ".wepb") then Some ".webp"
     else Some ext
   else None) = recognized ext.
Proof.
  unfold recognized.
  destruct (decide (ext = ".jpg")) as [->|]; [vm_compute; reflexivity|].
  destruct (decide (ext = ".jpeg")) as [->|]; [vm_compute; reflexivity|].
  destruct (decide (ext = ".png")) as [->|]; [vm_compute; reflexivity|].
  destruct (decide (ext = ".webp")) as [->|]; [vm_compute; reflexivity|].
  destruct (decide (ext = ".wepb")) as [->|]; [vm_compute; reflexivity|].
  rewrite (bool_decide_eq_false_2 (ext ∈ ALLOWED_EXTENSIONS))
    by (unfold ALLOWED_EXTENSIONS; set_solver).
  rewrite !bool_decide_eq_false_2 by assumption. reflexivity.
Qed.

Lemma content_type_table (mime : string) :
  CONTENT_TYPE_TO_EXTENSION !! mime = mime_extension mime.
Proof.
  unfold mime_extension, CONTENT_TYPE_TO_EXTENSION.
  destruct (decide (mime = "image/jpeg")) as [->|]; [vm_compute; reflexivity|].
  destruct (decide (mime = "image/jpg")) as [->|]; [vm_compute; reflexivity|].
  destruct (decide (mime = "image/png")) as [->|]; [vm_compute; reflexivity|].
  destruct (decide (mime = "image/webp")) as [->|]; [vm_compute; reflexivity|].
  rewrite !lookup_insert_ne by congruence. rewrite lookup_empty.
  rewrite !bool_decide_eq_false_2 by assumption. reflexivity.
Qed.

(** No world makes the classifier accept a URL whose network location has
    an opening bracket without the closing one. *)
Lemma unbalanced_bracket_raises (W : World) (content_type : string) :
  _detect_extension W "http://[" content_type
  = inl (Exn ValueError "Invalid IPv6 URL").
Proof. reflexivity. Qed.

(** C7, as stated: [_detect_extension] is not total; on the URL
    [http://[] [urlparse] raises ValueError and so does the classifier. *)
Lemma detect_extension_not_total :
  _detect_extension Examples.world "http://[" "image/png"
  = inl (Exn ValueError "Invalid IPv6 URL")
  /\ ~ (exists ext,
          _detect_extension Examples.world "http://[" "image/png" = inr ext).
Proof.
  split; [reflexivity|]. intros [ext H]. discriminate H.
Qed.

(** C7, amended: [_detect_extension] raises exactly when [urlparse] does,
    and then the same exception; otherwise it returns one of .jpg, .png,
    .webp, namely the lower-cased extension of the URL path if recognized
    (with .jpeg and .wepb normalized), and else the entry of the MIME table
    for the content type cut at the first semicolon, trimmed and
    lower-cased, or .jpg when there is none.  Inside [_download_one] the
    exception is caught: the unit whose image arrived but whose URL the
    classifier rejects returns a failure that names the URL and the
    exception, having written nothing, and the main loop records it among
    the failures. *)
Theorem detect_extension_classifies (W : World) (img_url content_type : string) :
  _detect_extension W img_url content_type
  = match Lib.urlparse_path W img_url with
    | inl e => inl e
    | inr url_path => inr (classify (os W) url_path content_type)
    end
  /\ (forall ext, _detect_extension W img_url content_type = inr ext ->
        ext ∈ [".jpg"; ".png"; ".webp"])
  /\ (forall e output_dir index base path resp s,
        _build_image_url base path = img_url ->
        image_get W img_url = inr resp ->
        default EmptyString (resp_content_type resp) = content_type ->
        _detect_extension W img_url content_type = inl e ->
        let failure := img_url +:+ " (" +:+ exn_str e +:+ ")" in
        _download_one W output_dir false (index, base, path) s
        = (inr (index, None, None, Some failure),
           State (files s) (log s ++ [HttpGet img_url]))
        /\ forall acc,
             collect_one false acc (index, None, None, Some failure)
             = Collected (failed acc ++ [failure]) (saved_by_index acc)
                 (page_bytes_by_index acc)).
Proof.
  assert (H : _detect_extension W img_url content_type
              = match Lib.urlparse_path W img_url with
                | inl e => inl e
                | inr url_path => inr (classify (os W) url_path content_type)
                end).
  { unfold _detect_extension, classify.
    destruct (Lib.urlparse_path W img_url) as [e|url_path]; [reflexivity|].
    rewrite <- allowed_extension_recognized, content_type_table.
    repeat case_match; reflexivity. }
  split; [exact H|]. split.
  - intros ext. rewrite H.
    destruct (Lib.urlparse_path W img_url); [discriminate|].
    intros [= <-]. apply classify_values.
  - intros e output_dir index base path resp s Hurl Hget Htype Hraise.
    cbv zeta. split.
    + cbv [_download_one try_except bind worker_get lift record throw ret].
      rewrite Hurl. simpl. rewrite Hget. simpl. rewrite Htype, Hraise.
      reflexivity.
    + intros acc. unfold collect_one, truthy.
      rewrite bool_decide_eq_false_2; [reflexivity|].
      destruct img_url; simpl; discriminate.
Qed.

Lemma detect_extension_classifies_witness :
  _detect_extension Examples.world "http://[x" "image/png; q=1"
  = inl (Exn ValueError "Invalid IPv6 URL")
  /\ _download_one Examples.world "manga" false (1%nat, "http://[", "x")
       Examples.empty_state
     = (inr (1%nat, None, None, Some "http://[x (Invalid IPv6 URL)"),
        State ∅ [HttpGet "http://[x"])
  /\ forall acc,
       collect_one false acc
         (1%nat, None, None, Some "http://[x (Invalid IPv6 URL)")
       = Collected (failed acc ++ ["http://[x (Invalid IPv6 URL)"])
           (saved_by_index acc) (page_bytes_by_index acc).
Proof.
  split; [reflexivity|].
  apply (proj2 (proj2 (detect_extension_classifies Examples.world "http://[x"
                         "image/png; q=1"))
           (Exn ValueError "Invalid IPv6 URL") "manga" 1%nat "http://[" "x"
           (Response [x89; x50; x4e; x47] (Some "image/png; q=1"))
           Examples.empty_state);
    reflexivity.
Defined.

(** ** Assembling no pages (lines 63-119) *)

(** C9: assembling an empty sequence of pages raises the ValueError for
    "no pages" and leaves the state as it was: nothing is written and no
    write is attempted.  For the two entry points this presupposes that
    Pillow can be imported; without it they raise RuntimeError, and the
    state is unchanged as well. *)
Theorem assembling_no_pages_fails (W : World) (pdf_path : string) (s : state) :
  _save_pdf_pages W [] pdf_path s = (inl (Exn ValueError no_pages_message), s)
  /\ (pillow_installed W = true ->
      create_pdf_from_images W [] pdf_path s
      = (inl (Exn ValueError no_pages_message), s)
      /\ create_pdf_from_page_bytes W [] pdf_path s
         = (inl (Exn ValueError no_pages_message), s))
  /\ (exists e, create_pdf_from_images W [] pdf_path s = (inl e, s))
  /\ (exists e, create_pdf_from_page_bytes W [] pdf_path s = (inl e, s)).
Proof.
  split; [reflexivity|].
  unfold create_pdf_from_images, create_pdf_from_page_bytes, _import_pillow,
    bind.
  destruct (pillow_installed W); simpl.
  - split; [intros _; split; reflexivity|]. split; eexists; reflexivity.
  - split; [discriminate|]. split; eexists; reflexivity.
Qed.

Lemma assembling_no_pages_fails_witness :
  _save_pdf_pages Examples.world [] "manga/chapter.pdf" Examples.empty_state
  = (inl (Exn ValueError no_pages_message), Examples.empty_state)
  /\ create_pdf_from_images Examples.world [] "manga/chapter.pdf"
       Examples.empty_state
     = (inl (Exn ValueError no_pages_message), Examples.empty_state)
  /\ create_pdf_from_page_bytes Examples.world [] "manga/chapter.pdf"
       Examples.empty_state
     = (inl (Exn ValueError no_pages_message), Examples.empty_state).
Proof.
  destruct (assembling_no_pages_fails Examples.world "manga/chapter.pdf"
              Examples.empty_state) as (H1 & H2 & _).
  split; [exact H1|]. apply H2. reflexivity.
Defined.

(** ** Numbering of the extracted entries (lines 148, 199-201) *)

Section Matches.
Variable p : Re.regex.

Lemma at_pos_start s pos m : Re.at_pos p s pos = Some m -> Re.m_start m = pos.
Proof.
  unfold Re.at_pos. destruct (Re.run p s pos []) as [[e marks]|]; [|discriminate].
  intros [= <-]. reflexivity.
Qed.

(** Every match found from offset [pos] on, with [skip] characters still
    to pass over, starts at [pos + skip] or later. *)
Lemma finditer_from_start s : forall pos skip m,
  m ∈ Re.finditer_from p s pos skip -> (pos + skip <= Re.m_start m)%nat.
Proof.
  induction s as [|c s IH]; intros pos skip m; simpl.
  - destruct skip; [|intros H; inversion H].
    destruct (Re.at_pos p [] pos) as [m0|] eqn:E; [|intros H; inversion H].
    intros H. apply list_elem_of_singleton in H as ->.
    apply at_pos_start in E. lia.
  - destruct skip as [|n].
    + destruct (Re.at_pos p (c :: s) pos) as [m0|] eqn:E.
      * intros H. apply elem_of_cons in H as [->|H].
        -- apply at_pos_start in E. lia.
        -- apply IH in H. lia.
      * intros H. apply IH in H. lia.
    + intros H. apply IH in H. lia.
Qed.

(** The matches come in source order and do not overlap. *)
Lemma finditer_from_sorted s : forall pos skip,
  StronglySorted precedes (Re.finditer_from p s pos skip).
Proof.
  induction s as [|c s IH]; intros pos skip; simpl.
  - destruct skip; [|constructor].
    destruct (Re.at_pos p [] pos); repeat constructor.
  - destruct skip as [|n]; [|apply IH].
    destruct (Re.at_pos p (c :: s) pos) as [m0|] eqn:E; [|apply IH].
    constructor; [apply IH|].
    apply Forall_forall. intros m Hm. apply finditer_from_start in Hm.
    apply at_pos_start in E. unfold precedes. lia.
Qed.

Lemma finditer_sorted subject : StronglySorted precedes (Re.finditer p subject).
Proof. apply finditer_from_sorted. Qed.

End Matches.

Lemma enumerate_length {A} (l : list A) : forall n,
  length (enumerate l n) = length l.
Proof. induction l; intros; simpl; [|rewrite IHl]; reflexivity. Qed.

Lemma enumerate_indices {A} (l : list A) : forall n,
  map fst (enumerate l n) = seq n (length l).
Proof. induction l; intros; simpl; [|rewrite IHl]; reflexivity. Qed.

Lemma enumerate_lookup {A} (l : list A) : forall n i,
  enumerate l n !! i = (fun x => ((n + i)%nat, x)) <$> l !! i.
Proof.
  induction l as [|x l IH]; intros n i; [reflexivity|].
  destruct i as [|i]; simpl.
  - rewrite Nat.add_0_r. reflexivity.
  - rewrite IH. replace (S n + i)%nat with (n + S i)%nat by lia. reflexivity.
Qed.

Lemma tasks_of_length images : length (tasks_of images) = length images.
Proof. unfold tasks_of. rewrite length_map. apply enumerate_length. Qed.

Lemma tasks_of_indices images :
  map task_index (tasks_of images) = seq 1 (length images).
Proof.
  unfold tasks_of. rewrite <- enumerate_indices, map_map.
  apply map_ext. intros [index [base path]]. reflexivity.
Qed.

Lemma tasks_of_lookup images i base path :
  images !! i = Some (base, path) ->
  tasks_of images !! i = Some (S i, base, path).
Proof.
  intros H. unfold tasks_of. rewrite list_lookup_fmap, enumerate_lookup, H.
  reflexivity.
Qed.

Lemma seq_strictly_ascending n : forall a, StronglySorted lt (seq a n).
Proof.
  induction n as [|n IH]; intros a; simpl; constructor; [apply IH|].
  apply Forall_forall. intros x Hx. apply elem_of_seq in Hx. lia.
Qed.

Lemma tasks_of_NoDup images : NoDup (map task_index (tasks_of images)).
Proof. rewrite tasks_of_indices. apply NoDup_seq. Qed.

(** What a successful extraction is made of. *)
Lemma find_images_inv html images :
  find_images html = inr images ->
  images <> []
  /\ exists m, Re.search pattern html = Some m
       /\ images = findall2 image_pattern (Re.group html m 1).
Proof.
  unfold find_images. destruct (Re.search pattern html) as [m|]; [|discriminate].
  destruct (findall2 image_pattern (Re.group html m 1)) as [|x l] eqn:E;
    [discriminate|].
  intros [= <-]. split; [discriminate|]. exists m. split; [reflexivity|].
  symmetry. exact E.
Qed.

(** C8: when the extraction succeeds on a page whose data block has K
    entries the pattern recognizes, it yields exactly K descriptors, K is
    at least 1, their indices are 1..K in strictly ascending contiguous
    order, and the descriptor at each position is made of the groups of the
    match at that position, the matches being taken in source order. *)
Theorem extraction_numbers_entries_in_source_order (html : string)
    (images : list (string * string)) :
  find_images html = inr images ->
  exists m,
    Re.search pattern html = Some m
    /\ let data := Re.group html m 1 in
       let entries := Re.finditer image_pattern data in
       let K := length entries in
       let descriptors := tasks_of images in
       (1 <= K)%nat
       /\ length descriptors = K
       /\ map task_index descriptors = seq 1 K
       /\ StronglySorted lt (map task_index descriptors)
       /\ StronglySorted precedes entries
       /\ (forall i entry,
             entries !! i = Some entry ->
             descriptors !! i
             = Some (S i, Re.group data entry 1, Re.group data entry 2)).
Proof.
  intros H. apply find_images_inv in H as (Hne & m & Hm & ->).
  exists m. split; [exact Hm|]. cbv zeta.
  set (data := Re.group html m 1) in *.
  assert (HK : length (findall2 image_pattern data)
               = length (Re.finditer image_pattern data))
    by (unfold findall2; apply length_map).
  repeat split.
  - rewrite <- HK. destruct (findall2 image_pattern data); [done|simpl; lia].
  - rewrite tasks_of_length. exact HK.
  - rewrite tasks_of_indices, HK. reflexivity.
  - rewrite tasks_of_indices. apply seq_strictly_ascending.
  - apply finditer_sorted.
  - intros i entry Hi. apply tasks_of_lookup.
    unfold findall2. rewrite list_lookup_fmap, Hi. reflexivity.
Qed.

Lemma extraction_numbers_entries_in_source_order_witness :
  exists m,
    Re.search pattern Examples.chapter_page = Some m
    /\ let data := Re.group Examples.chapter_page m 1 in
       let entries := Re.finditer image_pattern data in
       let K := length entries in
       let descriptors :=
         tasks_of [("https://cdn.example/1/", "001.jpg");
                   ("https://cdn.example/1/", "002.PNG");
                   ("https://cdn.example/1/", "003")] in
       (1 <= K)%nat
       /\ length descriptors = K
       /\ map task_index descriptors = seq 1 K
       /\ StronglySorted lt (map task_index descriptors)
       /\ StronglySorted precedes entries
       /\ (forall i entry,
             entries !! i = Some entry ->
             descriptors !! i
             = Some (S i, Re.group data entry 1, Re.group data entry 2)).
Proof.
  apply (extraction_numbers_entries_in_source_order Examples.chapter_page).
  vm_compute. reflexivity.
Defined.

(** ** Runs of the monad *)

Lemma extends_refl P s : extends P s s.
Proof. exists []. split; [symmetry; apply app_nil_r|constructor]. Qed.

Lemma extends_trans P s1 s2 s3 :
  extends P s1 s2 -> extends P s2 s3 -> extends P s1 s3.
Proof.
  intros (e1 & H1 & F1) (e2 & H2 & F2). exists (e1 ++ e2)%list. split.
  - rewrite H2, H1, app_assoc. reflexivity.
  - apply Forall_app. split; assumption.
Qed.

Lemma extends_weaken (P Q : event -> Prop) s s' :
  (forall ev, P ev -> Q ev) -> extends P s s' -> extends Q s s'.
Proof.
  intros HPQ (evs & H & F). exists evs. split; [exact H|].
  eapply Forall_impl; eauto.
Qed.

(** Closes [extends P s s'] when the log of [s'] is visibly that of [s]
    with some events added. *)
Ltac log_steps :=
  unfold extends; eexists;
  split; [simpl; rewrite <- ?app_assoc; reflexivity
         |repeat constructor; simpl; tauto].

(** ** One unit of work never raises *)

Lemma _download_one_run (W : World) output_dir pdf_only t s :
  exists s',
    _download_one W output_dir pdf_only t s
    = (inr (unit_result W output_dir pdf_only t), s')
    /\ extends (fun ev => ~ document_written ev /\ ~ is_read ev) s s'.
Proof.
  destruct t as [[index base] path].
  unfold unit_result, _download_one, try_except, bind, worker_get, lift,
    record, write_file, store, throw, ret. simpl.
  destruct (image_get W _) as [e|resp]; simpl;
    [eexists; split; [reflexivity|log_steps]|].
  destruct pdf_only; simpl; [eexists; split; [reflexivity|log_steps]|].
  destruct (_detect_extension W _ _) as [e|ext]; simpl;
    [eexists; split; [reflexivity|log_steps]|].
  destruct (write_outcome W _ _) as [|e|e remains]; simpl;
    eexists; (split; [reflexivity|log_steps]).
Qed.

(** ** A unit of work does the same on its own and in the pool *)

Lemma apply_effect_log (l : list step) : forall s,
  log (apply_effect l s) = (log s ++ map fst l)%list.
Proof.
  induction l as [|x l IH]; intros s; simpl.
  - rewrite app_nil_r. reflexivity.
  - unfold apply_effect in *. simpl. rewrite IH. simpl.
    rewrite <- app_assoc. reflexivity.
Qed.

Lemma apply_effect_no_file (l : list step) : forall s,
  Forall (fun x => x.2 = None) l ->
  apply_effect l s = State (files s) (log s ++ map fst l).
Proof.
  induction l as [|x l IH]; intros s H.
  - simpl. rewrite app_nil_r. destruct s; reflexivity.
  - apply Forall_cons in H as [Hx Hl].
    change (apply_effect (x :: l) s) with (apply_effect l (perform x s)).
    rewrite (IH _ Hl). unfold perform. rewrite Hx. simpl.
    rewrite <- app_assoc. reflexivity.
Qed.

Lemma operations_unit (W : World) output_dir pdf_only t :
  operations (_download_one W output_dir pdf_only t)
  = unit_effect W output_dir pdf_only t.
Proof.
  destruct t as [[index base] path].
  unfold operations, alone, unit_effect.
  cbv [_download_one try_except bind worker_get lift record write_file store
       throw ret].
  simpl.
  destruct (image_get W _) as [e|resp]; simpl; [reflexivity|].
  destruct pdf_only; simpl; [reflexivity|].
  destruct (_detect_extension W _ _) as [e|ext]; simpl; [reflexivity|].
  destruct (write_outcome W _ _) as [|e|e remains]; simpl;
    rewrite ?lookup_insert_eq, ?lookup_empty; reflexivity.
Qed.

Lemma _download_one_effect (W : World) output_dir pdf_only t s :
  _download_one W output_dir pdf_only t s
  = (inr (unit_result W output_dir pdf_only t),
     apply_effect (unit_effect W output_dir pdf_only t) s).
Proof.
  destruct t as [[index base] path].
  unfold unit_result, unit_effect, apply_effect, perform.
  cbv [_download_one try_except bind worker_get lift record write_file store
       throw ret].
  simpl.
  destruct (image_get W _) as [e|resp]; simpl; [reflexivity|].
  destruct pdf_only; simpl; [reflexivity|].
  destruct (_detect_extension W _ _) as [e|ext]; simpl; [reflexivity|].
  destruct (write_outcome W _ _) as [|e|e remains]; simpl;
    rewrite <- app_assoc; reflexivity.
Qed.

Lemma alone_result (W : World) output_dir pdf_only t :
  (alone (_download_one W output_dir pdf_only t)).1
  = inr (unit_result W output_dir pdf_only t).
Proof. unfold alone. rewrite _download_one_effect. reflexivity. Qed.

(** What a unit of work does and returns from any state is what it does
    and returns on its own. *)
Lemma _download_one_alone (W : World) output_dir pdf_only t s :
  _download_one W output_dir pdf_only t s
  = ((alone (_download_one W output_dir pdf_only t)).1,
     fold_left (fun st x => perform x st)
       (operations (_download_one W output_dir pdf_only t)) s).
Proof.
  rewrite alone_result, operations_unit. apply _download_one_effect.
Qed.

Lemma interleave_Permutation {A} (sched : list nat) :
  forall pending : list (list A), interleave sched pending ≡ₚ concat pending.
Proof.
  induction sched as [|i sched IH]; intros pending; simpl; [reflexivity|].
  destruct (pending !! i) as [[|x rest]|] eqn:Hi; try apply IH.
  rewrite IH.
  rewrite <- (take_drop_middle pending i (x :: rest) Hi) at 2.
  rewrite insert_take_drop by (eapply lookup_lt_Some; eauto).
  rewrite !concat_app. simpl. apply Permutation_middle.
Qed.

Lemma for_each_lift {A B} (g : A -> exn + B) (h : A -> B) (l : list A) s :
  (forall x, g x = inr (h x)) ->
  for_each (fun x => lift (g x)) l s = (inr (map h l), s).
Proof.
  intros Hg. induction l as [|x l IH]; simpl; [reflexivity|].
  unfold bind, lift, ret in *. rewrite Hg, IH. reflexivity.
Qed.

(** The pool returns the results of the units in the order the futures
    are yielded, and leaves the state the operations of the units lead to,
    as scheduled. *)
Lemma run_pool_effect (W : World) output_dir pdf_only w tasks s :
  run_pool W w (_download_one W output_dir pdf_only) tasks s
  = (inr (map (unit_result W output_dir pdf_only) (as_completed W w tasks)),
     fetch_state W output_dir pdf_only w tasks s).
Proof.
  unfold run_pool, fetch_state, apply_effect.
  rewrite (map_ext _ _ (operations_unit W output_dir pdf_only)).
  apply for_each_lift. intros t. apply alone_result.
Qed.

Lemma unit_effect_events (W : World) output_dir pdf_only t :
  Forall (fun x : step => ~ touches_document x.1)
    (unit_effect W output_dir pdf_only t).
Proof.
  destruct t as [[index base] path]. unfold unit_effect.
  destruct (image_get W _); [|destruct pdf_only;
    [|destruct (_detect_extension W _ _); [|destruct (write_outcome W _ _)]]];
    repeat constructor; simpl; tauto.
Qed.

Lemma fetch_state_extends (W : World) output_dir pdf_only w tasks s :
  extends (fun ev => ~ document_written ev /\ ~ is_read ev) s
    (fetch_state W output_dir pdf_only w tasks s).
Proof.
  unfold fetch_state. eexists. split; [apply apply_effect_log|].
  apply Forall_fmap. rewrite interleave_Permutation.
  apply Forall_concat, Forall_fmap, Forall_forall. intros t _.
  eapply Forall_impl; [apply unit_effect_events|].
  intros [ev f]. simpl. destruct ev; simpl; tauto.
Qed.

Lemma fetch_all_run (W : World) output_dir pdf_only w tasks s :
  exists s',
    run_pool W w (_download_one W output_dir pdf_only) tasks s
    = (inr (map (unit_result W output_dir pdf_only) (as_completed W w tasks)),
       s')
    /\ extends (fun ev => ~ document_written ev /\ ~ is_read ev) s s'.
Proof.
  eexists. split; [apply run_pool_effect|apply fetch_state_extends].
Qed.

Lemma append_not_empty (a b : string) : b <> EmptyString -> a +:+ b <> EmptyString.
Proof. destruct a; simpl; [tauto|discriminate]. Qed.

Lemma unit_result_index (W : World) output_dir pdf_only t :
  res_index (unit_result W output_dir pdf_only t) = task_index t.
Proof.
  destruct t as [[index base] path].
  unfold unit_result, _download_one, try_except, bind, worker_get, lift,
    record, write_file, store, throw, ret. simpl.
  destruct (image_get W _) as [e|resp]; simpl; [reflexivity|].
  destruct pdf_only; simpl; [reflexivity|].
  destruct (_detect_extension W _ _) as [e|ext]; simpl; [reflexivity|].
  destruct (write_outcome W _ _) as [|e|e remains]; reflexivity.
Qed.

(** A result either carries a non-empty error text, or no error and the
    payload of the mode: the bytes in document-only mode, the file name
    otherwise. *)
Lemma _download_one_shape (W : World) output_dir pdf_only t :
  let r := unit_result W output_dir pdf_only t in
  (is_error r = true /\ res_filename r = None /\ res_content r = None)
  \/ (is_error r = false /\ res_error r = None
      /\ if pdf_only then is_Some (res_content r) /\ res_filename r = None
         else is_Some (res_filename r) /\ res_content r = None).
Proof.
  destruct t as [[index base] path].
  assert (Herr : forall u x,
            truthy (Some (u +:+ " (" +:+ x +:+ ")")) = true).
  { intros u x. unfold truthy. rewrite bool_decide_eq_false_2; [reflexivity|].
    apply append_not_empty. discriminate. }
  cbv zeta.
  unfold unit_result, _download_one, try_except, bind, worker_get, lift,
    record, write_file, store, throw, ret, is_error, res_error,
    res_filename, res_content.
  simpl.
  destruct (image_get W _) as [e|resp]; simpl;
    [left; split; [apply Herr|split; reflexivity]|].
  destruct pdf_only; simpl; [right; eauto|].
  destruct (_detect_extension W _ _) as [e|ext]; simpl;
    [left; split; [apply Herr|split; reflexivity]|].
  destruct (write_outcome W _ _) as [|e|e remains]; simpl;
    [right; eauto|left; split; [apply Herr|split; reflexivity]..].
Qed.

(** ** Collation *)

Lemma filter_split {A} (f : A -> bool) (l : list A) :
  (List.filter (fun x => negb (f x)) l ++ List.filter f l)%list ≡ₚ l.
Proof.
  induction l as [|x l IH]; simpl; [reflexivity|].
  destruct (f x); simpl.
  - rewrite <- Permutation_middle. constructor. exact IH.
  - constructor. exact IH.
Qed.

Lemma succeeded_errored_split (results : list result) :
  (succeeded results ++ errored results)%list ≡ₚ map res_index results.
Proof.
  unfold succeeded, errored. rewrite <- map_app.
  apply Permutation_map. apply (filter_split is_error).
Qed.

Lemma errors_of_length results : length (errors_of results) = length (errored results).
Proof. unfold errors_of, errored. rewrite !length_map. reflexivity. Qed.

(** The keys of the dictionary the mode fills. *)
Lemma collect_failed pdf_only results : forall acc,
  failed (fold_left (collect_one pdf_only) results acc)
  = (failed acc ++ errors_of results)%list.
Proof.
  induction results as [|r results IH]; intros acc; simpl.
  - rewrite app_nil_r. reflexivity.
  - rewrite IH. destruct r as [[[index filename] content] error].
    unfold errors_of, collect_one, is_error, res_error. simpl.
    destruct (truthy error); simpl.
    + rewrite <- app_assoc. reflexivity.
    + destruct pdf_only; reflexivity.
Qed.

Lemma collect_keys pdf_only results : forall acc,
  let c := fold_left (collect_one pdf_only) results acc in
  (if pdf_only then dom (page_bytes_by_index c) else dom (saved_by_index c))
  = (if pdf_only then dom (page_bytes_by_index acc)
     else dom (saved_by_index acc)) ∪ list_to_set (succeeded results).
Proof.
  induction results as [|r results IH]; intros acc; simpl.
  - destruct pdf_only; set_solver.
  - rewrite IH. destruct r as [[[index filename] content] error].
    unfold succeeded, collect_one, is_success, is_error, res_error. simpl.
    destruct (truthy error); simpl; [reflexivity|].
    destruct pdf_only; simpl; rewrite dom_insert_L; set_solver.
Qed.

Lemma sorted_keys_elem {V} (d : gmap nat V) i : i ∈ sorted_keys d <-> i ∈ dom d.
Proof.
  unfold sorted_keys. rewrite merge_sort_Permutation.
  rewrite elem_of_dom, list_elem_of_fmap. split.
  - intros ([k v] & -> & H). apply elem_of_map_to_list in H. eauto.
  - intros [v H]. exists (i, v). split; [reflexivity|].
    apply elem_of_map_to_list. exact H.
Qed.

Lemma sorted_keys_NoDup {V} (d : gmap nat V) : NoDup (sorted_keys d).
Proof.
  unfold sorted_keys. rewrite merge_sort_Permutation.
  apply NoDup_fst_map_to_list.
Qed.

Lemma NoDup_map_filter {A B} (f : A -> B) (g : A -> bool) (l : list A) :
  NoDup (map f l) -> NoDup (map f (List.filter g l)).
Proof.
  induction l as [|x l IH]; simpl; [constructor|].
  intros H. apply NoDup_cons in H as [Hx Hl].
  destruct (g x); simpl; [|auto].
  apply NoDup_cons. split; [|auto].
  intros Hin. apply Hx. apply list_elem_of_fmap in Hin as (y & -> & Hy).
  apply list_elem_of_fmap. exists y. split; [reflexivity|].
  apply list_elem_of_In in Hy. apply filter_In in Hy as [Hy _].
  apply list_elem_of_In. exact Hy.
Qed.

(** The keys handed on, in ascending order, are the indices of the
    results without error. *)
Lemma collect_sorted_keys pdf_only results :
  NoDup (map res_index results) ->
  let c := collect pdf_only results in
  (if pdf_only then sorted_keys (page_bytes_by_index c)
   else sorted_keys (saved_by_index c)) ≡ₚ succeeded results.
Proof.
  intros Hnd c.
  assert (Hk := collect_keys pdf_only results (Collected [] ∅ ∅)).
  fold (collect pdf_only results) in Hk. fold c in Hk. simpl in Hk.
  assert (Hs : NoDup (succeeded results)) by (apply NoDup_map_filter; exact Hnd).
  destruct pdf_only; simpl in Hk;
    rewrite ?dom_empty_L, (left_id_L ∅ (∪)) in Hk;
    (apply NoDup_Permutation; [apply sorted_keys_NoDup|exact Hs|]);
    intros i; rewrite sorted_keys_elem, Hk, elem_of_list_to_set; reflexivity.
Qed.

(** ** The pipeline, step by step *)

Lemma download_manga_inv (W : World) url output_dir create_pdf pdf_filename
    pdf_only max_workers s r s' :
  download_manga W url output_dir create_pdf pdf_filename pdf_only max_workers s
  = (inr r, s') ->
  exists html images w s1 path err,
    page_get W url = inr html
    /\ find_images html = inr images
    /\ workers_input_of W max_workers = inr w
    /\ let results :=
         map (unit_result W output_dir pdf_only)
             (as_completed W (effective_workers_of w (length images))
                (tasks_of images)) in
       let c := collect pdf_only results in
       let saved :=
         if pdf_only then length (page_bytes_of c)
         else length (saved_files_of c) in
       extends (fun ev => ~ document_written ev) s s1
       /\ document_step W output_dir create_pdf pdf_filename pdf_only saved c s1
          = (inr (path, err), s')
       /\ r = Report (length images) saved (failed c) path err create_pdf
                pdf_only.
Proof.
  cbv [download_manga bind makedirs session_get_text lift record throw ret].
  destruct (makedirs_error W output_dir); [discriminate|].
  destruct (pdf_only && negb create_pdf); [discriminate|].
  destruct (page_get W url) as [e|html] eqn:Hpage; [discriminate|].
  destruct (find_images html) as [e|images] eqn:Himages; [discriminate|].
  destruct (workers_input_of W max_workers) as [e|w] eqn:Hw; [discriminate|].
  match goal with
  | |- context [run_pool _ ?w0 _ ?l ?s0] =>
      destruct (fetch_all_run W output_dir pdf_only w0 l s0) as (s1 & -> & E1)
  end.
  match goal with
  | |- context [document_step ?a1 ?a2 ?a3 ?a4 ?a5 ?a6 ?a7 ?a8] =>
      destruct (document_step a1 a2 a3 a4 a5 a6 a7 a8)
        as [[e|[path err]] s2] eqn:Hd
  end; [discriminate|].
  intros [= <- <-].
  exists html, images, w, s1, path, err.
  split; [reflexivity|]. split; [exact Himages|]. split; [reflexivity|].
  cbv zeta. split; [|split; [exact Hd|reflexivity]].
  simpl in E1. destruct E1 as (evs & Hlog & Hevs).
  unfold extends. exists ([MakeDirs output_dir; HttpGet url] ++ evs)%list. split.
  - rewrite Hlog. simpl. rewrite <- !app_assoc. reflexivity.
  - repeat constructor; simpl; try tauto.
    eapply Forall_impl; [exact Hevs|]. simpl. tauto.
Qed.

(** ** Accounting of the fetch results (lines 198-227, 248-256) *)

Lemma results_indices (W : World) output_dir pdf_only (l : list task) :
  map res_index (map (unit_result W output_dir pdf_only) l) = map task_index l.
Proof.
  rewrite map_map. apply map_ext. intros t. apply unit_result_index.
Qed.

Lemma sorted_keys_length_saved pdf_only results :
  NoDup (map res_index results) ->
  let c := collect pdf_only results in
  (if pdf_only then length (page_bytes_of c) else length (saved_files_of c))
  = length (succeeded results).
Proof.
  intros Hnd c. rewrite <- (collect_sorted_keys pdf_only results Hnd).
  fold c. unfold page_bytes_of, saved_files_of.
  destruct pdf_only; rewrite length_map; reflexivity.
Qed.

(** C4: for every page with N extracted descriptors, every outcome of the
    individual fetches, every requested worker count and both modes, the
    report of a finished run has total = N and saved + len(failed) = total;
    the results collected are one per descriptor, and the indices counted
    as saved together with the indices counted as failed are exactly
    1..N, each once.  The order of completion is any permutation of the
    submitted tasks. *)
Theorem report_accounts_for_every_index (W : World)
    (url output_dir : string) (create_pdf : bool) (pdf_filename : string)
    (pdf_only : bool) (max_workers : pyval) (s s' : state) (r : report) :
  (forall w l, as_completed W w l ≡ₚ l) ->
  download_manga W url output_dir create_pdf pdf_filename pdf_only max_workers s
  = (inr r, s') ->
  exists images results,
    (exists html, page_get W url = inr html /\ find_images html = inr images)
    /\ results ≡ₚ map (unit_result W output_dir pdf_only) (tasks_of images)
    /\ total r = length images
    /\ report_failed r = errors_of results
    /\ saved r = length (succeeded results)
    /\ (succeeded results ++ errored results)%list ≡ₚ seq 1 (length images)
    /\ (saved r + length (report_failed r) = total r)%nat.
Proof.
  intros Hperm Hrun.
  apply download_manga_inv in Hrun
    as (html & images & w & s1 & path & err & Hpage & Himages & _ & Hrest).
  cbv zeta in Hrest. destruct Hrest as (_ & _ & ->).
  set (completed := as_completed W (effective_workers_of w (length images))
                      (tasks_of images)) in *.
  set (results := map (unit_result W output_dir pdf_only) completed) in *.
  assert (Hc : completed ≡ₚ tasks_of images) by apply Hperm.
  assert (Hidx : map res_index results ≡ₚ seq 1 (length images)).
  { unfold results. rewrite results_indices, Hc. rewrite tasks_of_indices.
    reflexivity. }
  assert (Hnd : NoDup (map res_index results)).
  { rewrite Hidx. apply NoDup_seq. }
  assert (Hsplit : (succeeded results ++ errored results)%list
                   ≡ₚ seq 1 (length images)).
  { rewrite succeeded_errored_split. exact Hidx. }
  assert (Hsaved := sorted_keys_length_saved pdf_only results Hnd).
  cbv zeta in Hsaved.
  assert (Hfailed : failed (collect pdf_only results) = errors_of results).
  { unfold collect. rewrite collect_failed. reflexivity. }
  exists images, results. simpl.
  split; [exists html; split; assumption|].
  split; [unfold results; rewrite Hc; reflexivity|].
  split; [reflexivity|]. split; [exact Hfailed|]. split; [exact Hsaved|].
  split; [exact Hsplit|].
  rewrite Hsaved, Hfailed, errors_of_length, <- length_app, Hsplit.
  apply length_seq.
Qed.

Lemma report_accounts_for_every_index_witness :
  exists r s',
    download_manga Examples.world "https://example.org/chapter/1" "manga" true
      "chapter" false (PyInt 50) Examples.empty_state = (inr r, s')
    /\ exists images results,
         (exists html, page_get Examples.world "https://example.org/chapter/1"
                       = inr html /\ find_images html = inr images)
         /\ results ≡ₚ map (unit_result Examples.world "manga" false)
                         (tasks_of images)
         /\ total r = length images
         /\ report_failed r = errors_of results
         /\ saved r = length (succeeded results)
         /\ (succeeded results ++ errored results)%list
            ≡ₚ seq 1 (length images)
         /\ (saved r + length (report_failed r) = total r)%nat.
Proof.
  destruct (download_manga Examples.world "https://example.org/chapter/1"
              "manga" true "chapter" false (PyInt 50) Examples.empty_state)
    as [[e|r] s'] eqn:Hrun.
  - vm_compute in Hrun. discriminate Hrun.
  - exists r, s'. split; [reflexivity|].
    apply (report_accounts_for_every_index Examples.world _ _ _ _ _ _ _ _ _
             (fun _ l => Permutation_sym (Permutation_rev l)) Hrun).
Defined.

(** ** Order of the pages (lines 225-226, 98-119) *)

Lemma ascending_of_sorted_NoDup (l : list nat) :
  StronglySorted Nat.le l -> NoDup l -> StronglySorted lt l.
Proof.
  induction 1 as [|x l Hl IH Hx]; intros Hnd; constructor.
  - apply IH. apply NoDup_cons in Hnd as [_ Hnd]. exact Hnd.
  - apply NoDup_cons in Hnd as [Hnot _].
    apply Forall_forall. intros y Hy.
    assert (x <= y)%nat by (eapply Forall_forall in Hx; eauto).
    assert (x <> y) by (intros ->; contradiction).
    lia.
Qed.

Lemma sorted_keys_ascending {V} (d : gmap nat V) :
  StronglySorted lt (sorted_keys d).
Proof.
  apply ascending_of_sorted_NoDup; [|apply sorted_keys_NoDup].
  unfold sorted_keys. apply (StronglySorted_merge_sort Nat.le).
Qed.

Lemma page_bytes_of_indices (c : collected) :
  map fst (page_bytes_of c) = sorted_keys (page_bytes_by_index c).
Proof.
  unfold page_bytes_of. rewrite map_map. simpl. apply map_id.
Qed.






(** Every entry of the two dictionaries comes from a result without
    error that carries its index. *)
Lemma collect_lookup pdf_only results : forall acc i,
  (forall b,
     page_bytes_by_index (fold_left (collect_one pdf_only) results acc) !! i
     = Some b ->
     page_bytes_by_index acc !! i = Some b
     \/ exists r, r ∈ results /\ res_index r = i /\ is_error r = false
          /\ pdf_only = true /\ b = default [] (res_content r))
  /\ (forall f,
        saved_by_index (fold_left (collect_one pdf_only) results acc) !! i
        = Some f ->
        saved_by_index acc !! i = Some f
        \/ exists r, r ∈ results /\ res_index r = i /\ is_error r = false
             /\ pdf_only = false /\ f = default EmptyString (res_filename r)).
Proof.
  induction results as [|r results IH]; intros acc i; simpl.
  - split; intros; left; assumption.
  - destruct (IH (collect_one pdf_only acc r) i) as [IHb IHf].
    assert (Hin : forall r', r' ∈ results -> r' ∈ r :: results)
      by (intros; apply list_elem_of_further; assumption).
    destruct r as [[[index filename] content] error] eqn:Er.
    split.
    + intros b Hb. apply IHb in Hb as [Hb|(r' & H1 & H2)];
        [|right; exists r'; split; [apply Hin; exact H1|exact H2]].
      unfold collect_one in Hb.
      destruct (truthy error) eqn:Et; simpl in Hb; [left; exact Hb|].
      destruct pdf_only; simpl in Hb; [|left; exact Hb].
      rewrite lookup_insert in Hb. case_decide; [|left; exact Hb].
      right. exists (index, filename, content, error).
      split; [apply list_elem_of_here|].
      unfold res_index, is_error, res_error, res_content. simpl.
      repeat split; congruence.
    + intros f Hf. apply IHf in Hf as [Hf|(r' & H1 & H2)];
        [|right; exists r'; split; [apply Hin; exact H1|exact H2]].
      unfold collect_one in Hf.
      destruct (truthy error) eqn:Et; simpl in Hf; [left; exact Hf|].
      destruct pdf_only; simpl in Hf; [left; exact Hf|].
      rewrite lookup_insert in Hf. case_decide; [|left; exact Hf].
      right. exists (index, filename, content, error).
      split; [apply list_elem_of_here|].
      unfold res_index, is_error, res_error, res_filename. simpl.
      repeat split; congruence.
Qed.

Lemma page_bytes_of_entry pdf_only results idx b :
  (idx, b) ∈ page_bytes_of (collect pdf_only results) ->
  exists r, r ∈ results /\ res_index r = idx /\ is_error r = false
    /\ pdf_only = true /\ b = default [] (res_content r).
Proof.
  unfold page_bytes_of. intros H.
  apply list_elem_of_fmap in H as (k & [= -> ->] & Hk).
  apply sorted_keys_elem, elem_of_dom in Hk as [b Hb].
  rewrite (lookup_total_correct _ _ _ Hb).
  destruct (collect_lookup pdf_only results (Collected [] ∅ ∅) k) as [H _].
  apply H in Hb as [Hb|Hb]; [|exact Hb].
  simpl in Hb. rewrite lookup_empty in Hb. discriminate.
Qed.

Lemma saved_files_of_entry pdf_only results f :
  f ∈ saved_files_of (collect pdf_only results) ->
  exists r, r ∈ results /\ is_error r = false
    /\ pdf_only = false /\ f = default EmptyString (res_filename r).
Proof.
  unfold saved_files_of. intros H.
  apply list_elem_of_fmap in H as (k & -> & Hk).
  apply sorted_keys_elem, elem_of_dom in Hk as [f Hf].
  rewrite (lookup_total_correct _ _ _ Hf).
  destruct (collect_lookup pdf_only results (Collected [] ∅ ∅) k) as [_ H].
  apply H in Hf as [Hf|(r & H1 & _ & H2)]; [|exists r; split; assumption].
  simpl in Hf. rewrite lookup_empty in Hf. discriminate.
Qed.

(** ** The assembler keeps the order of its input *)

Lemma for_each_related {A B} (f : A -> M B) (R : A -> B -> Prop)
    (I : state -> Prop) :
  (forall x s y s', I s -> f x s = (inr y, s') -> R x y /\ I s') ->
  forall l s ys s',
    I s -> for_each f l s = (inr ys, s') -> Forall2 R l ys /\ I s'.
Proof.
  intros Hf. induction l as [|x l IH]; intros s ys s' Hs; simpl.
  - intros [= <- <-]. split; [constructor|exact Hs].
  - unfold bind. destruct (f x s) as [[e|y] s1] eqn:Hx; [discriminate|].
    destruct (Hf _ _ _ _ Hs Hx) as [Hxy Hs1].
    destruct (for_each f l s1) as [[e|ys'] s2] eqn:Hl; [discriminate|].
    destruct (IH _ _ _ Hs1 Hl) as [Hall Hs2].
    intros [= <- <-]. split; [constructor; assumption|exact Hs2].
Qed.

Lemma for_each_quiet {A B} (f : A -> M B) (l : list A) :
  (forall x, quiet (f x)) -> quiet (for_each f l).
Proof.
  intros Hf. induction l as [|x l IH]; intros s r s'; simpl.
  - intros [= <- <-]. split; [reflexivity|apply extends_refl].
  - unfold bind. destruct (f x s) as [[e|y] s1] eqn:Hx.
    + intros [= <- <-]. eapply Hf; eauto.
    + destruct (Hf _ _ _ _ Hx) as [Hf1 He1].
      destruct (for_each f l s1) as [[e|ys] s2] eqn:Hl;
        destruct (IH _ _ _ Hl) as [Hf2 He2];
        intros [= <- <-];
        (split; [congruence|eapply extends_trans; eauto]).
Qed.

Lemma page_of_pure o msg s r s' : page_of o msg s = (r, s') -> s' = s.
Proof. destruct o; simpl; unfold ret, throw; intros [= _ <-]; reflexivity. Qed.

Lemma page_of_decoded o msg s pg s' :
  page_of o msg s = (inr pg, s') ->
  exists img, o = Opened img /\ pg = _prepare_for_pdf img.
Proof.
  destruct o; simpl; unfold ret, throw; intros [= <- _]. eauto.
Qed.

Lemma read_page_quiet (W : World) msg image_path :
  quiet (let* o := open_image_file W image_path in page_of o (msg image_path)).
Proof.
  intros s r s'.
  cbv [bind open_image_file read_file record ret].
  intros H. apply page_of_pure in H as ->. simpl.
  split; [reflexivity|log_steps].
Qed.

Lemma decode_page_quiet (W : World) (msg : nat -> string) (x : nat * list byte) :
  quiet (let '(page_index, image_bytes) := x in
         page_of (decode W image_bytes) (msg page_index)).
Proof.
  destruct x as [i b]. intros s r s' H. apply page_of_pure in H as ->.
  split; [reflexivity|apply extends_refl].
Qed.

(** What the common end of the two entry points does: with Pillow at
    hand and the pages loaded by a quiet loop, either the document is
    written at [pdf_path] as the last event, holding the pages in the order
    loaded, or an exception is raised and no document is written; the
    files are then as they were, unless it is the save that broke off,
    which leaves its remains at [pdf_path]. *)
Lemma assemble_run (W : World) (load : M (list page)) (pdf_path : string)
    s r s' :
  quiet load ->
  (let* _ := _import_pillow W in
   let* pages := load in
   _save_pdf_pages W pages pdf_path) s = (r, s') ->
  exists evs,
    log s' = (log s ++ evs)%list
    /\ match r with
       | inr _ =>
           exists pages s1,
             load s = (inr pages, s1)
             /\ pages <> []
             /\ files s' = <[pdf_path := Pdf pages]> (files s)
             /\ PdfWrite pdf_path true ∈ evs
       | inl e =>
           Forall (fun ev => ~ document_written ev) evs
           /\ (files s' = files s
               \/ exists pages remains,
                    pdf_save_outcome W pdf_path pages = Broken e remains
                    /\ files s' = <[pdf_path := Bytes remains]> (files s))
       end.
Proof.
  intros Hload. cbv [bind _import_pillow ret throw].
  destruct (pillow_installed W).
  2: { intros [= <- <-]. exists []. rewrite app_nil_r.
       split; [reflexivity|]. split; [constructor|left; reflexivity]. }
  destruct (load s) as [[e|pages] s1] eqn:Hl;
    destruct (Hload _ _ _ Hl) as (Hfiles & evs & Hlog & Hevs).
  - intros [= <- <-]. exists evs. auto.
  - destruct pages as [|pg pages]; simpl.
    + intros [= <- <-]. exists evs. auto.
    + cbv [save_pdf bind record store throw ret].
      destruct (pdf_save_outcome W pdf_path (pg :: pages)) as [|e|e remains]
        eqn:Hsave; intros [= <- <-]; simpl.
      * exists (evs ++ [PdfWrite pdf_path true])%list.
        split; [rewrite Hlog, app_assoc; reflexivity|].
        exists (pg :: pages), s1. split; [reflexivity|].
        split; [discriminate|]. split; [rewrite Hfiles; reflexivity|].
        apply elem_of_app. right. apply list_elem_of_here.
      * exists (evs ++ [PdfWrite pdf_path false])%list.
        split; [rewrite Hlog, app_assoc; reflexivity|].
        split; [|left; exact Hfiles]. apply Forall_app. split; [exact Hevs|].
        repeat constructor. simpl. tauto.
      * exists (evs ++ [PdfWrite pdf_path false])%list.
        split; [rewrite Hlog, app_assoc; reflexivity|].
        split.
        -- apply Forall_app. split; [exact Hevs|].
           repeat constructor. simpl. tauto.
        -- right. exists (pg :: pages), remains.
           split; [exact Hsave|]. rewrite Hfiles. reflexivity.
Qed.

Lemma create_pdf_from_page_bytes_pages (W : World) l pdf_path s s' :
  create_pdf_from_page_bytes W l pdf_path s = (inr tt, s') ->
  exists pages,
    files s' !! pdf_path = Some (Pdf pages)
    /\ Forall2 (fun x pg => page_from W x.2 pg) l pages.
Proof.
  intros H. unfold create_pdf_from_page_bytes in H.
  apply assemble_run in H as (evs & _ & pages & s1 & Hload & _ & Hfiles & _).
  2: { apply for_each_quiet. intros x.
       apply (decode_page_quiet W
                (fun i => "Не удалось прочитать изображение страницы #"
                          +:+ Py.format_03 i)). }
  exists pages. split; [rewrite Hfiles; apply lookup_insert_eq|].
  eapply (for_each_related _ _ (fun _ => True)); [|exact I|exact Hload].
  intros [i b] s0 pg s0' _ Hpg. split; [|exact I].
  apply page_of_decoded in Hpg. exact Hpg.
Qed.









(** ** The document fields of the report (lines 229-256) *)

Lemma not_produced (evs : list event) :
  Forall (fun ev => ~ document_written ev) evs -> ~ produced evs.
Proof.
  intros H (ev & Hin & Hdoc). eapply Forall_forall in H; eauto.
Qed.

Lemma produced_app (evs1 evs2 : list event) :
  ~ produced evs1 -> (produced (evs1 ++ evs2)%list <-> produced evs2).
Proof.
  intros H1. split.
  - intros (ev & Hin & Hdoc). apply elem_of_app in Hin as [Hin|Hin].
    + exfalso. apply H1. exists ev. split; assumption.
    + exists ev. split; assumption.
  - intros (ev & Hin & Hdoc). exists ev. split; [|exact Hdoc].
    apply elem_of_app. right. exact Hin.
Qed.

Lemma create_pdf_run (W : World) (pdf_only : bool) pages_by_index image_paths
    pdf_path s r s' :
  (if pdf_only then create_pdf_from_page_bytes W pages_by_index pdf_path
   else create_pdf_from_images W image_paths pdf_path) s = (r, s') ->
  exists evs,
    log s' = (log s ++ evs)%list
    /\ match r with
       | inr _ =>
           exists pages, pages <> []
             /\ files s' !! pdf_path = Some (Pdf pages)
             /\ produced evs
       | inl _ => ~ produced evs
       end.
Proof.
  intros H.
  assert (Hq1 : quiet (for_each
                         (fun '(page_index, image_bytes) =>
                            page_of (decode W image_bytes)
                              ("Не удалось прочитать изображение страницы #"
                               +:+ Py.format_03 page_index))
                         pages_by_index)).
  { apply for_each_quiet. intros x.
    apply (decode_page_quiet W
             (fun i => "Не удалось прочитать изображение страницы #"
                       +:+ Py.format_03 i)). }
  assert (Hq2 : quiet (for_each
                         (fun image_path =>
                            let* o := open_image_file W image_path in
                            page_of o ("Не удалось прочитать изображение: "
                                       +:+ image_path))
                         image_paths)).
  { apply for_each_quiet. intros x.
    apply (read_page_quiet W
             (fun p => "Не удалось прочитать изображение: " +:+ p)). }
  assert (Hrun : exists load, quiet load
            /\ (let* _ := _import_pillow W in
                let* pages := load in
                _save_pdf_pages W pages pdf_path) s = (r, s')).
  { destruct pdf_only; eexists; (split; [|exact H]); assumption. }
  destruct Hrun as (load & Hq & Hrun).
  apply assemble_run in Hrun as (evs & Hlog & Hr); [|exact Hq].
  exists evs. split; [exact Hlog|]. destruct r as [e|u].
  - apply not_produced. apply Hr.
  - destruct Hr as (pages & s1 & _ & Hne & Hfiles & Hin).
    exists pages. split; [exact Hne|].
    split; [rewrite Hfiles; apply lookup_insert_eq|].
    exists (PdfWrite pdf_path true). split; [exact Hin|exact I].
Qed.

(** The document step never raises; it reports the target path whenever
    a document is requested, and an error exactly when one is requested
    and none is written. *)
Lemma document_step_run (W : World) output_dir create_pdf pdf_filename
    pdf_only saved c s :
  exists path err s' evs,
    document_step W output_dir create_pdf pdf_filename pdf_only saved c s
    = (inr (path, err), s')
    /\ log s' = (log s ++ evs)%list
    /\ (is_Some path <-> create_pdf = true)
    /\ (is_Some err <-> create_pdf = true /\ ~ produced evs)
    /\ (produced evs ->
        exists p pages, path = Some p /\ files s' !! p = Some (Pdf pages)
                        /\ pages <> [])
    /\ (saved = 0%nat -> ~ produced evs).
Proof.
  assert (Hnil : ~ produced []).
  { intros (ev & Hin & _). inversion Hin. }
  unfold document_step. destruct create_pdf.
  2: { exists None, None, s, []. unfold ret. rewrite app_nil_r.
       split; [reflexivity|]. split; [reflexivity|].
       split; [split; [intros [? ?]|]; discriminate|].
       split; [split; [intros [? ?]; discriminate|intros [? _]; discriminate]|].
       split; [intros; contradiction|]. intros _. exact Hnil. }
  set (name := if Py.endswith (Py.lower pdf_filename) ".pdf" then pdf_filename
               else pdf_filename +:+ ".pdf").
  set (p := os_path_join W output_dir name).
  destruct (0 <? saved)%nat eqn:Hsaved.
  2: { exists (Some p), (Some nothing_saved_message), s, []. unfold ret.
       rewrite app_nil_r.
       split; [reflexivity|]. split; [reflexivity|].
       split; [split; eauto|]. split; [split; eauto|].
       split; [intros; contradiction|]. intros _. exact Hnil. }
  assert (Hpos : saved <> 0%nat) by (apply Nat.ltb_lt in Hsaved; lia).
  cbv [try_except bind ret].
  destruct ((if pdf_only
             then create_pdf_from_page_bytes W (page_bytes_of c) p
             else create_pdf_from_images W (saved_files_of c) p) s)
    as [[e|u] s1] eqn:Hrun;
    destruct (create_pdf_run _ _ _ _ _ _ _ _ Hrun) as (evs & Hlog & Hr).
  - exists (Some p), (Some (exn_str e)), s1, evs.
    split; [reflexivity|]. split; [exact Hlog|].
    split; [split; eauto|]. split; [split; eauto|].
    split; [intros; contradiction|]. intros; contradiction.
  - destruct Hr as (pages & Hne & Hfile & Hprod).
    exists (Some p), None, s1, evs.
    split; [reflexivity|]. split; [exact Hlog|].
    split; [split; eauto|].
    split; [split; [intros [? ?]; discriminate|intros [_ Hn]; contradiction]|].
    split; [intros _; exists p, pages; auto|]. intros; contradiction.
Qed.

(** C1, as stated: in a world where every image request fails, the
    report of a run that asked for a document carries the document path
    although the assembly was skipped and no document exists. *)
Lemma document_path_without_document :
  download_manga Examples.offline_world "https://example.org/chapter/1"
    "manga" true DEFAULT_PDF_NAME false (PyInt 8) Examples.empty_state
  = (inr {| total := 3;
            saved := 0;
            report_failed :=
              ["https://cdn.example/1/001.jpg (Connection refused)";
               "https://cdn.example/1/002.PNG (Connection refused)";
               "https://cdn.example/1/003 (Connection refused)"];
            pdf_path := Some "manga/chapter.pdf";
            pdf_error := Some nothing_saved_message;
            pdf_requested := true;
            report_pdf_only := false |},
     State ∅ [MakeDirs "manga"; HttpGet "https://example.org/chapter/1";
              HttpGet "https://cdn.example/1/001.jpg";
              HttpGet "https://cdn.example/1/002.PNG";
              HttpGet "https://cdn.example/1/003"])
  /\ ~ produced [MakeDirs "manga"; HttpGet "https://example.org/chapter/1";
                 HttpGet "https://cdn.example/1/001.jpg";
                 HttpGet "https://cdn.example/1/002.PNG";
                 HttpGet "https://cdn.example/1/003"].
Proof.
  split; [vm_compute; reflexivity|].
  apply not_produced. repeat constructor; simpl; tauto.
Qed.

(** C1, amended: in the report of a finished run, [pdf_path] is present
    if and only if a document was requested (it is the target path, also
    when the assembly fails or is skipped), and [pdf_error] is present if
    and only if a document was requested and none was written during the
    run; when one was written, it is the file at [pdf_path]; with nothing
    saved none is written. *)
Theorem report_document_fields (W : World) (url output_dir : string)
    (create_pdf : bool) (pdf_filename : string) (pdf_only : bool)
    (max_workers : pyval) (s s' : state) (r : report) :
  download_manga W url output_dir create_pdf pdf_filename pdf_only max_workers s
  = (inr r, s') ->
  exists evs,
    log s' = (log s ++ evs)%list
    /\ pdf_requested r = create_pdf
    /\ (is_Some (pdf_path r) <-> pdf_requested r = true)
    /\ (is_Some (pdf_error r) <-> pdf_requested r = true /\ ~ produced evs)
    /\ (produced evs ->
        exists p pages, pdf_path r = Some p
                        /\ files s' !! p = Some (Pdf pages) /\ pages <> [])
    /\ (saved r = 0%nat -> ~ produced evs).
Proof.
  intros Hrun.
  apply download_manga_inv in Hrun
    as (html & images & w & s1 & path & err & _ & _ & _ & Hrest).
  cbv zeta in Hrest. destruct Hrest as ((evs1 & Hlog1 & Hevs1) & Hd & ->).
  match type of Hd with
  | document_step ?a1 ?a2 ?a3 ?a4 ?a5 ?a6 ?a7 ?a8 = _ =>
      destruct (document_step_run a1 a2 a3 a4 a5 a6 a7 a8)
        as (path' & err' & s2 & evs2 & Hd' & Hlog2 & Hpath & Herr & Hprod & Hzero)
  end.
  rewrite Hd in Hd'. injection Hd' as <- <- <-.
  assert (H1 : ~ produced evs1) by (apply not_produced; exact Hevs1).
  exists (evs1 ++ evs2)%list. simpl.
  split; [rewrite Hlog2, Hlog1, app_assoc; reflexivity|].
  split; [reflexivity|]. split; [exact Hpath|].
  rewrite (produced_app evs1 evs2 H1).
  split; [exact Herr|]. split; [exact Hprod|exact Hzero].
Qed.

Lemma report_document_fields_witness :
  exists r s' evs,
    download_manga Examples.world "https://example.org/chapter/1" "manga" true
      "chapter" true (PyInt 4) Examples.empty_state = (inr r, s')
    /\ log s' = (log Examples.empty_state ++ evs)%list
    /\ pdf_requested r = true
    /\ (is_Some (pdf_path r) <-> pdf_requested r = true)
    /\ (is_Some (pdf_error r) <-> pdf_requested r = true /\ ~ produced evs)
    /\ (produced evs ->
        exists p pages, pdf_path r = Some p
                        /\ files s' !! p = Some (Pdf pages) /\ pages <> [])
    /\ (saved r = 0%nat -> ~ produced evs).
Proof.
  destruct (download_manga Examples.world "https://example.org/chapter/1"
              "manga" true "chapter" true (PyInt 4) Examples.empty_state)
    as [[e|r] s'] eqn:Hrun.
  - vm_compute in Hrun. discriminate Hrun.
  - destruct (report_document_fields _ _ _ _ _ _ _ _ _ _ Hrun) as (evs & H).
    exists r, s', evs. split; [reflexivity|exact H].
Defined.

(** ** Partial failure is not fatal *)

(** Once the directory exists, the options are consistent, the page has
    been fetched, the page list extracted and the worker count read, the
    run returns a report whatever happens to the individual images and to
    the assembly. *)
Lemma download_manga_returns (W : World) url output_dir create_pdf
    pdf_filename pdf_only max_workers s html images w :
  makedirs_error W output_dir = None ->
  pdf_only && negb create_pdf = false ->
  page_get W url = inr html ->
  find_images html = inr images ->
  workers_input_of W max_workers = inr w ->
  exists r s',
    download_manga W url output_dir create_pdf pdf_filename pdf_only
      max_workers s = (inr r, s')
    /\ total r = length images.
Proof.
  intros Hdir Hopt Hpage Himages Hw.
  cbv [download_manga bind makedirs session_get_text lift record throw ret].
  rewrite Hdir, Hopt, Hpage, Himages, Hw.
  match goal with
  | |- context [run_pool _ ?w0 _ ?l ?s0] =>
      destruct (fetch_all_run W output_dir pdf_only w0 l s0) as (s1 & -> & _)
  end.
  match goal with
  | |- context [document_step ?a1 ?a2 ?a3 ?a4 ?a5 ?a6 ?a7 ?a8] =>
      destruct (document_step_run a1 a2 a3 a4 a5 a6 a7 a8)
        as (path & err & s2 & evs & -> & _)
  end.
  eexists _, _. split; reflexivity.
Qed.

(** * Properties beyond the claims *)

(** ** Texts and lists of characters *)

Lemma chars_text (l : list ascii) : Py.chars (Py.text l) = l.
Proof. apply list_ascii_of_string_of_list_ascii. Qed.

Lemma text_chars (s : string) : Py.text (Py.chars s) = s.
Proof. apply string_of_list_ascii_of_string. Qed.

Lemma chars_append (a b : string) :
  Py.chars (a +:+ b) = (Py.chars a ++ Py.chars b)%list.
Proof. induction a as [|c a IH]; simpl; [|unfold Py.chars in *; simpl; rewrite IH]; reflexivity. Qed.

Lemma text_app (l k : list ascii) : Py.text (l ++ k) = Py.text l +:+ Py.text k.
Proof.
  rewrite <- (text_chars (Py.text l +:+ Py.text k)), chars_append, !chars_text.
  reflexivity.
Qed.

Lemma chars_length (s : string) : length (Py.chars s) = String.length s.
Proof. induction s; simpl; [|unfold Py.chars in *; simpl; rewrite IHs]; reflexivity. Qed.

Lemma chars_inj (a b : string) : Py.chars a = Py.chars b -> a = b.
Proof. intros H. rewrite <- (text_chars a), <- (text_chars b), H. reflexivity. Qed.

(** ** Zero-padded indices (lines 107, 113, 191) *)

Lemma digit_value_char (d : N) :
  (d < 10)%N -> digit_value (pretty_N_char d) = d.
Proof.
  intros H.
  assert (Hd : (d = 0 \/ d = 1 \/ d = 2 \/ d = 3 \/ d = 4 \/ d = 5 \/ d = 6
                \/ d = 7 \/ d = 8 \/ d = 9)%N) by lia.
  repeat (destruct Hd as [->|Hd]; [reflexivity|]). subst d. reflexivity.
Qed.

(** Reading back the digits [pretty_N_go] puts in front of a text. *)
Lemma digits_value_go (x : N) :
  exists k : N, forall s acc,
    digits_value_from acc (Py.chars (pretty_N_go x s))
    = digits_value_from (acc * 10 ^ k + x)%N (Py.chars s).
Proof.
  induction (N.lt_wf_0 x) as [x _ IH].
  destruct (decide (x = 0)%N) as [->|Hx].
  - exists 0%N. intros s acc. rewrite pretty_N_go_0. f_equal. lia.
  - assert (Hpos : (0 < x)%N) by lia.
    destruct (IH (N.div x 10)) as [k Hk]; [apply N.div_lt; lia|].
    exists (k + 1)%N. intros s acc.
    rewrite pretty_N_go_step by exact Hpos. rewrite Hk.
    change (Py.chars (String (pretty_N_char (N.modulo x 10)) s))
      with (pretty_N_char (N.modulo x 10) :: Py.chars s).
    simpl. rewrite digit_value_char by (apply N.mod_lt; lia).
    f_equal. rewrite N.pow_add_r, N.pow_1_r.
    pose proof (N.div_mod x 10). lia.
Qed.

Lemma digits_value_pretty (n : nat) : digits_value (pretty n) = N.of_nat n.
Proof.
  unfold pretty, pretty_nat, pretty, pretty_N, digits_value.
  destruct (decide (N.of_nat n = 0)%N) as [->|Hn]; [reflexivity|].
  destruct (digits_value_go (N.of_nat n)) as [k Hk]. rewrite Hk.
  simpl. lia.
Qed.

Lemma digits_value_zeros (k : nat) (l : list ascii) :
  digits_value_from 0 (replicate k "0"%char ++ l) = digits_value_from 0 l.
Proof. induction k as [|k IH]; simpl; [reflexivity|exact IH]. Qed.

(** X1: the zero-padded index reads back as the index, so distinct indices
    give distinct texts; and it has at least three characters. *)
Theorem format_03_reads_back (n : nat) :
  digits_value (Py.format_03 n) = N.of_nat n
  /\ (3 <= String.length (Py.format_03 n))%nat
  /\ (forall m, Py.format_03 n = Py.format_03 m -> n = m).
Proof.
  assert (Hval : forall k, digits_value (Py.format_03 k) = N.of_nat k).
  { intros k. unfold digits_value, Py.format_03, Py.decimal.
    rewrite chars_append, chars_text, digits_value_zeros.
    apply digits_value_pretty. }
  split; [apply Hval|]. split.
  - unfold Py.format_03. rewrite <- chars_length, chars_append, chars_text.
    rewrite length_app, length_replicate, chars_length. lia.
  - intros m H. apply Nat2N.inj. rewrite <- !Hval, H. reflexivity.
Qed.

Lemma starts_app (p k : list ascii) : Py.starts p (p ++ k) = true.
Proof.
  induction p as [|a p IH]; simpl; [reflexivity|].
  rewrite IH, Ascii.eqb_refl. reflexivity.
Qed.

Lemma endswith_append (a b : string) : Py.endswith (a +:+ b) b = true.
Proof.
  unfold Py.endswith. rewrite chars_append, rev_app_distr. apply starts_app.
Qed.

Lemma append_cancel_l (a b : string) : a +:+ b = b -> a = EmptyString.
Proof.
  intros H. apply (f_equal String.length) in H.
  rewrite <- !chars_length, chars_append, length_app in H.
  destruct a; [reflexivity|]. rewrite !chars_length in H. simpl in H. lia.
Qed.

(** ** Resolving the URL of an image (lines 24-27) *)

(** X2: a path that is already an absolute http(s) URL is passed through
    whatever the base; any other path is appended to the base; in both
    cases the result ends with the path, and it is the path itself exactly
    when the path is absolute or the base is empty. *)
Theorem build_image_url_cases (base path : string) :
  let absolute :=
    Py.startswith path "http://" || Py.startswith path "https://" in
  (absolute = true -> forall b, _build_image_url b path = path)
  /\ (absolute = false -> _build_image_url base path = base +:+ path)
  /\ Py.endswith (_build_image_url base path) path = true
  /\ (_build_image_url base path = path
      <-> absolute = true \/ base = EmptyString).
Proof.
  cbv zeta. unfold _build_image_url.
  assert (Hself : Py.endswith path path = true).
  { unfold Py.endswith. rewrite <- (app_nil_r (rev (Py.chars path))) at 2.
    apply starts_app. }
  destruct (Py.startswith path "http://" || Py.startswith path "https://").
  - split; [reflexivity|]. split; [discriminate|]. split; [exact Hself|].
    split; auto.
  - split; [discriminate|]. split; [reflexivity|].
    split; [apply endswith_append|]. split.
    + intros H. right. eapply append_cancel_l. exact H.
    + intros [H | ->]; [discriminate|reflexivity].
Qed.

(** ** More on the format classifier (lines 30-40) *)

Lemma _detect_extension_unfold (W : World) (img_url content_type : string) :
  _detect_extension W img_url content_type
  = match Lib.urlparse_path W img_url with
    | inl e => inl e
    | inr url_path => inr (classify (os W) url_path content_type)
    end.
Proof.
  unfold _detect_extension, classify.
  destruct (Lib.urlparse_path W img_url) as [e|url_path]; [reflexivity|].
  rewrite <- allowed_extension_recognized, content_type_table.
  repeat case_match; reflexivity.
Qed.

Lemma before_first_absent (c : ascii) (l : list ascii) :
  Py.contains l c = false -> Py.before_first c l = l.
Proof.
  induction l as [|a l IH]; simpl; [reflexivity|].
  rewrite (Ascii.eqb_sym c a).
  destruct (Ascii.eqb a c); simpl; [discriminate|].
  intros H. rewrite IH by exact H. reflexivity.
Qed.

Lemma before_first_app (c : ascii) (l k : list ascii) :
  Py.contains l c = false -> Py.before_first c (l ++ c :: k) = l.
Proof.
  induction l as [|a l IH]; simpl.
  - rewrite Ascii.eqb_refl. reflexivity.
  - rewrite (Ascii.eqb_sym c a).
    destruct (Ascii.eqb a c); simpl; [discriminate|].
    intros H. rewrite IH by exact H. reflexivity.
Qed.

Lemma lower_char_idem (c : ascii) :
  Py.lower_char (Py.lower_char c) = Py.lower_char c.
Proof. destruct c as [[] [] [] [] [] [] [] []]; reflexivity. Qed.

Lemma lower_char_semicolon (c : ascii) :
  Ascii.eqb (Py.lower_char c) ";" = Ascii.eqb c ";".
Proof. destruct c as [[] [] [] [] [] [] [] []]; reflexivity. Qed.

Lemma lower_char_isspace (c : ascii) :
  Py.isspace (Py.lower_char c) = Py.isspace c.
Proof. destruct c as [[] [] [] [] [] [] [] []]; reflexivity. Qed.

Lemma before_first_lower (l : list ascii) :
  Py.before_first ";" (map Py.lower_char l)
  = map Py.lower_char (Py.before_first ";" l).
Proof.
  induction l as [|a l IH]; simpl; [reflexivity|].
  rewrite lower_char_semicolon. destruct (Ascii.eqb a ";"); simpl;
    [|rewrite IH]; reflexivity.
Qed.

Lemma lstrip_lower (l : list ascii) :
  Py.lstrip_by Py.isspace (map Py.lower_char l)
  = map Py.lower_char (Py.lstrip_by Py.isspace l).
Proof.
  induction l as [|a l IH]; simpl; [reflexivity|].
  rewrite lower_char_isspace. destruct (Py.isspace a); [exact IH|reflexivity].
Qed.

Lemma rstrip_lower (l : list ascii) :
  Py.rstrip_by Py.isspace (map Py.lower_char l)
  = map Py.lower_char (Py.rstrip_by Py.isspace l).
Proof.
  unfold Py.rstrip_by. rewrite <- map_rev, lstrip_lower, map_rev. reflexivity.
Qed.

(** The text looked up in the MIME table depends on the content type
    through its lower-cased form only. *)
Lemma mime_of_lower (content_type : string) :
  Py.lower (Py.strip (Py.split_head content_type ";"))
  = Py.strip (Py.split_head (Py.lower content_type) ";").
Proof.
  unfold Py.lower, Py.strip, Py.split_head. rewrite !chars_text.
  rewrite before_first_lower, lstrip_lower, rstrip_lower. reflexivity.
Qed.

(** X3: when the URL path has a recognized extension, the declared content
    type has no influence on the result. *)
Theorem url_extension_wins (W : World) (img_url url_path ext : string) :
  Lib.urlparse_path W img_url = inr url_path ->
  recognized (Py.lower (Lib.splitext_ext (os W) url_path)) = Some ext ->
  forall content_type, _detect_extension W img_url content_type = inr ext.
Proof.
  intros Hp Hr content_type. rewrite _detect_extension_unfold, Hp.
  unfold classify. rewrite Hr. reflexivity.
Qed.

Lemma url_extension_wins_witness :
  _detect_extension Examples.world "https://cdn.example/1/002.PNG?x=1"
    "image/webp" = inr ".png"
  /\ _detect_extension Examples.world "https://cdn.example/1/002.PNG?x=1"
       "text/html; charset=utf-8" = inr ".png".
Proof.
  split;
    apply (url_extension_wins Examples.world _ "/1/002.PNG"); reflexivity.
Defined.

(** X4: the declared content type is read without its parameters and
    without regard to letter case: anything after the first semicolon is
    ignored, and two content types that agree once lower-cased are
    classified alike. *)
Theorem content_type_parameters_and_case (W : World)
    (img_url content_type : string) :
  (forall params,
     Py.contains (Py.chars content_type) ";" = false ->
     _detect_extension W img_url (content_type +:+ ";" +:+ params)
     = _detect_extension W img_url content_type)
  /\ (forall other,
        Py.lower other = Py.lower content_type ->
        _detect_extension W img_url other
        = _detect_extension W img_url content_type).
Proof.
  split.
  - intros params Hc. rewrite !_detect_extension_unfold.
    destruct (Lib.urlparse_path W img_url); [reflexivity|].
    unfold classify, Py.split_head.
    rewrite chars_append. change (Py.chars (";" +:+ params))
      with (";"%char :: Py.chars params).
    rewrite before_first_app, before_first_absent by exact Hc. reflexivity.
  - intros other Hl. rewrite !_detect_extension_unfold.
    destruct (Lib.urlparse_path W img_url); [reflexivity|].
    unfold classify. rewrite !mime_of_lower, Hl. reflexivity.
Qed.

Lemma content_type_parameters_and_case_witness :
  _detect_extension Examples.world "https://cdn.example/1/003"
    ("image/webp" +:+ ";" +:+ " charset=binary")
  = _detect_extension Examples.world "https://cdn.example/1/003" "image/webp"
  /\ _detect_extension Examples.world "https://cdn.example/1/003" "IMAGE/WebP"
     = _detect_extension Examples.world "https://cdn.example/1/003" "image/webp".
Proof.
  destruct (content_type_parameters_and_case Examples.world
              "https://cdn.example/1/003" "image/webp") as [H1 H2].
  split; [apply H1; reflexivity|apply H2; reflexivity].
Defined.

Lemma build_image_url_cases_witness :
  (forall b, _build_image_url b "https://cdn.example/1/001.jpg"
             = "https://cdn.example/1/001.jpg")
  /\ _build_image_url "http://cdn/a" "p1.jpg" = "http://cdn/a" +:+ "p1.jpg".
Proof.
  split.
  - apply (proj1 (build_image_url_cases EmptyString
                    "https://cdn.example/1/001.jpg")). reflexivity.
  - apply (proj1 (proj2 (build_image_url_cases "http://cdn/a" "p1.jpg"))).
    reflexivity.
Defined.

(** ** Loops that stop at the first exception *)

Lemma for_each_app {A B} (f : A -> M B) (l k : list A) s ys s1 :
  for_each f l s = (inr ys, s1) ->
  for_each f (l ++ k) s
  = match for_each f k s1 with
    | (inr zs, s2) => (inr (ys ++ zs)%list, s2)
    | (inl e, s2) => (inl e, s2)
    end.
Proof.
  revert s ys. induction l as [|x l IH]; intros s ys; simpl.
  - intros [= <- <-]. destruct (for_each f k s) as [[e|zs] s2]; reflexivity.
  - unfold bind. destruct (f x s) as [[e|y] s0]; [discriminate|].
    destruct (for_each f l s0) as [[e|ys'] s0'] eqn:Hl; [discriminate|].
    intros [= <- <-]. rewrite (IH _ _ Hl).
    destruct (for_each f k s0') as [[e|zs] s2]; reflexivity.
Qed.

Lemma for_each_first_failure {A B} (f : A -> M B) (before after : list A)
    (bad : A) s ys s1 e s2 :
  for_each f before s = (inr ys, s1) ->
  f bad s1 = (inl e, s2) ->
  for_each f (before ++ bad :: after) s = (inl e, s2).
Proof.
  intros Hb Hbad. rewrite (for_each_app _ _ _ _ _ _ Hb). simpl.
  unfold bind. rewrite Hbad. reflexivity.
Qed.

(** ** The assembler on unreadable input (lines 76-119) *)

Lemma for_each_cons_ok {A B} (f : A -> M B) (x : A) (l : list A) s y s1 :
  f x s = (inr y, s1) ->
  for_each f (x :: l) s
  = match for_each f l s1 with
    | (inr ys, s2) => (inr (y :: ys), s2)
    | (inl e, s2) => (inl e, s2)
    end.
Proof.
  intros H. simpl. unfold bind. rewrite H.
  destruct (for_each f l s1) as [[e|ys] s2]; reflexivity.
Qed.

Lemma read_page_ok (W : World) (msg : string -> string) p fs lg b img :
  fs !! p = Some (Bytes b) -> decode W b = Opened img ->
  (let* o := open_image_file W p in page_of o (msg p)) (State fs lg)
  = (inr (_prepare_for_pdf img), State fs (lg ++ [FileRead p])).
Proof.
  intros Hf Hd. cbv [bind open_image_file read_file record ret]. simpl.
  rewrite Hf, Hd. reflexivity.
Qed.

Lemma read_page_unidentified (W : World) (msg : string -> string) p fs lg b :
  fs !! p = Some (Bytes b) -> decode W b = Unidentified ->
  (let* o := open_image_file W p in page_of o (msg p)) (State fs lg)
  = (inl (Exn ValueError (msg p)), State fs (lg ++ [FileRead p])).
Proof.
  intros Hf Hd. cbv [bind open_image_file read_file record ret]. simpl.
  rewrite Hf, Hd. reflexivity.
Qed.

Lemma read_pages_run (W : World) (msg : string -> string) (paths : list string) :
  forall fs lg,
    (forall p, p ∈ paths ->
       exists b img, fs !! p = Some (Bytes b) /\ decode W b = Opened img) ->
    exists pages,
      for_each (fun image_path =>
                  let* o := open_image_file W image_path in
                  page_of o (msg image_path)) paths (State fs lg)
      = (inr pages, State fs (lg ++ map FileRead paths))
      /\ length pages = length paths.
Proof.
  induction paths as [|p paths IH]; intros fs lg Hall.
  - exists []. simpl. rewrite app_nil_r. split; reflexivity.
  - destruct (Hall p) as (b & img & Hf & Hd); [apply list_elem_of_here|].
    destruct (IH fs (lg ++ [FileRead p])%list) as (pages & Hrun & Hlen).
    { intros p' Hp'. apply Hall. apply list_elem_of_further. exact Hp'. }
    exists (_prepare_for_pdf img :: pages).
    rewrite (for_each_cons_ok
               (fun image_path =>
                  let* o := open_image_file W image_path in
                  page_of o (msg image_path))
               p paths (State fs lg) _ _
               (read_page_ok W msg p fs lg b img Hf Hd)).
    rewrite Hrun. rewrite <- app_assoc. simpl.
    split; [reflexivity|]. rewrite Hlen. reflexivity.
Qed.

Lemma assemble_load_fails (W : World) (load : M (list page)) pdf_path s e s1 :
  pillow_installed W = true ->
  load s = (inl e, s1) ->
  (let* _ := _import_pillow W in
   let* pages := load in
   _save_pdf_pages W pages pdf_path) s = (inl e, s1).
Proof.
  intros Hpil Hload. cbv [bind _import_pillow ret]. rewrite Hpil, Hload.
  reflexivity.
Qed.

(** X5: with Pillow at hand, when the images before some file all decode
    and that file is not an image, [create_pdf_from_images] raises the
    ValueError that names this file; the files before it and the file
    itself have been read, in order, the ones after it are never opened,
    and no file is written or changed. *)
Theorem create_pdf_from_images_stops_at_first_unreadable (W : World)
    (before after : list string) (bad pdf_path : string) (s : state) :
  pillow_installed W = true ->
  (forall p, p ∈ before ->
     exists b img, files s !! p = Some (Bytes b) /\ decode W b = Opened img) ->
  (exists b, files s !! bad = Some (Bytes b) /\ decode W b = Unidentified) ->
  create_pdf_from_images W (before ++ bad :: after) pdf_path s
  = (inl (Exn ValueError ("Не удалось прочитать изображение: " +:+ bad)),
     State (files s) (log s ++ map FileRead (before ++ [bad]))).
Proof.
  intros Hpil Hbefore (b & Hf & Hd).
  set (msg := fun p => "Не удалось прочитать изображение: " +:+ p).
  destruct (read_pages_run W msg before (files s) (log s) Hbefore)
    as (pages & Hrun & _).
  assert (Hloop :
    for_each (fun image_path =>
                let* o := open_image_file W image_path in
                page_of o (msg image_path)) (before ++ bad :: after) s
    = (inl (Exn ValueError (msg bad)),
       State (files s) (log s ++ map FileRead (before ++ [bad])))).
  { destruct s as [fs lg]. simpl in *.
    rewrite (for_each_first_failure
               (fun image_path =>
                  let* o := open_image_file W image_path in
                  page_of o (msg image_path))
               before after bad _ _ _ _ _ Hrun
               (read_page_unidentified W msg bad fs _ b Hf Hd)).
    rewrite map_app, app_assoc. reflexivity. }
  exact (assemble_load_fails W _ pdf_path s _ _ Hpil Hloop).
Qed.

Lemma create_pdf_from_images_stops_at_first_unreadable_witness :
  create_pdf_from_images MoreExamples.picky_world
    (["manga/001.jpg"; "manga/002.jpg"] ++ "manga/003.jpg" :: ["manga/004.jpg"])
    "manga/chapter.pdf" MoreExamples.disk
  = (inl (Exn ValueError
            ("Не удалось прочитать изображение: " +:+ "manga/003.jpg")),
     State (files MoreExamples.disk)
           (log MoreExamples.disk
            ++ map FileRead (["manga/001.jpg"; "manga/002.jpg"]
                             ++ ["manga/003.jpg"]))).
Proof.
  apply (create_pdf_from_images_stops_at_first_unreadable
           MoreExamples.picky_world).
  - reflexivity.
  - intros p Hp. apply elem_of_cons in Hp as [->|Hp];
      [|apply list_elem_of_singleton in Hp as ->].
    + exists [x89; x50], (Image "P" true [x89; x50]). split; reflexivity.
    + exists [x89; x51], (Image "P" true [x89; x51]). split; reflexivity.
  - exists [x00]. split; reflexivity.
Defined.

(** An image file that is not there: the exception of [open] passes
    through the assembler as it is, with the text Python gives it. *)
Example missing_image_file :
  create_pdf_from_images MoreExamples.picky_world ["manga/009.jpg"]
    "manga/chapter.pdf" MoreExamples.disk
  = (inl (Exn OSError
            "[Errno 2] No such file or directory: 'manga/009.jpg'"),
     State (files MoreExamples.disk) [FileRead "manga/009.jpg"]).
Proof. vm_compute. reflexivity. Qed.

Lemma decode_pages_run (W : World) (msg : nat -> string)
    (l : list (nat * list byte)) (s : state) :
  (forall x, x ∈ l -> exists img, decode W x.2 = Opened img) ->
  exists pages,
    for_each (fun '(page_index, image_bytes) =>
                page_of (decode W image_bytes) (msg page_index)) l s
    = (inr pages, s).
Proof.
  induction l as [|[i b] l IH]; intros Hall.
  - exists []. reflexivity.
  - destruct (Hall (i, b)) as (img & Hd); [apply list_elem_of_here|].
    destruct IH as (pages & Hrun).
    { intros x Hx. apply Hall. apply list_elem_of_further. exact Hx. }
    exists (_prepare_for_pdf img :: pages).
    rewrite (for_each_cons_ok
               (fun '(page_index, image_bytes) =>
                  page_of (decode W image_bytes) (msg page_index))
               (i, b) l s (_prepare_for_pdf img) s).
    + rewrite Hrun. reflexivity.
    + simpl in Hd. rewrite Hd. reflexivity.
Qed.

(** X6: with Pillow at hand, when the buffers before some page all decode
    and the buffer of that page is no image, [create_pdf_from_page_bytes]
    raises the ValueError that names the page by its zero-padded index, and
    does nothing else: no write is even attempted. *)
Theorem create_pdf_from_page_bytes_stops_at_first_unreadable (W : World)
    (before after : list (nat * list byte)) (page_index : nat)
    (image_bytes : list byte) (pdf_path : string) (s : state) :
  pillow_installed W = true ->
  (forall x, x ∈ before -> exists img, decode W x.2 = Opened img) ->
  decode W image_bytes = Unidentified ->
  create_pdf_from_page_bytes W
    (before ++ (page_index, image_bytes) :: after) pdf_path s
  = (inl (Exn ValueError
            ("Не удалось прочитать изображение страницы #"
             +:+ Py.format_03 page_index)), s).
Proof.
  intros Hpil Hbefore Hd.
  set (msg := fun i => "Не удалось прочитать изображение страницы #"
                       +:+ Py.format_03 i).
  destruct (decode_pages_run W msg before s Hbefore) as (pages & Hrun).
  refine (assemble_load_fails W _ pdf_path s _ _ Hpil _).
  apply (for_each_first_failure
           (fun '(page_index, image_bytes) =>
              page_of (decode W image_bytes) (msg page_index))
           before after (page_index, image_bytes) s pages s _ s Hrun).
  simpl. rewrite Hd. reflexivity.
Qed.

Lemma create_pdf_from_page_bytes_stops_at_first_unreadable_witness :
  create_pdf_from_page_bytes MoreExamples.picky_world
    ([(1%nat, [x89; x50])] ++ (2%nat, [x00]) :: [(3%nat, [x89; x52])])
    "manga/chapter.pdf" Examples.empty_state
  = (inl (Exn ValueError
            ("Не удалось прочитать изображение страницы #"
             +:+ Py.format_03 2)), Examples.empty_state).
Proof.
  apply (create_pdf_from_page_bytes_stops_at_first_unreadable
           MoreExamples.picky_world).
  - reflexivity.
  - intros x Hx. apply list_elem_of_singleton in Hx as ->.
    exists (Image "P" true [x89; x50]). reflexivity.
  - reflexivity.
Defined.

Lemma for_each_length {A B} (f : A -> M B) (l : list A) s ys s' :
  for_each f l s = (inr ys, s') -> length ys = length l.
Proof.
  intros H. symmetry.
  eapply Forall2_length.
  eapply (for_each_related f (fun _ _ => True) (fun _ => True));
    [|exact I|exact H].
  intros; split; exact I.
Qed.

(** X7: the assembler touches no file but its target.  When either entry
    point returns, the file at [pdf_path] is a document with exactly one
    page per input item, the input was not empty, and every other file is
    as before.  When it raises, every file other than [pdf_path] is as
    before, and so is [pdf_path] itself unless it is the save that broke
    off after opening the file, which then holds what the save left in it.
    Without Pillow it raises RuntimeError before reading anything. *)
Theorem assembler_changes_only_the_target (W : World) (pdf_only : bool)
    (pages_by_index : list (nat * list byte)) (image_paths : list string)
    (pdf_path : string) (s s' : state) (r : exn + unit) :
  (if pdf_only then create_pdf_from_page_bytes W pages_by_index pdf_path
   else create_pdf_from_images W image_paths pdf_path) s = (r, s') ->
  match r with
  | inr _ =>
      exists pages,
        files s' = <[pdf_path := Pdf pages]> (files s)
        /\ length pages
           = (if pdf_only then length pages_by_index else length image_paths)
        /\ pages <> []
  | inl e =>
      (forall p, p <> pdf_path -> files s' !! p = files s !! p)
      /\ (files s' = files s
          \/ exists pages remains,
               pdf_save_outcome W pdf_path pages = Broken e remains
               /\ files s' = <[pdf_path := Bytes remains]> (files s))
  end
  /\ (pillow_installed W = false ->
      r = inl (Exn RuntimeError no_pillow_message) /\ s' = s).
Proof.
  intros H. split.
  - assert (Hfail : forall e,
              files s' = files s
              \/ (exists pages remains,
                    pdf_save_outcome W pdf_path pages = Broken e remains
                    /\ files s' = <[pdf_path := Bytes remains]> (files s)) ->
              (forall p, p <> pdf_path -> files s' !! p = files s !! p)
              /\ (files s' = files s
                  \/ exists pages remains,
                       pdf_save_outcome W pdf_path pages = Broken e remains
                       /\ files s' = <[pdf_path := Bytes remains]> (files s))).
    { intros e Hf. split; [|exact Hf]. intros p Hp.
      destruct Hf as [->|(pages & remains & _ & ->)]; [reflexivity|].
      apply lookup_insert_ne. congruence. }
    destruct pdf_only.
    + unfold create_pdf_from_page_bytes in H.
      apply assemble_run in H as (evs & _ & Hr).
      2: { apply for_each_quiet. intros x.
           apply (decode_page_quiet W
                    (fun i => "Не удалось прочитать изображение страницы #"
                              +:+ Py.format_03 i)). }
      destruct r as [e|u]; [apply Hfail, Hr|].
      destruct Hr as (pages & s1 & Hload & Hne & Hfiles & _).
      exists pages. split; [exact Hfiles|]. split; [|exact Hne].
      eapply for_each_length. exact Hload.
    + unfold create_pdf_from_images in H.
      apply assemble_run in H as (evs & _ & Hr).
      2: { apply for_each_quiet. intros x.
           apply (read_page_quiet W
                    (fun p => "Не удалось прочитать изображение: " +:+ p)). }
      destruct r as [e|u]; [apply Hfail, Hr|].
      destruct Hr as (pages & s1 & Hload & Hne & Hfiles & _).
      exists pages. split; [exact Hfiles|]. split; [|exact Hne].
      eapply for_each_length. exact Hload.
  - intros Hpil. revert H.
    destruct pdf_only;
      cbv [create_pdf_from_page_bytes create_pdf_from_images bind
           _import_pillow throw];
      rewrite Hpil; intros [= <- <-]; split; reflexivity.
Qed.

Lemma assembler_changes_only_the_target_witness :
  (exists s' pages,
     create_pdf_from_images MoreExamples.picky_world
       ["manga/001.jpg"; "manga/004.jpg"] "manga/chapter.pdf" MoreExamples.disk
     = (inr tt, s')
     /\ files s' = <["manga/chapter.pdf" := Pdf pages]> (files MoreExamples.disk)
     /\ length pages = 2%nat
     /\ pages <> [])
  /\ (exists s' e,
        create_pdf_from_images MoreExamples.full_disk_world
          ["manga/001.jpg"; "manga/004.jpg"] "manga/001.jpg" MoreExamples.disk
        = (inl e, s')
        /\ (forall p, p <> "manga/001.jpg" ->
              files s' !! p = files MoreExamples.disk !! p)
        /\ (files s' = files MoreExamples.disk
            \/ exists pages remains,
                 pdf_save_outcome MoreExamples.full_disk_world "manga/001.jpg"
                   pages = Broken e remains
                 /\ files s'
                    = <["manga/001.jpg" := Bytes remains]>
                        (files MoreExamples.disk))).
Proof.
  split.
  - destruct (create_pdf_from_images MoreExamples.picky_world
                ["manga/001.jpg"; "manga/004.jpg"] "manga/chapter.pdf"
                MoreExamples.disk) as [[e|[]] s'] eqn:Hrun.
    + vm_compute in Hrun. discriminate Hrun.
    + destruct (assembler_changes_only_the_target MoreExamples.picky_world
                  false [] _ _ _ _ _ Hrun) as [(pages & H) _].
      exists s', pages. split; [reflexivity|exact H].
  - destruct (create_pdf_from_images MoreExamples.full_disk_world
                ["manga/001.jpg"; "manga/004.jpg"] "manga/001.jpg"
                MoreExamples.disk) as [[e|[]] s'] eqn:Hrun.
    + destruct (assembler_changes_only_the_target
                  MoreExamples.full_disk_world false [] _ _ _ _ _ Hrun)
        as [H _].
      exists s', e. split; [reflexivity|exact H].
    + vm_compute in Hrun. discriminate Hrun.
Defined.

(** ** One unit of work, in full (lines 176-196) *)

Lemma detected_extension_values (W : World) img_url content_type ext :
  _detect_extension W img_url content_type = inr ext ->
  ext ∈ [".jpg"; ".png"; ".webp"].
Proof.
  rewrite _detect_extension_unfold.
  destruct (Lib.urlparse_path W img_url); [discriminate|].
  intros [= <-]. apply classify_values.
Qed.

(** X8: a unit of work never raises and sends exactly one request, to the
    resolved URL of its descriptor; its result carries the index of the
    descriptor.  When the result is a failure, it carries neither file name
    nor content, and its text is the resolved URL followed by the text of
    the exception in parentheses; either the unit did nothing but send the
    request, and the files are as before, or it also tried to write its
    file, named after its index, and the write raised: the files are then
    as before when the write was refused, and when it broke off that one
    file holds what had been written. *)
Theorem download_unit_requests_once (W : World) (output_dir : string)
    (pdf_only : bool) (t : task) (s : state) :
  exists r s' evs,
    _download_one W output_dir pdf_only t s = (inr r, s')
    /\ log s' = (log s ++ evs)%list
    /\ List.filter is_get evs = [HttpGet (task_url t)]
    /\ res_index r = task_index t
    /\ (is_error r = true ->
        res_filename r = None /\ res_content r = None
        /\ (exists msg,
              res_error r = Some (task_url t +:+ " (" +:+ msg +:+ ")"))
        /\ (evs = [HttpGet (task_url t)] /\ files s' = files s
            \/ exists resp extension e,
                 let filename :=
                   os_path_join W output_dir
                     (Py.format_03 (task_index t) +:+ extension) in
                 image_get W (task_url t) = inr resp
                 /\ pdf_only = false
                 /\ evs = [HttpGet (task_url t); FileWrite filename false]
                 /\ res_error r
                    = Some (task_url t +:+ " (" +:+ exn_str e +:+ ")")
                 /\ (write_outcome W filename (resp_content resp) = Refused e
                     /\ files s' = files s
                     \/ exists remains,
                          write_outcome W filename (resp_content resp)
                          = Broken e remains
                          /\ files s'
                             = <[filename := Bytes remains]> (files s)))).
Proof.
  rewrite _download_one_effect.
  exists (unit_result W output_dir pdf_only t),
    (apply_effect (unit_effect W output_dir pdf_only t) s),
    (map fst (unit_effect W output_dir pdf_only t)).
  split; [reflexivity|]. split; [apply apply_effect_log|].
  destruct t as [[index base] path].
  unfold unit_result, unit_effect, apply_effect, perform, task_url, task_index,
    res_index, is_error, res_error, res_filename, res_content.
  cbv [_download_one try_except bind worker_get lift record write_file store
       throw ret].
  simpl.
  destruct (image_get W _) as [e|resp] eqn:Hget; simpl.
  { repeat split; eauto. }
  destruct pdf_only; simpl.
  { repeat split; try discriminate; reflexivity. }
  destruct (_detect_extension W _ _) as [e|ext]; simpl.
  { repeat split; eauto. }
  destruct (write_outcome W _ _) as [|e|e remains] eqn:Hw; simpl.
  - repeat split; try discriminate; reflexivity.
  - split; [reflexivity|]. split; [reflexivity|]. intros _.
    split; [reflexivity|]. split; [reflexivity|]. split; [eauto|].
    right. exists resp, ext, e. cbv zeta.
    split; [reflexivity|]. split; [reflexivity|]. split; [reflexivity|].
    split; [reflexivity|]. left. split; [exact Hw|reflexivity].
  - split; [reflexivity|]. split; [reflexivity|]. intros _.
    split; [reflexivity|]. split; [reflexivity|]. split; [eauto|].
    right. exists resp, ext, e. cbv zeta.
    split; [reflexivity|]. split; [reflexivity|]. split; [reflexivity|].
    split; [reflexivity|]. right. exists remains. split; [exact Hw|reflexivity].
Qed.

(** On a disk that is full, the unit that writes the third page fails and
    leaves an empty file behind. *)
Example download_unit_on_full_disk :
  _download_one MoreExamples.full_disk_world "manga" false
    (3%nat, "https://cdn.example/1/", "003") Examples.empty_state
  = (inr (3%nat, None, None,
          Some "https://cdn.example/1/003 ([Errno 28] No space left on device)"),
     State (<["manga/003.jpg" := Bytes []]> ∅)
           [HttpGet "https://cdn.example/1/003";
            FileWrite "manga/003.jpg" false]).
Proof. vm_compute. reflexivity. Qed.

(** X9: what a unit of work that succeeds leaves behind.  In
    document-only mode nothing is stored and the result carries the body of
    the response; otherwise the body is stored, and only it, in the file
    named after the zero-padded index and one of the extensions .jpg, .png,
    .webp, inside the output directory, and the result carries that file
    name. *)
Theorem download_unit_success (W : World) (output_dir : string)
    (pdf_only : bool) (index : nat) (base path : string) (s : state) :
  let r := unit_result W output_dir pdf_only (index, base, path) in
  let s' := (_download_one W output_dir pdf_only (index, base, path) s).2 in
  is_error r = false ->
  exists resp,
    image_get W (_build_image_url base path) = inr resp
    /\ if pdf_only then
         r = (index, None, Some (resp_content resp), None)
         /\ files s' = files s
       else
         exists extension filename,
           extension ∈ [".jpg"; ".png"; ".webp"]
           /\ filename
              = os_path_join W output_dir (Py.format_03 index +:+ extension)
           /\ r = (index, Some filename, None, None)
           /\ files s' = <[filename := Bytes (resp_content resp)]> (files s).
Proof.
  cbv zeta. rewrite _download_one_effect.
  assert (Herr : forall u x,
            truthy (Some (u +:+ " (" +:+ x +:+ ")")) = true).
  { intros u x. unfold truthy. rewrite bool_decide_eq_false_2; [reflexivity|].
    apply append_not_empty. discriminate. }
  unfold unit_result, unit_effect, apply_effect, perform, is_error, res_error.
  cbv [_download_one try_except bind worker_get lift record write_file store
       throw ret].
  simpl.
  destruct (image_get W _) as [e|resp]; simpl.
  { intros Hok.
    pose proof (Herr (_build_image_url base path) (exn_str e)) as He.
    simpl in He. congruence. }
  intros Hok. exists resp. split; [reflexivity|].
  destruct pdf_only; simpl in *; [split; reflexivity|].
  destruct (_detect_extension W _ _) as [e|ext] eqn:Hext; simpl in *.
  { pose proof (Herr (_build_image_url base path) (exn_str e)) as He.
    simpl in He. congruence. }
  destruct (write_outcome W _ _) as [|e|e remains]; simpl in *.
  2,3: pose proof (Herr (_build_image_url base path) (exn_str e)) as He;
       simpl in He; congruence.
  exists ext, (os_path_join W output_dir (Py.format_03 index +:+ ext)).
  split; [eapply detected_extension_values; exact Hext|].
  repeat split.
Qed.

Lemma download_unit_success_witness :
  exists extension filename,
    extension ∈ [".jpg"; ".png"; ".webp"]
    /\ filename = os_path_join Examples.world "manga"
                    (Py.format_03 3 +:+ extension)
    /\ unit_result Examples.world "manga" false
         (3%nat, "https://cdn.example/1/", "003")
       = (3%nat, Some filename, None, None)
    /\ files (_download_one Examples.world "manga" false
                (3%nat, "https://cdn.example/1/", "003")
                Examples.empty_state).2
       = <[filename := Bytes [x89; x50; x4e; x47]]> ∅.
Proof.
  destruct (download_unit_success Examples.world "manga" false 3
              "https://cdn.example/1/" "003" Examples.empty_state)
    as (resp & Hresp & H); [reflexivity|].
  vm_compute in Hresp. injection Hresp as <-. exact H.
Defined.

(** ** The run of the pipeline, as one equation (lines 131-256) *)

Lemma download_manga_unfold (W : World) url output_dir create_pdf pdf_filename
    pdf_only max_workers s :
  download_manga W url output_dir create_pdf pdf_filename pdf_only max_workers s
  = match makedirs_error W output_dir with
    | Some e => (inl e, State (files s) (log s ++ [MakeDirs output_dir]))
    | None =>
        if pdf_only && negb create_pdf
        then (inl (Exn ValueError pdf_only_message),
              State (files s) (log s ++ [MakeDirs output_dir]))
        else
          let s1 :=
            State (files s) (log s ++ [MakeDirs output_dir; HttpGet url]) in
          match page_get W url with
          | inl e => (inl e, s1)
          | inr html =>
              match find_images html with
              | inl e => (inl e, s1)
              | inr images =>
                  match workers_input_of W max_workers with
                  | inl e => (inl e, s1)
                  | inr w =>
                      let completed :=
                        as_completed W
                          (effective_workers_of w (length images))
                          (tasks_of images) in
                      let c :=
                        collect pdf_only
                          (map (unit_result W output_dir pdf_only) completed) in
                      let saved :=
                        if pdf_only then length (page_bytes_of c)
                        else length (saved_files_of c) in
                      match
                        document_step W output_dir create_pdf pdf_filename
                          pdf_only saved c
                          (fetch_state W output_dir pdf_only
                             (effective_workers_of w (length images))
                             (tasks_of images) s1)
                      with
                      | (inl e, s3) => (inl e, s3)
                      | (inr (path, err), s3) =>
                          (inr (Report (length images) saved (failed c) path
                                  err create_pdf pdf_only), s3)
                      end
                  end
              end
          end
    end.
Proof.
  cbv [download_manga bind makedirs session_get_text lift record throw ret].
  destruct (makedirs_error W output_dir); [reflexivity|].
  destruct (pdf_only && negb create_pdf); [reflexivity|].
  cbn [files log]. rewrite <- app_assoc. cbn [app].
  destruct (page_get W url) as [e|html]; [reflexivity|].
  destruct (find_images html) as [e|images]; [reflexivity|].
  destruct (workers_input_of W max_workers) as [e|w]; [reflexivity|].
  rewrite run_pool_effect. cbv zeta.
  match goal with
  | |- context [document_step ?a1 ?a2 ?a3 ?a4 ?a5 ?a6 ?a7 ?a8] =>
      destruct (document_step a1 a2 a3 a4 a5 a6 a7 a8) as [[e|[path err]] s3]
  end; reflexivity.
Qed.

Lemma unit_effect_gets (W : World) output_dir pdf_only t :
  List.filter is_get (map fst (unit_effect W output_dir pdf_only t))
  = [HttpGet (task_url t)].
Proof.
  destruct t as [[index base] path]. unfold unit_effect, task_url. simpl.
  destruct (image_get W _); [|destruct pdf_only;
    [|destruct (_detect_extension W _ _); [|destruct (write_outcome W _ _)]]];
    reflexivity.
Qed.

Lemma unit_effect_pdf_only (W : World) output_dir t :
  unit_effect W output_dir true t = [(HttpGet (task_url t), None)].
Proof.
  destruct t as [[index base] path]. unfold unit_effect, task_url. simpl.
  destruct (image_get W _); reflexivity.
Qed.

Lemma filter_Permutation_bool {A} (f : A -> bool) (l l' : list A) :
  l ≡ₚ l' -> List.filter f l ≡ₚ List.filter f l'.
Proof.
  induction 1 as [|x l l' _ IH|x y l|l1 l2 l3 _ IH12 _ IH23]; simpl.
  - reflexivity.
  - destruct (f x); [constructor|]; exact IH.
  - destruct (f x), (f y); try reflexivity. apply perm_swap.
  - etransitivity; eassumption.
Qed.

Lemma all_gets (W : World) output_dir pdf_only (tasks : list task) :
  List.filter is_get
    (map fst (concat (map (unit_effect W output_dir pdf_only) tasks)))
  = map (fun t => HttpGet (task_url t)) tasks.
Proof.
  induction tasks as [|t tasks IH]; [reflexivity|].
  cbn [map concat].
  rewrite map_app, List.filter_app, unit_effect_gets.
  simpl. f_equal. exact IH.
Qed.

(** The pool sends one request per task, in whatever order, and neither
    reads a file nor writes a document. *)
Lemma fetch_state_log (W : World) output_dir pdf_only w tasks s :
  exists evs,
    log (fetch_state W output_dir pdf_only w tasks s) = (log s ++ evs)%list
    /\ List.filter is_get evs ≡ₚ map (fun t => HttpGet (task_url t)) tasks
    /\ Forall (fun ev => ~ touches_document ev) evs.
Proof.
  unfold fetch_state.
  set (l := interleave (schedule W w tasks)
              (map (unit_effect W output_dir pdf_only) tasks)).
  assert (Hl : l ≡ₚ concat (map (unit_effect W output_dir pdf_only) tasks))
    by apply interleave_Permutation.
  exists (map fst l). split; [apply apply_effect_log|]. split.
  - rewrite <- (all_gets W output_dir pdf_only tasks).
    apply filter_Permutation_bool.
    apply Permutation_map. exact Hl.
  - apply Forall_fmap. rewrite Hl.
    apply Forall_concat, Forall_fmap, Forall_forall. intros t _.
    apply unit_effect_events.
Qed.

(** In document-only mode the pool changes no file. *)
Lemma fetch_state_pdf_only (W : World) output_dir w tasks s :
  exists gets,
    fetch_state W output_dir true w tasks s
    = State (files s) (log s ++ gets)
    /\ gets ≡ₚ map (fun t => HttpGet (task_url t)) tasks.
Proof.
  unfold fetch_state.
  set (l := interleave (schedule W w tasks)
              (map (unit_effect W output_dir true) tasks)).
  assert (Hl : l ≡ₚ map (fun t => (HttpGet (task_url t), @None (string * file)))
                      tasks).
  { unfold l. rewrite interleave_Permutation.
    rewrite (map_ext _ _ (unit_effect_pdf_only W output_dir)).
    clear. induction tasks as [|t tasks IH]; [reflexivity|].
    simpl. constructor. exact IH. }
  exists (map fst l). split.
  - apply apply_effect_no_file. rewrite Hl.
    apply Forall_fmap, Forall_forall. intros t _. reflexivity.
  - rewrite Hl, map_map. reflexivity.
Qed.

Lemma for_each_extends {A B} (P : event -> Prop) (f : A -> M B) (l : list A) :
  (forall x s r s', f x s = (r, s') -> extends P s s') ->
  forall s r s', for_each f l s = (r, s') -> extends P s s'.
Proof.
  intros Hf. induction l as [|x l IH]; intros s r s'; simpl.
  - intros [= <- <-]. apply extends_refl.
  - unfold bind. destruct (f x s) as [[e|y] s1] eqn:Hx.
    + intros [= <- <-]. eapply Hf; eauto.
    + destruct (for_each f l s1) as [[e|ys] s2] eqn:Hl; intros [= <- <-];
        (eapply extends_trans; [eapply Hf; eauto|eapply IH; eauto]).
Qed.

(** The assembler only reads files and writes the document. *)
Lemma create_pdf_events (W : World) (pdf_only : bool) pages_by_index
    image_paths pdf_path s r s' :
  (if pdf_only then create_pdf_from_page_bytes W pages_by_index pdf_path
   else create_pdf_from_images W image_paths pdf_path) s = (r, s') ->
  extends touches_document s s'.
Proof.
  assert (Hend : forall (load : M (list page)),
            (forall s r s', load s = (r, s') -> extends touches_document s s') ->
            forall s r s',
              (let* _ := _import_pillow W in
               let* pages := load in
               _save_pdf_pages W pages pdf_path) s = (r, s') ->
              extends touches_document s s').
  { intros load Hload s0 r0 s0'. cbv [bind _import_pillow ret throw].
    destruct (pillow_installed W); [|intros [= <- <-]; apply extends_refl].
    destruct (load s0) as [[e|pages] s1] eqn:Hl;
      [intros [= <- <-]; eapply Hload; eauto|].
    apply Hload in Hl.
    destruct pages as [|pg pages]; simpl; [intros [= <- <-]; exact Hl|].
    cbv [save_pdf bind record store throw ret].
    destruct (pdf_save_outcome W pdf_path (pg :: pages)); intros [= <- <-];
      (eapply extends_trans; [exact Hl|]); log_steps. }
  destruct pdf_only; apply Hend; apply for_each_extends.
  - intros [i b] s0 r0 s0' H. apply page_of_pure in H as ->. apply extends_refl.
  - intros p s0 r0 s0'. cbv [bind open_image_file read_file record ret].
    intros H. apply page_of_pure in H as ->. log_steps.
Qed.

Lemma assembler_frame_helper (W : World) (pdf_only : bool) pages_by_index
    image_paths pdf_path s r s' :
  (if pdf_only then create_pdf_from_page_bytes W pages_by_index pdf_path
   else create_pdf_from_images W image_paths pdf_path) s = (r, s') ->
  match r with
  | inr _ => exists pages, files s' = <[pdf_path := Pdf pages]> (files s)
  | inl e =>
      files s' = files s
      \/ exists pages remains,
           pdf_save_outcome W pdf_path pages = Broken e remains
           /\ files s' = <[pdf_path := Bytes remains]> (files s)
  end.
Proof.
  intros H.
  assert (Hrun : exists load, quiet load
            /\ (let* _ := _import_pillow W in
                let* pages := load in
                _save_pdf_pages W pages pdf_path) s = (r, s')).
  { destruct pdf_only; eexists; (split; [|exact H]); apply for_each_quiet;
      intros x.
    - apply (decode_page_quiet W
               (fun i => "Не удалось прочитать изображение страницы #"
                         +:+ Py.format_03 i)).
    - apply (read_page_quiet W
               (fun p => "Не удалось прочитать изображение: " +:+ p)). }
  destruct Hrun as (load & Hq & Hrun).
  apply assemble_run in Hrun as (evs & _ & Hr); [|exact Hq].
  destruct r as [e|u]; [apply Hr|].
  destruct Hr as (pages & s1 & _ & _ & Hfiles & _). eauto.
Qed.

(** What the document step can do to the state: it reads image files and
    writes the document, and no file but the target of the document can
    change; the target holds a document when no error is reported. *)
Lemma document_step_frame (W : World) output_dir create_pdf pdf_filename
    pdf_only saved c s r s' :
  document_step W output_dir create_pdf pdf_filename pdf_only saved c s
  = (r, s') ->
  extends touches_document s s'
  /\ (exists name,
        (name = pdf_filename \/ name = pdf_filename +:+ ".pdf")
        /\ forall p, p <> os_path_join W output_dir name ->
                     files s' !! p = files s !! p)
  /\ (forall path, r = inr (path, None) -> create_pdf = true ->
        exists p pages,
          path = Some p /\ files s' = <[p := Pdf pages]> (files s))
  /\ (create_pdf = false \/ saved = 0%nat -> s' = s).
Proof.
  unfold document_step. destruct create_pdf.
  2: { unfold ret. intros [= <- <-]. split; [apply extends_refl|].
       split; [exists pdf_filename; auto|].
       split; [discriminate|reflexivity]. }
  set (name := if Py.endswith (Py.lower pdf_filename) ".pdf" then pdf_filename
               else pdf_filename +:+ ".pdf").
  assert (Hname : name = pdf_filename \/ name = pdf_filename +:+ ".pdf")
    by (unfold name; destruct (Py.endswith _ _); auto).
  destruct (0 <? saved)%nat eqn:Hsaved.
  2: { unfold ret. intros [= <- <-]. split; [apply extends_refl|].
       split; [exists name; auto|].
       split; [discriminate|reflexivity]. }
  assert (Hpos : saved <> 0%nat) by (apply Nat.ltb_lt in Hsaved; lia).
  cbv [try_except bind ret].
  match goal with
  | |- context [(if pdf_only then ?m1 else ?m2) s] =>
      destruct ((if pdf_only then m1 else m2) s) as [[e|u] s1] eqn:Hrun
  end; intros [= <- <-].
  - split; [eapply create_pdf_events; exact Hrun|].
    split; [|split; [discriminate|intros [?|?]; [discriminate|contradiction]]].
    exists name. split; [exact Hname|]. intros p Hp.
    destruct (assembler_frame_helper W _ _ _ _ _ _ _ Hrun)
      as [->|(pages & remains & _ & ->)]; [reflexivity|].
    apply lookup_insert_ne. congruence.
  - destruct (assembler_frame_helper W _ _ _ _ _ _ _ Hrun) as (pages & Hf).
    split; [eapply create_pdf_events; exact Hrun|].
    split; [|split; [|intros [?|?]; [discriminate|contradiction]]].
    + exists name. split; [exact Hname|]. intros p Hp. rewrite Hf.
      apply lookup_insert_ne. congruence.
    + intros path [= <-] _. eauto.
Qed.

Lemma download_manga_inv_state (W : World) url output_dir create_pdf
    pdf_filename pdf_only max_workers s r s' :
  download_manga W url output_dir create_pdf pdf_filename pdf_only max_workers s
  = (inr r, s') ->
  exists html images w path err,
    makedirs_error W output_dir = None
    /\ page_get W url = inr html
    /\ find_images html = inr images
    /\ workers_input_of W max_workers = inr w
    /\ let completed :=
         as_completed W (effective_workers_of w (length images))
           (tasks_of images) in
       let c :=
         collect pdf_only (map (unit_result W output_dir pdf_only) completed) in
       let saved :=
         if pdf_only then length (page_bytes_of c)
         else length (saved_files_of c) in
       document_step W output_dir create_pdf pdf_filename pdf_only saved c
         (fetch_state W output_dir pdf_only
            (effective_workers_of w (length images)) (tasks_of images)
            (State (files s) (log s ++ [MakeDirs output_dir; HttpGet url])))
       = (inr (path, err), s')
       /\ r = Report (length images) saved (failed c) path err create_pdf
                pdf_only.
Proof.
  rewrite download_manga_unfold.
  destruct (makedirs_error W output_dir); [discriminate|].
  destruct (pdf_only && negb create_pdf); [discriminate|].
  destruct (page_get W url) as [e|html]; [discriminate|].
  destruct (find_images html) as [e|images] eqn:Himages; [discriminate|].
  destruct (workers_input_of W max_workers) as [e|w]; [discriminate|].
  cbv zeta.
  match goal with
  | |- context [document_step ?a1 ?a2 ?a3 ?a4 ?a5 ?a6 ?a7 ?a8] =>
      destruct (document_step a1 a2 a3 a4 a5 a6 a7 a8)
        as [[e|[path err]] s3] eqn:Hd
  end; [discriminate|].
  intros [= <- <-]. exists html, images, w, path, err.
  repeat (split; [reflexivity || exact Himages|]). split; [exact Hd|reflexivity].
Qed.

(** ** Errors that stop the pipeline (lines 132-150) *)

(** X10: when the output directory cannot be created, that exception is
    raised and no request is sent; when the chapter page cannot be fetched,
    or holds no page list or no entry, that exception is raised after the
    one request for the page: no image is requested and no file is
    written. *)
Theorem fatal_errors_stop_the_pipeline (W : World) (url output_dir : string)
    (create_pdf : bool) (pdf_filename : string) (pdf_only : bool)
    (max_workers : pyval) (s : state) (e : exn) :
  (makedirs_error W output_dir = Some e ->
   download_manga W url output_dir create_pdf pdf_filename pdf_only
     max_workers s
   = (inl e, State (files s) (log s ++ [MakeDirs output_dir])))
  /\ (makedirs_error W output_dir = None ->
      pdf_only && negb create_pdf = false ->
      page_get W url = inl e
      \/ (exists html, page_get W url = inr html /\ find_images html = inl e) ->
      download_manga W url output_dir create_pdf pdf_filename pdf_only
        max_workers s
      = (inl e, State (files s) (log s ++ [MakeDirs output_dir; HttpGet url]))).
Proof.
  rewrite download_manga_unfold. split.
  - intros ->. reflexivity.
  - intros -> -> [-> | (html & -> & ->)]; reflexivity.
Qed.

Lemma fatal_errors_stop_the_pipeline_witness :
  download_manga MoreExamples.blank_world "https://example.org/chapter/404"
    "manga" true DEFAULT_PDF_NAME false (PyInt 8) Examples.empty_state
  = (inl (Exn ValueError no_array_message),
     State ∅ [MakeDirs "manga"; HttpGet "https://example.org/chapter/404"]).
Proof.
  apply (proj2 (fatal_errors_stop_the_pipeline MoreExamples.blank_world
                  "https://example.org/chapter/404" "manga" true
                  DEFAULT_PDF_NAME false (PyInt 8) Examples.empty_state
                  (Exn ValueError no_array_message))).
  - reflexivity.
  - reflexivity.
  - right. exists "<html><body>404</body></html>". split; reflexivity.
Defined.

(** ** What a run never does *)

Lemma extends_app (P : event -> Prop) s s' evs :
  log s' = (log s ++ evs)%list -> Forall P evs -> extends P s s'.
Proof. intros H F. exists evs. split; assumption. Qed.

(** X11: in document-only mode no image file is ever written: whatever
    the outcome of the run, none of its events is a file write, and no file
    other than the target of the document differs from what it was at the
    start; when the run reports no document error, the files at the end
    are the files at the start with the document added. *)
Theorem document_only_mode_writes_no_image_file (W : World)
    (url output_dir : string) (create_pdf : bool) (pdf_filename : string)
    (max_workers : pyval) (s s' : state) (r : exn + report) :
  download_manga W url output_dir create_pdf pdf_filename true max_workers s
  = (r, s') ->
  extends (fun ev => ~ is_file_write ev) s s'
  /\ (exists name,
        (name = pdf_filename \/ name = pdf_filename +:+ ".pdf")
        /\ forall p, p <> os_path_join W output_dir name ->
                     files s' !! p = files s !! p)
  /\ (forall rep, r = inr rep -> pdf_error rep = None ->
        exists p pages,
          pdf_path rep = Some p
          /\ files s' = <[p := Pdf pages]> (files s)).
Proof.
  assert (Hsame : exists name,
            (name = pdf_filename \/ name = pdf_filename +:+ ".pdf")
            /\ forall p, p <> os_path_join W output_dir name ->
                         files s !! p = files s !! p)
    by (exists pdf_filename; auto).
  rewrite download_manga_unfold.
  destruct (makedirs_error W output_dir).
  { intros [= <- <-]. split; [log_steps|]. split; [exact Hsame|discriminate]. }
  destruct create_pdf; cbn [andb negb].
  2: { intros [= <- <-]. split; [log_steps|].
       split; [exact Hsame|discriminate]. }
  destruct (page_get W url) as [e|html].
  { intros [= <- <-]. split; [log_steps|]. split; [exact Hsame|discriminate]. }
  destruct (find_images html) as [e|images].
  { intros [= <- <-]. split; [log_steps|]. split; [exact Hsame|discriminate]. }
  destruct (workers_input_of W max_workers) as [e|w].
  { intros [= <- <-]. split; [log_steps|]. split; [exact Hsame|discriminate]. }
  cbv zeta.
  match goal with
  | |- context [fetch_state ?a ?b true ?w0 ?l ?s0] =>
      destruct (fetch_state_pdf_only a b w0 l s0) as (gets & -> & Hgets)
  end.
  match goal with
  | |- context [document_step ?a1 ?a2 ?a3 ?a4 ?a5 ?a6 ?a7 ?a8] =>
      destruct (document_step a1 a2 a3 a4 a5 a6 a7 a8) as [r3 s3] eqn:Hd
  end.
  apply document_step_frame in Hd as (Hext & Hfiles & Hok & _).
  intros Heq.
  assert (s3 = s') as -> by (destruct r3 as [?|[? ?]]; congruence).
  simpl in *. split; [|split; [exact Hfiles|]].
  - eapply extends_trans; [|eapply extends_weaken; [|exact Hext]].
    + eapply extends_app; [simpl; rewrite <- app_assoc; reflexivity|].
      repeat constructor; simpl; try tauto.
      rewrite Hgets. apply Forall_fmap, Forall_forall. intros t _. simpl. tauto.
    + intros ev. destruct ev; simpl; tauto.
  - intros rep Hr Herr. destruct r3 as [e|[path err]]; [congruence|].
    injection Heq as <-. injection Hr as <-. simpl in Herr. subst err.
    simpl. apply Hok; reflexivity.
Qed.

Lemma document_only_mode_writes_no_image_file_witness :
  exists r s',
    download_manga Examples.world "https://example.org/chapter/1" "manga" true
      "chapter" true (PyInt 4) Examples.empty_state = (r, s')
    /\ extends (fun ev => ~ is_file_write ev) Examples.empty_state s'
    /\ (exists name,
          (name = "chapter" \/ name = "chapter" +:+ ".pdf")
          /\ forall p, p <> os_path_join Examples.world "manga" name ->
                       files s' !! p = files Examples.empty_state !! p)
    /\ (forall rep, r = inr rep -> pdf_error rep = None ->
          exists p pages,
            pdf_path rep = Some p
            /\ files s' = <[p := Pdf pages]> (files Examples.empty_state)).
Proof.
  destruct (download_manga Examples.world "https://example.org/chapter/1"
              "manga" true "chapter" true (PyInt 4) Examples.empty_state)
    as [r s'] eqn:Hrun.
  exists r, s'. split; [reflexivity|].
  exact (document_only_mode_writes_no_image_file _ _ _ _ _ _ _ _ _ Hrun).
Defined.

(** X12: when no document is requested, the run never opens an image
    file and never attempts to write a document, and the report carries
    neither a document path nor a document error. *)
Theorem without_document_request_no_document_activity (W : World)
    (url output_dir pdf_filename : string) (pdf_only : bool)
    (max_workers : pyval) (s s' : state) (r : exn + report) :
  download_manga W url output_dir false pdf_filename pdf_only max_workers s
  = (r, s') ->
  extends (fun ev => ~ touches_document ev) s s'
  /\ (forall rep, r = inr rep ->
        pdf_path rep = None /\ pdf_error rep = None
        /\ pdf_requested rep = false).
Proof.
  rewrite download_manga_unfold.
  destruct (makedirs_error W output_dir).
  { intros [= <- <-]. split; [log_steps|discriminate]. }
  destruct (pdf_only && negb false).
  { intros [= <- <-]. split; [log_steps|discriminate]. }
  destruct (page_get W url) as [e|html].
  { intros [= <- <-]. split; [log_steps|discriminate]. }
  destruct (find_images html) as [e|images].
  { intros [= <- <-]. split; [log_steps|discriminate]. }
  destruct (workers_input_of W max_workers) as [e|w].
  { intros [= <- <-]. split; [log_steps|discriminate]. }
  cbv zeta. unfold document_step, ret. intros [= <- <-].
  split; [|intros rep [= <-]; repeat split].
  match goal with
  | |- extends _ _ (fetch_state ?a ?b ?c ?w0 ?l ?s0) =>
      destruct (fetch_state_log a b c w0 l s0) as (evs & Hlog & _ & Hdoc)
  end.
  eapply extends_trans; [|eapply extends_app; [exact Hlog|exact Hdoc]].
  log_steps.
Qed.

Lemma without_document_request_no_document_activity_witness :
  exists r s',
    download_manga Examples.world "https://example.org/chapter/1" "manga" false
      "chapter" false (PyInt 4) Examples.empty_state = (r, s')
    /\ extends (fun ev => ~ touches_document ev) Examples.empty_state s'
    /\ (forall rep, r = inr rep ->
          pdf_path rep = None /\ pdf_error rep = None
          /\ pdf_requested rep = false).
Proof.
  destruct (download_manga Examples.world "https://example.org/chapter/1"
              "manga" false "chapter" false (PyInt 4) Examples.empty_state)
    as [r s'] eqn:Hrun.
  exists r, s'. split; [reflexivity|].
  exact (without_document_request_no_document_activity _ _ _ _ _ _ _ _ _ Hrun).
Defined.

(** ** Requests and counts of a finished run *)

Lemma no_get_among_document_events (evs : list event) :
  Forall touches_document evs -> List.filter is_get evs = [].
Proof.
  induction 1 as [|ev evs Hev _ IH]; [reflexivity|].
  simpl. rewrite IH. destruct ev; simpl in *; tauto.
Qed.

Lemma run_accounting (W : World) output_dir pdf_only completed images :
  completed ≡ₚ tasks_of images ->
  let results := map (unit_result W output_dir pdf_only) completed in
  let c := collect pdf_only results in
  (if pdf_only then length (page_bytes_of c) else length (saved_files_of c))
  = length (succeeded results)
  /\ failed c = errors_of results
  /\ (length (succeeded results) + length (errors_of results)
      = length images)%nat.
Proof.
  intros Hc results c.
  assert (Hidx : map res_index results ≡ₚ seq 1 (length images)).
  { unfold results. rewrite results_indices, Hc, tasks_of_indices. reflexivity. }
  assert (Hnd : NoDup (map res_index results)) by (rewrite Hidx; apply NoDup_seq).
  split; [apply (sorted_keys_length_saved pdf_only results Hnd)|].
  split; [unfold c, collect; rewrite collect_failed; reflexivity|].
  rewrite errors_of_length, <- length_app, succeeded_errored_split, Hidx.
  apply length_seq.
Qed.

(** X13: no retry and no stray request.  The requests of a finished run
    are the one for the chapter page, first, and then exactly one per
    extracted descriptor, each to the resolved URL of the descriptor, in
    whatever order the workers send them; there are total + 1 of them. *)
Theorem one_request_per_descriptor (W : World) (url output_dir : string)
    (create_pdf : bool) (pdf_filename : string) (pdf_only : bool)
    (max_workers : pyval) (s s' : state) (rep : report) :
  download_manga W url output_dir create_pdf pdf_filename pdf_only max_workers s
  = (inr rep, s') ->
  exists html images evs gets,
    page_get W url = inr html
    /\ find_images html = inr images
    /\ log s' = (log s ++ evs)%list
    /\ List.filter is_get evs = HttpGet url :: gets
    /\ gets ≡ₚ map (fun t => HttpGet (task_url t)) (tasks_of images)
    /\ length (List.filter is_get evs) = S (total rep).
Proof.
  intros Hrun.
  apply download_manga_inv_state in Hrun
    as (html & images & w & path & err & _ & Hpage & Himages & _ & Hd & ->).
  cbv zeta in Hd.
  apply document_step_frame in Hd as ((evs2 & Hlog2 & Hevs2) & _).
  destruct (fetch_state_log W output_dir pdf_only
              (effective_workers_of w (length images)) (tasks_of images)
              (State (files s) (log s ++ [MakeDirs output_dir; HttpGet url])))
    as (evs1 & Hlog1 & Hget1 & _).
  exists html, images,
    ([MakeDirs output_dir; HttpGet url] ++ evs1 ++ evs2)%list,
    (List.filter is_get evs1).
  assert (Hfilter :
    List.filter is_get ([MakeDirs output_dir; HttpGet url] ++ evs1 ++ evs2)
    = HttpGet url :: List.filter is_get evs1).
  { rewrite !List.filter_app, (no_get_among_document_events _ Hevs2).
    simpl. rewrite app_nil_r. reflexivity. }
  split; [exact Hpage|]. split; [exact Himages|].
  split; [rewrite Hlog2, Hlog1; simpl; rewrite <- !app_assoc; reflexivity|].
  split; [exact Hfilter|]. split; [exact Hget1|].
  rewrite Hfilter. simpl. rewrite (Permutation_length Hget1), length_map.
  f_equal. apply tasks_of_length.
Qed.

Lemma one_request_per_descriptor_witness :
  exists rep s' html images evs gets,
    download_manga Examples.world "https://example.org/chapter/1" "manga" true
      "chapter" false (PyInt 50) Examples.empty_state = (inr rep, s')
    /\ page_get Examples.world "https://example.org/chapter/1" = inr html
    /\ find_images html = inr images
    /\ log s' = (log Examples.empty_state ++ evs)%list
    /\ List.filter is_get evs
       = HttpGet "https://example.org/chapter/1" :: gets
    /\ gets ≡ₚ map (fun t => HttpGet (task_url t)) (tasks_of images)
    /\ length (List.filter is_get evs) = S (total rep).
Proof.
  destruct (download_manga Examples.world "https://example.org/chapter/1"
              "manga" true "chapter" false (PyInt 50) Examples.empty_state)
    as [[e|rep] s'] eqn:Hrun.
  - vm_compute in Hrun. discriminate Hrun.
  - destruct (one_request_per_descriptor Examples.world _ _ _ _ _ _ _ _ _ Hrun)
      as (html & images & evs & gets & H).
    exists rep, s', html, images, evs, gets.
    split; [reflexivity|exact H].
Defined.

(** In [Examples.world] the three requests for the images go out before
    the first file is written, and the files are written in the reverse
    of the order submitted. *)
Example requests_before_writes :
  log (download_manga Examples.world "https://example.org/chapter/1" "manga"
         false "chapter" false (PyInt 50) Examples.empty_state).2
  = [MakeDirs "manga"; HttpGet "https://example.org/chapter/1";
     HttpGet "https://cdn.example/1/001.jpg";
     HttpGet "https://cdn.example/1/002.PNG";
     HttpGet "https://cdn.example/1/003";
     FileWrite "manga/003.png" true;
     FileWrite "manga/001.jpg" true].
Proof. vm_compute. reflexivity. Qed.

(** X14: with every submitted task completing once, a finished run never
    reports more saved pages than extracted ones, and its list of failures
    is empty exactly when every page was saved. *)
Theorem clean_run_iff_all_saved (W : World) (url output_dir : string)
    (create_pdf : bool) (pdf_filename : string) (pdf_only : bool)
    (max_workers : pyval) (s s' : state) (rep : report) :
  (forall w l, as_completed W w l ≡ₚ l) ->
  download_manga W url output_dir create_pdf pdf_filename pdf_only max_workers s
  = (inr rep, s') ->
  (1 <= total rep)%nat
  /\ (saved rep <= total rep)%nat
  /\ (report_failed rep = [] <-> saved rep = total rep)
  /\ (saved rep = 0%nat <-> length (report_failed rep) = total rep).
Proof.
  intros Hperm Hrun.
  apply download_manga_inv_state in Hrun
    as (html & images & w & path & err & _ & _ & Himages & _ & _ & ->).
  destruct (run_accounting W output_dir pdf_only _ images
              (Hperm (effective_workers_of w (length images)) (tasks_of images)))
    as (Hsaved & Hfailed & Hsum).
  cbv zeta in *. simpl. rewrite Hsaved, Hfailed.
  apply find_images_inv in Himages as [Hne _].
  split; [destruct images; [contradiction|simpl; lia]|].
  split; [lia|]. split; [|lia].
  rewrite <- length_zero_iff_nil. lia.
Qed.

Lemma clean_run_iff_all_saved_witness :
  exists rep s',
    download_manga MoreExamples.picky_world "https://example.org/chapter/1"
      "manga" false "chapter" false (PyInt 2) Examples.empty_state
    = (inr rep, s')
    /\ (1 <= total rep)%nat
    /\ (saved rep <= total rep)%nat
    /\ (report_failed rep = [] <-> saved rep = total rep)
    /\ (saved rep = 0%nat <-> length (report_failed rep) = total rep).
Proof.
  destruct (download_manga MoreExamples.picky_world
              "https://example.org/chapter/1" "manga" false "chapter" false
              (PyInt 2) Examples.empty_state) as [[e|rep] s'] eqn:Hrun.
  - vm_compute in Hrun. discriminate Hrun.
  - exists rep, s'. split; [reflexivity|].
    exact (clean_run_iff_all_saved MoreExamples.picky_world _ _ _ _ _ _ _ _ _
             (fun _ l => Permutation_refl l) Hrun).
Defined.

(** X15: when a document is requested and nothing was saved, the assembly
    is not attempted: the report carries the error text for "no images",
    no image file is opened and no write of a document is attempted. *)
Theorem nothing_saved_skips_assembly (W : World) (url output_dir : string)
    (pdf_filename : string) (pdf_only : bool) (max_workers : pyval)
    (s s' : state) (rep : report) :
  download_manga W url output_dir true pdf_filename pdf_only max_workers s
  = (inr rep, s') ->
  saved rep = 0%nat ->
  pdf_error rep = Some nothing_saved_message
  /\ is_Some (pdf_path rep)
  /\ extends (fun ev => ~ touches_document ev) s s'.
Proof.
  intros Hrun Hzero.
  apply download_manga_inv_state in Hrun
    as (html & images & w & path & err & _ & _ & _ & _ & Hd & ->).
  cbv zeta in Hd. simpl in Hzero. rewrite Hzero in Hd.
  unfold document_step in Hd. simpl in Hd. unfold ret in Hd.
  injection Hd as <- <- <-. simpl.
  split; [reflexivity|]. split; [eauto|].
  match goal with
  | |- extends _ _ (fetch_state ?a ?b ?c ?w0 ?l ?s0) =>
      destruct (fetch_state_log a b c w0 l s0) as (evs & Hlog & _ & Hdoc)
  end.
  eapply extends_trans; [|eapply extends_app; [exact Hlog|exact Hdoc]].
  log_steps.
Qed.

Lemma nothing_saved_skips_assembly_witness :
  exists rep s',
    download_manga Examples.offline_world "https://example.org/chapter/1"
      "manga" true DEFAULT_PDF_NAME true (PyInt 8) Examples.empty_state
    = (inr rep, s')
    /\ pdf_error rep = Some nothing_saved_message
    /\ is_Some (pdf_path rep)
    /\ extends (fun ev => ~ touches_document ev) Examples.empty_state s'.
Proof.
  destruct (download_manga Examples.offline_world
              "https://example.org/chapter/1" "manga" true DEFAULT_PDF_NAME
              true (PyInt 8) Examples.empty_state) as [[e|rep] s'] eqn:Hrun.
  - vm_compute in Hrun. discriminate Hrun.
  - exists rep, s'. split; [reflexivity|].
    apply (nothing_saved_skips_assembly _ _ _ _ _ _ _ _ _ Hrun).
    vm_compute in Hrun. injection Hrun as <- _. reflexivity.
Defined.

(** ** The name of the document (lines 232-234) *)

Lemma lower_append (a b : string) :
  Py.lower (a +:+ b) = Py.lower a +:+ Py.lower b.
Proof. unfold Py.lower. rewrite chars_append, map_app, text_app. reflexivity. Qed.

Lemma document_step_path (W : World) output_dir pdf_filename pdf_only saved c
    s path err s' :
  document_step W output_dir true pdf_filename pdf_only saved c s
  = (inr (path, err), s') ->
  path = Some (os_path_join W output_dir
                 (if Py.endswith (Py.lower pdf_filename) ".pdf"
                  then pdf_filename else pdf_filename +:+ ".pdf")).
Proof.
  unfold document_step. destruct (0 <? saved)%nat.
  - cbv [try_except bind ret].
    match goal with
    | |- context [(if pdf_only then ?m1 else ?m2) s] =>
        destruct ((if pdf_only then m1 else m2) s) as [[e|u] s1]
    end; intros [= <- _ _]; reflexivity.
  - unfold ret. intros [= <- _ _]. reflexivity.
Qed.

(** X16: whenever a document is requested, the path reported is the
    output directory joined with a name that ends in ".pdf" when
    lower-cased: the requested name itself if it already does, the
    requested name with ".pdf" appended otherwise. *)
Theorem document_name_ends_in_pdf (W : World) (url output_dir : string)
    (pdf_filename : string) (pdf_only : bool) (max_workers : pyval)
    (s s' : state) (rep : report) :
  download_manga W url output_dir true pdf_filename pdf_only max_workers s
  = (inr rep, s') ->
  exists name,
    pdf_path rep = Some (os_path_join W output_dir name)
    /\ Py.endswith (Py.lower name) ".pdf" = true
    /\ (name = pdf_filename \/ name = pdf_filename +:+ ".pdf")
    /\ (Py.endswith (Py.lower pdf_filename) ".pdf" = true ->
        name = pdf_filename).
Proof.
  intros Hrun.
  apply download_manga_inv_state in Hrun
    as (html & images & w & path & err & _ & _ & _ & _ & Hd & ->).
  cbv zeta in Hd. apply document_step_path in Hd as ->. simpl.
  destruct (Py.endswith (Py.lower pdf_filename) ".pdf") eqn:E.
  - exists pdf_filename. auto.
  - exists (pdf_filename +:+ ".pdf"). split; [reflexivity|].
    split; [rewrite lower_append; apply endswith_append|].
    split; [auto|discriminate].
Qed.

Lemma document_name_ends_in_pdf_witness :
  exists rep s' name,
    download_manga Examples.world "https://example.org/chapter/1" "manga" true
      "Chapter 12" true (PyInt 4) Examples.empty_state = (inr rep, s')
    /\ pdf_path rep = Some (os_path_join Examples.world "manga" name)
    /\ Py.endswith (Py.lower name) ".pdf" = true
    /\ (name = "Chapter 12" \/ name = "Chapter 12" +:+ ".pdf")
    /\ (Py.endswith (Py.lower "Chapter 12") ".pdf" = true ->
        name = "Chapter 12").
Proof.
  destruct (download_manga Examples.world "https://example.org/chapter/1"
              "manga" true "Chapter 12" true (PyInt 4) Examples.empty_state)
    as [[e|rep] s'] eqn:Hrun.
  - vm_compute in Hrun. discriminate Hrun.
  - destruct (document_name_ends_in_pdf _ _ _ _ _ _ _ _ _ Hrun) as (name & H).
    exists rep, s', name. split; [reflexivity|exact H].
Defined.

(** ** The size of the pool (line 160) *)



(** ** The document of a run in document-only mode *)

Lemma unit_result_pdf_only (W : World) output_dir index base path :
  unit_result W output_dir true (index, base, path)
  = match image_get W (_build_image_url base path) with
    | inl e =>
        (index, None, None,
         Some (_build_image_url base path +:+ " (" +:+ exn_str e +:+ ")"))
    | inr resp => (index, None, Some (resp_content resp), None)
    end.
Proof.
  unfold unit_result.
  cbv [_download_one try_except bind worker_get lift record throw ret].
  simpl. destruct (image_get W _); reflexivity.
Qed.

Lemma is_error_failure_text (u x : string) :
  truthy (Some (u +:+ " (" +:+ x +:+ ")")) = true.
Proof.
  unfold truthy. rewrite bool_decide_eq_false_2; [reflexivity|].
  apply append_not_empty. discriminate.
Qed.

(** X18: in document-only mode, when the run reports no document error,
    the document at the reported path holds exactly the saved pages, made
    from the bodies of the images whose request succeeded, in strictly
    ascending order of descriptor index, whatever the order of completion;
    every other file is as before the run. *)
Theorem document_holds_fetched_pages_in_order (W : World)
    (url output_dir pdf_filename : string) (max_workers : pyval)
    (s s' : state) (rep : report) :
  (forall w l, as_completed W w l ≡ₚ l) ->
  download_manga W url output_dir true pdf_filename true max_workers s
  = (inr rep, s') ->
  pdf_error rep = None ->
  exists html images p pages entries,
    page_get W url = inr html
    /\ find_images html = inr images
    /\ pdf_path rep = Some p
    /\ files s' = <[p := Pdf pages]> (files s)
    /\ length pages = saved rep
    /\ StronglySorted lt (map fst entries)
    /\ Forall2 (fun x pg => page_from W x.2 pg) entries pages
    /\ (forall idx b,
          (idx, b) ∈ entries <->
          exists base path resp,
            (idx, base, path) ∈ tasks_of images
            /\ image_get W (_build_image_url base path) = inr resp
            /\ b = resp_content resp).
Proof.
  intros Hperm Hrun Herr.
  apply download_manga_inv_state in Hrun
    as (html & images & w & path & err & _ & Hpage & Himages & _ & Hd & ->).
  cbv zeta in Hd. simpl in Herr. subst err.
  set (completed := as_completed W (effective_workers_of w (length images))
                      (tasks_of images)) in *.
  set (results := map (unit_result W output_dir true) completed) in *.
  set (c := collect true results) in *.
  match type of Hd with
  | context [fetch_state ?a ?b true ?w0 ?l ?s0] =>
      destruct (fetch_state_pdf_only a b w0 l s0) as (gets & Hfetch & _)
  end.
  rewrite Hfetch in Hd. clear Hfetch.
  assert (Hc : completed ≡ₚ tasks_of images) by apply Hperm.
  assert (Hnd : NoDup (map res_index results)).
  { unfold results. rewrite results_indices, Hc. apply tasks_of_NoDup. }
  unfold document_step in Hd.
  destruct (0 <? length (page_bytes_of c))%nat; [|discriminate Hd].
  cbv [try_except bind ret] in Hd.
  match type of Hd with
  | context [create_pdf_from_page_bytes ?a ?b ?p ?s0] =>
      destruct (create_pdf_from_page_bytes a b p s0) as [[e|[]] s1] eqn:Hrun;
      [discriminate Hd|]; set (target := p) in *
  end.
  injection Hd as <- <-.
  destruct (create_pdf_from_page_bytes_pages _ _ _ _ _ Hrun)
    as (pages & Hfile & Hall).
  destruct (assembler_frame_helper W true _ [] _ _ _ _ Hrun) as (pages' & Hf).
  simpl in Hf.
  assert (pages' = pages) as ->.
  { rewrite Hf, lookup_insert_eq in Hfile. congruence. }
  exists html, images, target, pages, (page_bytes_of c). simpl.
  split; [exact Hpage|]. split; [exact Himages|]. split; [reflexivity|].
  split; [exact Hf|].
  split; [symmetry; eapply Forall2_length; exact Hall|].
  split; [rewrite page_bytes_of_indices; apply sorted_keys_ascending|].
  split; [exact Hall|].
  intros idx b. split.
  - intros Hin. apply page_bytes_of_entry in Hin
      as (r & Hr & Hidx & Hok & _ & Hb).
    unfold results in Hr. apply list_elem_of_fmap in Hr as ([[i base] path0] & -> & Ht).
    rewrite unit_result_index in Hidx. unfold task_index in Hidx. simpl in Hidx.
    subst i. rewrite unit_result_pdf_only in Hok, Hb.
    destruct (image_get W (_build_image_url base path0)) as [e|resp] eqn:Hget.
    + pose proof (is_error_failure_text (_build_image_url base path0)
                    (exn_str e)) as He.
      unfold is_error, res_error in Hok. simpl in Hok, He. congruence.
    + exists base, path0, resp. split; [rewrite <- Hc; exact Ht|].
      split; [exact Hget|exact Hb].
  - intros (base & path0 & resp & Ht & Hget & ->).
    assert (Hr : unit_result W output_dir true (idx, base, path0) ∈ results).
    { unfold results. apply list_elem_of_fmap. exists (idx, base, path0).
      split; [reflexivity|]. rewrite Hc. exact Ht. }
    assert (Hres : unit_result W output_dir true (idx, base, path0)
                   = (idx, None, Some (resp_content resp), None)).
    { rewrite unit_result_pdf_only, Hget. reflexivity. }
    assert (Hkey : idx ∈ sorted_keys (page_bytes_by_index c)).
    { pose proof (collect_sorted_keys true results Hnd) as Hk.
      cbv zeta in Hk. cbn [negb] in Hk. unfold c. rewrite Hk.
      unfold succeeded. apply list_elem_of_fmap.
      exists (idx, None, Some (resp_content resp), None).
      split; [reflexivity|]. apply list_elem_of_In. apply filter_In.
      split; [apply list_elem_of_In; rewrite <- Hres; exact Hr|reflexivity]. }
    assert (Hentry : (idx, page_bytes_by_index c !!! idx) ∈ page_bytes_of c).
    { unfold page_bytes_of. apply list_elem_of_fmap. exists idx. auto. }
    destruct (page_bytes_of_entry _ _ _ _ Hentry)
      as (r & Hr' & Hidx & Hok & _ & Hb).
    assert (r = unit_result W output_dir true (idx, base, path0)) as ->.
    { unfold results in Hr', Hr.
      apply list_elem_of_fmap in Hr' as (t' & -> & Ht').
      rewrite unit_result_index in Hidx.
      assert (t' = (idx, base, path0)) as ->; [|reflexivity].
      assert (Hndt : NoDup (map task_index completed))
        by (rewrite Hc; apply tasks_of_NoDup).
      assert (Ht0 : (idx, base, path0) ∈ completed) by (rewrite Hc; exact Ht).
      clear - Hndt Ht' Ht0 Hidx.
      induction completed as [|x l IH]; [inversion Ht'|].
      simpl in Hndt. apply NoDup_cons in Hndt as [Hx Hl].
      apply elem_of_cons in Ht' as [->|Ht'];
        apply elem_of_cons in Ht0 as [Ht0|Ht0]; auto.
      - exfalso. apply Hx. apply list_elem_of_fmap.
        exists (idx, base, path0). split; [exact Hidx|exact Ht0].
      - subst x. exfalso. apply Hx. apply list_elem_of_fmap.
        exists t'. split; [symmetry; exact Hidx|exact Ht']. }
    rewrite Hres in Hb. simpl in Hb. rewrite Hb in Hentry. exact Hentry.
Qed.

Lemma document_holds_fetched_pages_in_order_witness :
  exists rep s' html images p pages entries,
    download_manga Examples.world "https://example.org/chapter/1" "manga" true
      "chapter" true (PyInt 4) Examples.empty_state = (inr rep, s')
    /\ page_get Examples.world "https://example.org/chapter/1" = inr html
    /\ find_images html = inr images
    /\ pdf_path rep = Some p
    /\ files s' = <[p := Pdf pages]> (files Examples.empty_state)
    /\ length pages = saved rep
    /\ StronglySorted lt (map fst entries)
    /\ Forall2 (fun x pg => page_from Examples.world x.2 pg) entries pages
    /\ (forall idx b,
          (idx, b) ∈ entries <->
          exists base path resp,
            (idx, base, path) ∈ tasks_of images
            /\ image_get Examples.world (_build_image_url base path) = inr resp
            /\ b = resp_content resp).
Proof.
  destruct (download_manga Examples.world "https://example.org/chapter/1"
              "manga" true "chapter" true (PyInt 4) Examples.empty_state)
    as [[e|rep] s'] eqn:Hrun.
  - vm_compute in Hrun. discriminate Hrun.
  - destruct (document_holds_fetched_pages_in_order Examples.world _ _ _ _ _ _
                _ (fun _ l => Permutation_sym (Permutation_rev l)) Hrun)
      as (html & images & p & pages & entries & H).
    { vm_compute in Hrun. injection Hrun as <- _. reflexivity. }
    exists rep, s', html, images, p, pages, entries.
    split; [reflexivity|exact H].
Defined.

(** ** What the matcher finds is a match *)

Lemma greedy_sound {R} (k : list ascii -> nat -> option R) cls s : forall pos r,
  Re.greedy k cls s pos = Some r ->
  exists u rest,
    s = (u ++ rest)%list /\ forallb cls u = true
    /\ k rest (pos + length u)%nat = Some r.
Proof.
  induction s as [|c s IH]; intros pos r; simpl.
  - intros H. exists [], []. rewrite Nat.add_0_r. auto.
  - destruct (cls c) eqn:Hc.
    + destruct (Re.greedy k cls s (S pos)) as [r'|] eqn:Hg.
      * intros [= <-]. destruct (IH _ _ Hg) as (u & rest & -> & Hu & Hk).
        exists (c :: u), rest. simpl. rewrite Hc, Hu.
        replace (pos + S (length u))%nat with (S pos + length u)%nat by lia.
        auto.
      * intros H. exists [], (c :: s). rewrite Nat.add_0_r. auto.
    + intros H. exists [], (c :: s). rewrite Nat.add_0_r. auto.
Qed.

Lemma lazy_sound {R} (k : list ascii -> nat -> option R) cls s : forall pos r,
  Re.lazy k cls s pos = Some r ->
  exists u rest,
    s = (u ++ rest)%list /\ forallb cls u = true
    /\ k rest (pos + length u)%nat = Some r.
Proof.
  induction s as [|c s IH]; intros pos r; simpl.
  - destruct (k [] pos) eqn:Hk; [|discriminate].
    intros [= <-]. exists [], []. rewrite Nat.add_0_r. auto.
  - destruct (k (c :: s) pos) eqn:Hk.
    + intros [= <-]. exists [], (c :: s). rewrite Nat.add_0_r. auto.
    + destruct (cls c) eqn:Hc; [|discriminate].
      intros H. destruct (IH _ _ H) as (u & rest & -> & Hu & Hk').
      exists (c :: u), rest. simpl. rewrite Hc, Hu.
      replace (pos + S (length u))%nat with (S pos + length u)%nat by lia.
      auto.
Qed.

Lemma run_sound (p : Re.regex) : forall s pos marks e marks',
  Re.run p s pos marks = Some (e, marks') ->
  exists w rest ms,
    s = (w ++ rest)%list /\ matches p w pos ms
    /\ e = (pos + length w)%nat /\ marks' = (marks ++ ms)%list.
Proof.
  induction p as [|n p IH]; intros s pos marks e marks'; simpl.
  - intros [= <- <-]. exists [], s, []. rewrite Nat.add_0_r, app_nil_r.
    repeat split. constructor.
  - destruct n as [c|c|cls|cls|cls|].
    + destruct s as [|a s]; [discriminate|].
      destruct (Ascii.eqb_spec a c) as [->|]; [|discriminate].
      intros H. apply IH in H as (w & rest & ms & -> & Hm & -> & ->).
      exists (c :: w), rest, ms. simpl. repeat split; [|lia].
      constructor. exact Hm.
    + assert (Hnone : Re.run p s pos marks = Some (e, marks') ->
                exists w rest ms,
                  s = (w ++ rest)%list /\ matches (Re.Opt c :: p) w pos ms
                  /\ e = (pos + length w)%nat /\ marks' = (marks ++ ms)%list).
      { intros H. apply IH in H as (w & rest & ms & -> & Hm & -> & ->).
        exists w, rest, ms. repeat split. apply matches_opt_none. exact Hm. }
      destruct s as [|a s]; [exact Hnone|].
      destruct (Ascii.eqb_spec a c) as [->|]; [|exact Hnone].
      destruct (Re.run p s (S pos) marks) as [[e1 m1]|] eqn:H1; [|exact Hnone].
      intros [= <- <-]. apply IH in H1 as (w & rest & ms & -> & Hm & -> & ->).
      exists (c :: w), rest, ms. simpl. repeat split; [|lia].
      apply matches_opt_some. exact Hm.
    + destruct s as [|a s]; [discriminate|].
      destruct (cls a) eqn:Ha; [|discriminate].
      intros H. apply greedy_sound in H as (u & rest0 & -> & Hu & H).
      apply IH in H as (w & rest & ms & -> & Hm & -> & ->).
      exists ((a :: u) ++ w)%list, rest, ms.
      split; [simpl; rewrite <- app_assoc; reflexivity|].
      split; [|split; [rewrite length_app; simpl; lia|reflexivity]].
      apply matches_plus; [discriminate|simpl; rewrite Ha; exact Hu|].
      simpl. replace (pos + S (length u))%nat with (S pos + length u)%nat by lia.
      exact Hm.
    + intros H. apply greedy_sound in H as (u & rest0 & -> & Hu & H).
      apply IH in H as (w & rest & ms & -> & Hm & -> & ->).
      exists (u ++ w)%list, rest, ms.
      split; [rewrite <- app_assoc; reflexivity|].
      split; [|split; [rewrite length_app; lia|reflexivity]].
      apply matches_star; assumption.
    + intros H. apply lazy_sound in H as (u & rest0 & -> & Hu & H).
      apply IH in H as (w & rest & ms & -> & Hm & -> & ->).
      exists (u ++ w)%list, rest, ms.
      split; [rewrite <- app_assoc; reflexivity|].
      split; [|split; [rewrite length_app; lia|reflexivity]].
      apply matches_lazy; assumption.
    + intros H. apply IH in H as (w & rest & ms & -> & Hm & -> & ->).
      exists w, rest, (pos :: ms).
      split; [reflexivity|]. split; [constructor; exact Hm|].
      split; [reflexivity|]. rewrite <- app_assoc. reflexivity.
Qed.

(** Every match reported by [finditer] was found by the matcher at its
    start offset, which lies within the subject. *)
Lemma finditer_from_at (p : Re.regex) s : forall pos skip m,
  m ∈ Re.finditer_from p s pos skip ->
  (pos <= Re.m_start m <= pos + length s)%nat
  /\ Re.at_pos p (drop (Re.m_start m - pos) s) (Re.m_start m) = Some m.
Proof.
  induction s as [|c s IH]; intros pos skip m; simpl.
  - destruct skip; [|intros H; inversion H].
    destruct (Re.at_pos p [] pos) as [m0|] eqn:E; [|intros H; inversion H].
    intros H. apply list_elem_of_singleton in H as ->.
    rewrite (at_pos_start p _ _ _ E), Nat.sub_diag. simpl.
    split; [lia|exact E].
  - assert (Hstep : forall n, m ∈ Re.finditer_from p s (S pos) n ->
              (pos <= Re.m_start m <= pos + S (length s))%nat
              /\ Re.at_pos p (drop (Re.m_start m - pos) (c :: s))
                   (Re.m_start m) = Some m).
    { intros n H. apply IH in H as [Hle Hat]. split; [lia|].
      replace (Re.m_start m - pos)%nat with (S (Re.m_start m - S pos)) by lia.
      exact Hat. }
    destruct skip as [|n]; [|apply Hstep].
    destruct (Re.at_pos p (c :: s) pos) as [m0|] eqn:E; [|apply Hstep].
    intros H. apply elem_of_cons in H as [->|H]; [|eapply Hstep; exact H].
    rewrite (at_pos_start p _ _ _ E), Nat.sub_diag. simpl.
    split; [lia|exact E].
Qed.

(** A match reported by [finditer] is an instance of the pattern lying in
    the subject at its offsets. *)
Lemma finditer_match (p : Re.regex) (subject : string) (m : Re.found) :
  m ∈ Re.finditer p subject ->
  exists pre w rest,
    Py.chars subject = (pre ++ w ++ rest)%list
    /\ length pre = Re.m_start m
    /\ Re.m_end m = (Re.m_start m + length w)%nat
    /\ matches p w (Re.m_start m) (Re.m_marks m).
Proof.
  intros H. apply finditer_from_at in H as [Hle Hat].
  rewrite Nat.sub_0_r in Hat. unfold Re.at_pos in Hat.
  destruct (Re.run p _ _ []) as [[e marks]|] eqn:Hrun; [|discriminate].
  injection Hat as <-. simpl in *.
  apply run_sound in Hrun as (w & rest & ms & Hs & Hm & -> & ->).
  simpl in *.
  exists (take (Re.m_start m) (Py.chars subject)), w, rest.
  rewrite <- Hs, take_drop. split; [reflexivity|].
  split; [rewrite length_take; lia|]. split; [reflexivity|exact Hm].
Qed.

Ltac invert_matches :=
  repeat match goal with
         | H : matches (_ :: _) _ _ _ |- _ => inversion H; subst; clear H
         | H : matches [] _ _ _ |- _ => inversion H; subst; clear H
         end.

(** The instances of the pattern of line 148. *)
Lemma image_pattern_match (w : list ascii) (pos : nat) (ms : list nat) :
  matches image_pattern w pos ms ->
  exists sch u v,
    (sch = Py.chars "http" \/ sch = Py.chars "https")
    /\ u <> [] /\ forallb (not_char "'") u = true
    /\ v <> [] /\ forallb (not_char Py.dquote) v = true
    /\ w = (Py.chars "['" ++ (sch ++ Py.chars "://" ++ u)
            ++ Py.chars "','',"
            ++ [Py.dquote] ++ v ++ [Py.dquote])%list
    /\ ms = [(pos + 2)%nat;
             (pos + 2 + length (sch ++ Py.chars "://" ++ u))%nat;
             (pos + 2 + length (sch ++ Py.chars "://" ++ u) + 6)%nat;
             (pos + 2 + length (sch ++ Py.chars "://" ++ u) + 6 + length v)%nat].
Proof.
  intros H. unfold image_pattern, Re.lits in H. simpl in H.
  invert_matches.
  - exists (Py.chars "https"), u, u0.
    split; [right; reflexivity|]. repeat (split; [assumption|]).
    split; [simpl; rewrite <- ?app_assoc; reflexivity|].
    simpl. repeat f_equal; lia.
  - exists (Py.chars "http"), u, u0.
    split; [left; reflexivity|]. repeat (split; [assumption|]).
    split; [simpl; rewrite <- ?app_assoc; reflexivity|].
    simpl. repeat f_equal; lia.
Qed.

Lemma between_middle (subject : string) (pre g post : list ascii) :
  Py.chars subject = (pre ++ g ++ post)%list ->
  Re.between subject (length pre) (length pre + length g) = Py.text g.
Proof.
  intros H. unfold Re.between. rewrite H.
  rewrite drop_app_length.
  replace (length pre + length g - length pre)%nat with (length g) by lia.
  rewrite take_app_length. reflexivity.
Qed.

(** The two groups of an entry found in a data block. *)
Lemma image_entry_groups (data : string) (m : Re.found) :
  m ∈ Re.finditer image_pattern data ->
  exists sch u v,
    (sch = Py.chars "http" \/ sch = Py.chars "https")
    /\ u <> [] /\ forallb (not_char "'") u = true
    /\ v <> [] /\ forallb (not_char Py.dquote) v = true
    /\ Re.group data m 1 = Py.text (sch ++ Py.chars "://" ++ u)
    /\ Re.group data m 2 = Py.text v.
Proof.
  intros H. apply finditer_match in H as (pre & w & rest & Hs & Hpre & _ & Hm).
  apply image_pattern_match in Hm
    as (sch & u & v & Hsch & Hu & Hcu & Hv & Hcv & -> & Hms).
  exists sch, u, v. repeat (split; [assumption|]).
  remember (sch ++ Py.chars "://" ++ u)%list as g1 eqn:Hg1.
  assert (H1 : Re.group data m 1
               = Re.between data (Re.m_start m + 2)
                   (Re.m_start m + 2 + length g1)).
  { unfold Re.group. rewrite Hms. reflexivity. }
  assert (H2 : Re.group data m 2
               = Re.between data (Re.m_start m + 2 + length g1 + 6)
                   (Re.m_start m + 2 + length g1 + 6 + length v)).
  { unfold Re.group. rewrite Hms. reflexivity. }
  rewrite H1, H2, <- Hpre. clear H1 H2 Hms.
  split.
  - replace (length pre + 2)%nat with (length (pre ++ Py.chars "['")%list)
      by (rewrite length_app; reflexivity).
    apply (between_middle data _ g1
             (Py.chars "',''," ++ [Py.dquote] ++ v ++ [Py.dquote] ++ rest)).
    rewrite Hs, <- !app_assoc. reflexivity.
  - replace (length pre + 2 + length g1 + 6)%nat
      with (length (pre ++ Py.chars "['" ++ g1 ++ Py.chars "',''," ++ [Py.dquote])%list)
      by (rewrite !length_app; simpl; lia).
    apply (between_middle data _ v ([Py.dquote] ++ rest)).
    rewrite Hs, <- !app_assoc. reflexivity.
Qed.

Lemma starts_text (p l : list ascii) :
  Py.startswith (Py.text l) (Py.text p) = Py.starts p l.
Proof. unfold Py.startswith. rewrite !chars_text. reflexivity. Qed.

Lemma forallb_not_char (c : ascii) (l : list ascii) :
  forallb (not_char c) l = true -> Py.contains l c = false.
Proof.
  induction l as [|a l IH]; simpl; [reflexivity|].
  unfold not_char at 1. rewrite (Ascii.eqb_sym c a).
  destruct (Ascii.eqb a c); simpl; [discriminate|exact IH].
Qed.

(** X19: every descriptor extracted from a page has a base that starts
    with http:// or https://, goes on for at least one more character and
    holds no single quote, and a path that is not empty and holds no
    double quote; hence the resolved URL of every descriptor starts with
    http:// or https://. *)
Theorem extracted_descriptors_are_http_urls (html : string)
    (images : list (string * string)) (base path : string) :
  find_images html = inr images ->
  (base, path) ∈ images ->
  (Py.startswith base "http://" || Py.startswith base "https://" = true)
  /\ (8 <= String.length base)%nat
  /\ Py.contains (Py.chars base) "'" = false
  /\ path <> EmptyString
  /\ Py.contains (Py.chars path) Py.dquote = false
  /\ (Py.startswith (_build_image_url base path) "http://"
      || Py.startswith (_build_image_url base path) "https://" = true).
Proof.
  intros Hfind Hin.
  apply find_images_inv in Hfind as (_ & m0 & _ & ->).
  unfold findall2 in Hin. apply list_elem_of_fmap in Hin as (m & [= -> ->] & Hm).
  apply image_entry_groups in Hm
    as (sch & u & v & Hsch & Hu & Hcu & Hv & Hcv & -> & ->).
  assert (Hbase : Py.startswith (Py.text (sch ++ Py.chars "://" ++ u)) "http://"
                  || Py.startswith (Py.text (sch ++ Py.chars "://" ++ u))
                       "https://" = true).
  { unfold Py.startswith. rewrite chars_text.
    destruct Hsch as [-> | ->]; simpl; reflexivity. }
  split; [exact Hbase|].
  split.
  { rewrite <- chars_length, chars_text, !length_app.
    destruct u; [contradiction|]. destruct Hsch as [-> | ->]; simpl; lia. }
  split.
  { rewrite chars_text. unfold Py.contains. rewrite !existsb_app.
    apply forallb_not_char in Hcu. unfold Py.contains in Hcu. rewrite Hcu.
    destruct Hsch as [-> | ->]; reflexivity. }
  split.
  { intros H. apply (f_equal Py.chars) in H. rewrite chars_text in H.
    simpl in H. contradiction. }
  split.
  { rewrite chars_text. apply forallb_not_char. exact Hcv. }
  unfold _build_image_url.
  destruct (Py.startswith (Py.text v) "http://"
            || Py.startswith (Py.text v) "https://") eqn:E; [exact E|].
  unfold Py.startswith. rewrite chars_append, chars_text.
  destruct Hsch as [-> | ->]; simpl; reflexivity.
Qed.

Lemma extracted_descriptors_are_http_urls_witness :
  (Py.startswith "https://cdn.example/1/" "http://"
   || Py.startswith "https://cdn.example/1/" "https://" = true)
  /\ (8 <= String.length "https://cdn.example/1/")%nat
  /\ Py.contains (Py.chars "https://cdn.example/1/") "'" = false
  /\ "002.PNG" <> EmptyString
  /\ Py.contains (Py.chars "002.PNG") Py.dquote = false
  /\ (Py.startswith (_build_image_url "https://cdn.example/1/" "002.PNG")
        "http://"
      || Py.startswith (_build_image_url "https://cdn.example/1/" "002.PNG")
           "https://" = true).
Proof.
  apply (extracted_descriptors_are_http_urls Examples.chapter_page
           [("https://cdn.example/1/", "001.jpg");
            ("https://cdn.example/1/", "002.PNG");
            ("https://cdn.example/1/", "003")]).
  - vm_compute. reflexivity.
  - apply list_elem_of_further. apply list_elem_of_here.
Defined.


(** ** The window: what is launched and what is shown (lines 347-467) *)

Lemma str_or_not_empty (a b : string) :
  b <> EmptyString -> str_or a b <> EmptyString.
Proof. unfold str_or. case_bool_decide; auto. Qed.

(** X20: [start_download] either shows exactly one warning and does
    nothing else, or ends by starting the worker, with no dialog before.
    The worker is started only with a non-empty, trimmed URL, a non-empty
    output directory and document name, never with document-only mode
    without document creation, and with a worker count between 1 and 16;
    the pool size the pipeline derives from that count is the one it would
    derive from the number typed. *)
Theorem start_download_validates (W : World) (f : form) :
  (exists title message, start_download W f = [ShowWarning title message])
  \/ (exists before url output_dir make_pdf pdf_name pdf_only max_workers n,
        start_download W f
        = (before ++ [StartWorker url output_dir make_pdf pdf_name pdf_only
                        max_workers])%list
        /\ Forall (fun a => is_dialog a = false /\ is_start a = false) before
        /\ url = Py.strip (url_var f) /\ url <> EmptyString
        /\ output_dir <> EmptyString /\ pdf_name <> EmptyString
        /\ make_pdf = make_pdf_var f /\ pdf_only = pdf_only_var f
        /\ pdf_only && negb make_pdf = false
        /\ int_of_str W (str_or (Py.strip (workers_var f)) "8") = Some n
        /\ 1 <= max_workers <= MAX_DOWNLOAD_WORKERS
        /\ (forall N, effective_workers_of max_workers N
                      = effective_workers_of n N)).
Proof.
  unfold start_download.
  case_bool_decide as Hurl; [left; eauto|].
  destruct (pdf_only_var f && negb (make_pdf_var f)) eqn:Hopt; [left; eauto|].
  change (pretty DEFAULT_DOWNLOAD_WORKERS) with "8".
  destruct (int_of_str W _) as [n|] eqn:Hn; [|left; eauto].
  right. cbv zeta. rewrite !app_assoc.
  eexists _, _, _, _, _, _, _, n. split; [reflexivity|].
  split.
  { repeat (apply Forall_app; split);
      [|destruct (make_pdf_var f)|destruct (pdf_only_var f)];
      repeat constructor. }
  split; [reflexivity|]. split; [exact Hurl|].
  split; [apply str_or_not_empty; discriminate|].
  split; [apply str_or_not_empty; discriminate|].
  split; [reflexivity|]. split; [reflexivity|]. split; [exact Hopt|].
  split; [reflexivity|].
  unfold effective_workers_of, MAX_DOWNLOAD_WORKERS. split; [lia|].
  intros N. lia.
Qed.

Lemma truthy_spec (o : option string) :
  truthy o = true <-> exists t, o = Some t /\ t <> EmptyString.
Proof.
  destruct o as [t|]; simpl.
  - case_bool_decide; simpl; split; try discriminate.
    + intros (t' & [= <-] & H'). contradiction.
    + eauto.
    + auto.
  - split; [discriminate|]. intros (t & H & _). discriminate.
Qed.

(** X21: [_handle_success] frees the form first, writes log lines, sets
    the status line and ends with exactly one dialog: a warning when the
    report lists failures or carries a non-empty document error, an
    information box otherwise.  Every failure of the report is listed in
    the log, and the line announcing the saved document is written exactly
    when the report has a non-empty document path and no (or an empty)
    document error. *)
Theorem handle_success_shows_one_dialog (result : report) (output_dir : string) :
  exists logs status dialog,
    _handle_success result output_dir
    = (SetBusy false :: map AppendLog logs ++ [SetStatus status; dialog])%list
    /\ is_dialog dialog = true
    /\ ((exists t m, dialog = ShowWarning t m)
        <-> report_failed result <> [] \/ truthy (pdf_error result) = true)
    /\ ((exists t m, dialog = ShowInfo t m)
        <-> report_failed result = [] /\ truthy (pdf_error result) = false)
    /\ (forall item, item ∈ report_failed result -> ("- " +:+ item) ∈ logs)
    /\ (("PDF сохранен: " +:+ default EmptyString (pdf_path result)) ∈ logs
        <-> truthy (pdf_path result) = true
            /\ truthy (pdf_error result) = false).
Proof.
  unfold _handle_success.
  set (failed_lines :=
         if bool_decide (report_failed result = []) then []
         else "Список ошибок загрузки:"
              :: map (fun item => "- " +:+ item) (report_failed result)).
  set (error_lines :=
         if truthy (pdf_error result)
         then ["Ошибка сборки PDF: "
               +:+ default EmptyString (pdf_error result)] else []).
  set (ok_lines :=
         if truthy (pdf_path result) && negb (truthy (pdf_error result))
         then ["PDF сохранен: " +:+ default EmptyString (pdf_path result)]
         else []).
  assert (Hfailed : forall item, item ∈ report_failed result ->
            ("- " +:+ item) ∈ failed_lines).
  { intros item Hin. unfold failed_lines. case_bool_decide as Hnil.
    - rewrite Hnil in Hin. inversion Hin.
    - apply list_elem_of_further. apply list_elem_of_fmap. eauto. }
  assert (Hok : ("PDF сохранен: " +:+ default EmptyString (pdf_path result))
                ∈ (failed_lines ++ error_lines ++ ok_lines)%list
                <-> truthy (pdf_path result) = true
                    /\ truthy (pdf_error result) = false).
  { rewrite !elem_of_app. unfold failed_lines, error_lines, ok_lines. split.
    - intros [H|[H|H]].
      + case_bool_decide; [inversion H|].
        apply elem_of_cons in H as [H|H]; [discriminate H|].
        apply list_elem_of_fmap in H as (item & H & _). discriminate H.
      + destruct (truthy (pdf_error result)); [|inversion H].
        apply list_elem_of_singleton in H. discriminate H.
      + destruct (truthy (pdf_path result)), (truthy (pdf_error result));
          simpl in H; try (inversion H; fail). auto.
    - intros [-> ->]. right. right. simpl. apply list_elem_of_here. }
  exists (failed_lines ++ error_lines ++ ok_lines)%list.
  assert (Hshape : forall tail,
    ([SetBusy false]
     ++ (if bool_decide (report_failed result = []) then []
         else AppendLog "Список ошибок загрузки:"
              :: map (fun item => AppendLog ("- " +:+ item))
                     (report_failed result))
     ++ (if truthy (pdf_error result)
         then [AppendLog ("Ошибка сборки PDF: "
                          +:+ default EmptyString (pdf_error result))] else [])
     ++ (if truthy (pdf_path result) && negb (truthy (pdf_error result))
         then [AppendLog ("PDF сохранен: "
                          +:+ default EmptyString (pdf_path result))] else [])
     ++ tail)%list
    = (SetBusy false
       :: map AppendLog (failed_lines ++ error_lines ++ ok_lines) ++ tail)%list).
  { intros tail. unfold failed_lines, error_lines, ok_lines.
    rewrite !map_app. simpl. rewrite <- !app_assoc.
    repeat f_equal.
    - case_bool_decide; [reflexivity|]. simpl. rewrite map_map. reflexivity.
    - destruct (truthy (pdf_error result)); reflexivity.
    - destruct (truthy (pdf_path result) && negb (truthy (pdf_error result)));
        reflexivity. }
  rewrite Hshape.
  assert (Hlogs : forall item, item ∈ report_failed result ->
            ("- " +:+ item) ∈ (failed_lines ++ error_lines ++ ok_lines)%list).
  { intros item Hin. apply elem_of_app. left. auto. }
  destruct (bool_decide (report_failed result = [])) eqn:Hf;
    [apply bool_decide_eq_true in Hf|apply bool_decide_eq_false in Hf];
    destruct (truthy (pdf_error result)) eqn:He; simpl;
    try (eexists _, _; split; [reflexivity|]; split; [reflexivity|];
         split; [split; [eauto|intros _; eauto]|];
         split; [split; [intros (t & m & H); discriminate H
                        |intros [H1 H2]; try contradiction; discriminate]|];
         split; [exact Hlogs|exact Hok]).
  destruct (pdf_requested result && truthy (pdf_path result));
    (eexists _, _; split; [reflexivity|]; split; [reflexivity|];
     split; [split; [intros (t & m & H); discriminate H
                    |intros [H|H]; [contradiction|discriminate]]|];
     split; [split; [auto|eauto]|];
     split; [exact Hlogs|exact Hok]).
Qed.

Lemma handle_success_announces (result : report) (output_dir : string) :
  AppendLog ("PDF сохранен: " +:+ default EmptyString (pdf_path result))
  ∈ _handle_success result output_dir
  <-> truthy (pdf_path result) = true /\ truthy (pdf_error result) = false.
Proof.
  unfold _handle_success. rewrite !elem_of_app. split.
  - intros [H|[H|[H|[H|H]]]].
    + apply list_elem_of_singleton in H. discriminate H.
    + case_bool_decide; [inversion H|].
      apply elem_of_cons in H as [H|H]; [discriminate H|].
      apply list_elem_of_fmap in H as (item & H & _). discriminate H.
    + destruct (truthy (pdf_error result)); [|inversion H].
      apply list_elem_of_singleton in H. discriminate H.
    + destruct (truthy (pdf_path result)), (truthy (pdf_error result));
        simpl in H; try (inversion H; fail). auto.
    + exfalso. repeat case_match;
        repeat (apply elem_of_cons in H as [H|H]; [discriminate H|]);
        inversion H.
  - intros [-> ->]. right. right. right. left. simpl. apply list_elem_of_here.
Qed.

Lemma produced_dec (evs : list event) : produced evs \/ ~ produced evs.
Proof.
  induction evs as [|ev evs [IH|IH]].
  - right. intros (ev & Hin & _). inversion Hin.
  - left. destruct IH as (ev' & Hin & Hd). exists ev'.
    split; [apply list_elem_of_further; exact Hin|exact Hd].
  - destruct ev as [d|u|p w|p|p [|]];
      try (right; intros (ev' & Hin & Hd);
           apply elem_of_cons in Hin as [->|Hin];
           [exact Hd|apply IH; exists ev'; split; assumption]).
    left. exists (PdfWrite p true). split; [apply list_elem_of_here|exact I].
Qed.

(** X22: the window and the pipeline together.  When the report of a
    finished run is handed to [_handle_success], the line announcing the
    saved document appears only if a document was requested and either was
    written during the run or the assembly raised an exception whose text
    is empty; and it does appear whenever a document was written and its
    path is not the empty text. *)
Theorem window_announces_written_document (W : World)
    (url output_dir : string) (create_pdf : bool) (pdf_filename : string)
    (pdf_only : bool) (max_workers : pyval) (s s' : state) (r : report) :
  download_manga W url output_dir create_pdf pdf_filename pdf_only max_workers s
  = (inr r, s') ->
  let line :=
    AppendLog ("PDF сохранен: " +:+ default EmptyString (pdf_path r)) in
  exists evs,
    log s' = (log s ++ evs)%list
    /\ (line ∈ _handle_success r output_dir ->
        pdf_requested r = true
        /\ (produced evs \/ pdf_error r = Some EmptyString))
    /\ (produced evs -> pdf_path r <> Some EmptyString ->
        line ∈ _handle_success r output_dir).
Proof.
  intros Hrun line.
  apply download_manga_inv in Hrun
    as (html & images & w & s1 & path & err & _ & _ & _ & Hrest).
  cbv zeta in Hrest. destruct Hrest as ((evs1 & Hlog1 & Hevs1) & Hd & ->).
  match type of Hd with
  | document_step ?a1 ?a2 ?a3 ?a4 ?a5 ?a6 ?a7 ?a8 = _ =>
      destruct (document_step_run a1 a2 a3 a4 a5 a6 a7 a8)
        as (path' & err' & s2 & evs2 & Hd' & Hlog2 & Hpath & Herr & Hprod & _)
  end.
  rewrite Hd in Hd'. injection Hd' as <- <- <-.
  assert (H1 : ~ produced evs1) by (apply not_produced; exact Hevs1).
  exists (evs1 ++ evs2)%list.
  split; [rewrite Hlog2, Hlog1, app_assoc; reflexivity|].
  rewrite (produced_app evs1 evs2 H1). subst line.
  rewrite handle_success_announces. simpl. split.
  - intros [Hp He]. apply truthy_spec in Hp as (p & -> & Hne).
    assert (Hcp : create_pdf = true) by (apply Hpath; eauto).
    split; [exact Hcp|].
    destruct err as [t|].
    + right. simpl in He. case_bool_decide; [congruence|discriminate].
    + left. destruct (produced_dec evs2) as [H|H]; [exact H|].
      assert (is_Some (@None string)) as [? ?] by (apply Herr; auto).
      discriminate.
  - intros Hp Hne. destruct (Hprod Hp) as (p & pages & -> & _).
    split.
    + apply truthy_spec. exists p. split; [reflexivity|]. congruence.
    + destruct err as [t|]; [|reflexivity].
      assert (Hs : is_Some (Some t)) by eauto.
      apply Herr in Hs as [_ Hn]. contradiction.
Qed.

Lemma window_announces_written_document_witness :
  exists r s' evs,
    download_manga Examples.world "https://example.org/chapter/1" "manga" true
      "chapter" true (PyInt 4) Examples.empty_state = (inr r, s')
    /\ log s' = (log Examples.empty_state ++ evs)%list
    /\ (AppendLog ("PDF сохранен: " +:+ default EmptyString (pdf_path r))
        ∈ _handle_success r "manga" ->
        pdf_requested r = true
        /\ (produced evs \/ pdf_error r = Some EmptyString))
    /\ (produced evs -> pdf_path r <> Some EmptyString ->
        AppendLog ("PDF сохранен: " +:+ default EmptyString (pdf_path r))
        ∈ _handle_success r "manga").
Proof.
  destruct (download_manga Examples.world "https://example.org/chapter/1"
              "manga" true "chapter" true (PyInt 4) Examples.empty_state)
    as [[e|r] s'] eqn:Hrun.
  - vm_compute in Hrun. discriminate Hrun.
  - destruct (window_announces_written_document _ _ "manga" _ _ _ _ _ _ _ Hrun)
      as (evs & H).
    exists r, s', evs. split; [reflexivity|exact H].
Defined.
